(** * F1 chart application: a shallow embedding of [main.py]

    The program is one class, [F1ChartApp].  Its methods are embedded as
    functions over an explicit application state:

    - Python values that reach the code (decoded JSON) are the inductive
      [json]; subscripting, iteration, [int], [str.isdigit] and integer
      true division are written out with the exceptions they raise;
    - the dictionaries the code builds ([self.data], [finish_positions],
      [win_counts], [podium_counts]) are insertion-ordered association
      lists, because the order of [keys()] decides the order of the bars;
    - effects (message boxes, HTTP requests, the axes and the canvas) are
      fields of the record [App]; an exception that leaves a method is
      the [Err] branch of [result].

    Text is [string]: one [ascii] per code point below 256; text with
    code points above 255 is outside the model.  Binary64 values are
    [spec_float].  Two things that libraries decide are parameters:
    [float] applied to a payload field ([py_float]) and whether
    [ax.bar] accepts a series ([bar_error]). *)

From Stdlib Require Import ZArith List String Ascii Bool Lia.
From Stdlib Require Import Floats.SpecFloat.
From Stdlib Require Import DecimalString.
From Stdlib Require Import Permutation.
Import ListNotations.

Set Warnings "-register-all".

Local Open Scope string_scope.
Local Open Scope Z_scope.
Local Open Scope list_scope.

(** ** Exceptions and results *)

Inductive exn : Type :=
| KeyError
| IndexError
| TypeError
| ValueError
| ZeroDivisionError
| OverflowError.

Inductive result (A : Type) : Type :=
| Ok (a : A)
| Err (e : exn).

Arguments Ok {A} a.
Arguments Err {A} e.

Definition bind {A B : Type} (r : result A) (k : A -> result B) : result B :=
  match r with
  | Ok a => k a
  | Err e => Err e
  end.

Notation "x <- r ;; k" := (bind r (fun x => k))
  (at level 100, r at next level, right associativity).

(** [mapM f l]: a list comprehension [[f x for x in l]]; the first
    exception ends it. *)
Fixpoint mapM {A B : Type} (f : A -> result B) (l : list A) : result (list B) :=
  match l with
  | [] => Ok []
  | x :: r => y <- f x ;; ys <- mapM f r ;; Ok (y :: ys)
  end.

(** [foldM f l a]: a [for x in l] loop whose body updates [a]; the first
    exception ends it. *)
Fixpoint foldM {A B : Type} (f : A -> B -> result A) (l : list B) (a : A) : result A :=
  match l with
  | [] => Ok a
  | x :: r => a' <- f a x ;; foldM f r a'
  end.

(** ** Decoded JSON *)

Definition float : Type := spec_float.

(** What [response.json()] returns: [None], [bool], [int], [float]
    (a number written with a fraction or an exponent, [Infinity],
    [NaN]), [str], [list], [dict].  A [dict] is the list of the members
    of the JSON object as written; when a name is repeated the decoder
    keeps the last value. *)
Inductive json : Type :=
| JNull
| JBool (b : bool)
| JInt (z : Z)
| JFloat (f : float)
| JStr (s : string)
| JArr (items : list json)
| JObj (fields : list (string * json)).

Fixpoint assoc (k : string) (fields : list (string * json)) : option json :=
  match fields with
  | [] => None
  | (k', v) :: r =>
      match assoc k r with
      | Some v' => Some v'
      | None => if String.eqb k' k then Some v else None
      end
  end.

(** [x[k]] with a string key. *)
Definition getitem (x : json) (k : string) : result json :=
  match x with
  | JObj fields =>
      match assoc k fields with
      | Some v => Ok v
      | None => Err KeyError
      end
  | _ => Err TypeError
  end.

(** [x[0]]. *)
Definition getitem0 (x : json) : result json :=
  match x with
  | JArr (v :: _) => Ok v
  | JArr [] => Err IndexError
  | JStr (String c _) => Ok (JStr (String c EmptyString))
  | JStr EmptyString => Err IndexError
  | JObj _ => Err KeyError
  | _ => Err TypeError
  end.

Fixpoint chars (s : string) : list json :=
  match s with
  | EmptyString => []
  | String c r => JStr (String c EmptyString) :: chars r
  end.

(** The keys of a [dict], each once, in the order in which they first
    appear. *)
Fixpoint names (seen : list string) (fields : list (string * json)) : list string :=
  match fields with
  | [] => []
  | (k, _) :: r =>
      if existsb (String.eqb k) seen then names seen r else k :: names (k :: seen) r
  end.

(** What [for x in v] visits. *)
Definition py_iter (v : json) : result (list json) :=
  match v with
  | JArr items => Ok items
  | JObj fields => Ok (map JStr (names [] fields))
  | JStr s => Ok (chars s)
  | _ => Err TypeError
  end.

(** ** [str.isdigit] and [int] *)

Definition code (c : ascii) : Z := Z.of_N (N_of_ascii c).

Definition is_decimal (c : ascii) : bool := (48 <=? code c) && (code c <=? 57).

(** Characters with the Unicode property Numeric_Type=Digit or Decimal:
    below 256 these are 0-9 and the superscripts two, three and one. *)
Definition is_digit_char (c : ascii) : bool :=
  is_decimal c || (code c =? 178) || (code c =? 179) || (code c =? 185).

Fixpoint all_chars (p : ascii -> bool) (s : string) : bool :=
  match s with
  | EmptyString => true
  | String c r => p c && all_chars p r
  end.

(** [s.isdigit()]: at least one character, all of them digits. *)
Definition isdigit (s : string) : bool :=
  match s with
  | EmptyString => false
  | _ => all_chars is_digit_char s
  end.

(** Whitespace that [int] strips, below 256: tab to carriage return,
    the space, and the two non-ASCII spaces (next line, no-break space).
    The separators 28 to 31 are not stripped, although [str.isspace]
    holds of them. *)
Definition is_space (c : ascii) : bool :=
  let n := code c in
  ((9 <=? n) && (n <=? 13)) || (n =? 32) || (n =? 133) || (n =? 160).

Fixpoint lstrip (cs : list ascii) : list ascii :=
  match cs with
  | c :: r => if is_space c then lstrip r else cs
  | [] => []
  end.

Definition strip (cs : list ascii) : list ascii := rev (lstrip (rev (lstrip cs))).

Definition digit_val (c : ascii) : Z := code c - 48.

(** The rest of a numeral, after a digit: digits, each optionally
    preceded by one underscore. *)
Fixpoint int_tail (acc : Z) (cs : list ascii) : option Z :=
  match cs with
  | [] => Some acc
  | c :: r =>
      if is_decimal c then int_tail (10 * acc + digit_val c) r
      else if (code c =? 95) then
        match r with
        | d :: r' => if is_decimal d then int_tail (10 * acc + digit_val d) r' else None
        | [] => None
        end
      else None
  end.

Definition int_digits (cs : list ascii) : option Z :=
  match cs with
  | d :: r => if is_decimal d then int_tail (digit_val d) r else None
  | [] => None
  end.

(** The most digits [int] converts ([sys.int_info.default_max_str_digits]);
    a longer numeral is a [ValueError]. *)
Definition max_str_digits : Z := 4300.

Definition digit_count (cs : list ascii) : Z :=
  Z.of_nat (List.length (filter is_decimal cs)).

(** [int(s)] for a string, base ten: surrounding whitespace, an optional
    sign, then the numeral, of at most [max_str_digits] digits. *)
Definition int_of_string (s : string) : option Z :=
  let cs := strip (list_ascii_of_string s) in
  if max_str_digits <? digit_count cs then None
  else
    match cs with
    | c :: r =>
        if code c =? 43 then int_digits r
        else if code c =? 45 then option_map Z.opp (int_digits r)
        else int_digits (c :: r)
    | [] => None
    end.

(** [int(f)] for a float: the value with its fraction dropped;
    [OverflowError] for an infinity, [ValueError] for a NaN. *)
Definition int_of_float (f : float) : result Z :=
  match f with
  | S754_zero _ => Ok 0
  | S754_infinity _ => Err OverflowError
  | S754_nan => Err ValueError
  | S754_finite s m e =>
      let a := if 0 <=? e then Z.shiftl (Zpos m) e else Z.shiftr (Zpos m) (- e) in
      Ok (if s then - a else a)
  end.

(** [int(v)]. *)
Definition py_int (v : json) : result Z :=
  match v with
  | JInt z => Ok z
  | JBool b => Ok (if b then 1 else 0)
  | JFloat f => int_of_float f
  | JStr s =>
      match int_of_string s with
      | Some z => Ok z
      | None => Err ValueError
      end
  | _ => Err TypeError
  end.

(** ** Floats *)

Definition prec : Z := 53.
Definition emax : Z := 1024.

(** [a / b] on integers: the binary64 nearest to the quotient (ties to
    even), [ZeroDivisionError] for [b = 0], [OverflowError] when the
    quotient is out of range. *)
Definition py_truediv (a b : Z) : result float :=
  if b =? 0 then Err ZeroDivisionError
  else
    let neg := xorb (a <? 0) (b <? 0) in
    if a =? 0 then Ok (S754_zero neg)
    else
      let '(q, e, l) := SFdiv_core_binary prec emax (Z.abs a) 0 (Z.abs b) 0 in
      match binary_round_aux prec emax neg q e l with
      | S754_finite s m x => Ok (S754_finite s m x)
      | S754_zero s => Ok (S754_zero s)
      | _ => Err OverflowError
      end.

(** [2.0] as a binary64. *)
Definition float_two : float := S754_finite false 4503599627370496 (-51).

(** A mantissa [m] with exponent [e] that stands for less than [2 ^ d]. *)
Definition below (d m e : Z) : Prop := 0 <= m /\ e <= d /\ m < 2 ^ (d - e).

(** [y] is [x] shifted right by [k] places, for a mantissa that is not
    negative. *)
Definition shifted (k : Z) (x y : shr_record) : Prop :=
  0 <= shr_m y /\ 2 ^ k * shr_m y <= shr_m x.

(** A plotted number: [int] or [float]. *)
Inductive num : Type :=
| NInt (z : Z)
| NFloat (f : float).

(** A chart series: the two lists handed to [ax.bar]. *)
Definition series : Type := (list json * list num)%type.

(** ** Dictionaries

    A key is looked up by hash and equality, under which [True == 1],
    [False == 0] and a float equals the integer of the same value; lists
    and dictionaries are unhashable.  [hkey] is the class of a key under
    that equality: a number that is an integer by value is [HNum], any
    other finite float is [HFrac] with an odd mantissa and a negative
    exponent.  The decoder hands out one NaN object, which a dictionary
    finds again by identity. *)

Inductive hkey : Type :=
| HNone
| HNum (z : Z)
| HFrac (neg : bool) (m : positive) (e : Z)
| HInf (neg : bool)
| HNan
| HStr (s : string).

Definition hkey_eqb (a b : hkey) : bool :=
  match a, b with
  | HNone, HNone => true
  | HNum x, HNum y => Z.eqb x y
  | HFrac s m e, HFrac s' m' e' => Bool.eqb s s' && Pos.eqb m m' && Z.eqb e e'
  | HInf s, HInf s' => Bool.eqb s s'
  | HNan, HNan => true
  | HStr x, HStr y => String.eqb x y
  | _, _ => false
  end.

(** [m * 2^e] with the factors of two moved from [m] to the exponent. *)
Fixpoint odd_part (m : positive) (e : Z) : positive * Z :=
  match m with
  | xO p => odd_part p (e + 1)
  | _ => (m, e)
  end.

Definition float_key (f : float) : hkey :=
  match f with
  | S754_zero _ => HNum 0
  | S754_infinity s => HInf s
  | S754_nan => HNan
  | S754_finite s m e =>
      let '(m', e') := odd_part m e in
      if 0 <=? e' then HNum (if s then - Z.shiftl (Zpos m') e' else Z.shiftl (Zpos m') e')
      else HFrac s m' e'
  end.

Definition py_hash (v : json) : result hkey :=
  match v with
  | JNull => Ok HNone
  | JBool b => Ok (HNum (if b then 1 else 0))
  | JInt z => Ok (HNum z)
  | JFloat f => Ok (float_key f)
  | JStr s => Ok (HStr s)
  | JArr _ | JObj _ => Err TypeError
  end.

(** One slot of a dictionary: the class of the key, the key object as
    first inserted, the value. *)
Record entry (V : Type) : Type := mk_entry { ekey : hkey; eobj : json; evalue : V }.

Arguments mk_entry {V} ekey eobj evalue.
Arguments ekey {V} e.
Arguments eobj {V} e.
Arguments evalue {V} e.

(** A dictionary, in insertion order. *)
Definition pydict (V : Type) : Type := list (entry V).

Section Dict.
Context {V : Type}.

Fixpoint pd_get (d : pydict V) (h : hkey) : option V :=
  match d with
  | [] => None
  | e :: r => if hkey_eqb (ekey e) h then Some (evalue e) else pd_get r h
  end.

Definition pd_mem (d : pydict V) (h : hkey) : bool :=
  match pd_get d h with
  | Some _ => true
  | None => false
  end.

(** [d[k] = v]: an existing slot keeps its place and its key object,
    a new key goes last. *)
Fixpoint pd_set (d : pydict V) (h : hkey) (k : json) (v : V) : pydict V :=
  match d with
  | [] => [mk_entry h k v]
  | e :: r =>
      if hkey_eqb (ekey e) h then mk_entry (ekey e) (eobj e) v :: r
      else e :: pd_set r h k v
  end.

(** [d.get(k, dflt)]. *)
Definition pd_get_default (d : pydict V) (h : hkey) (dflt : V) : V :=
  match pd_get d h with
  | Some v => v
  | None => dflt
  end.

Definition pd_keys (d : pydict V) : list json := map eobj d.
Definition pd_values (d : pydict V) : list V := map evalue d.

(** [not d]. *)
Definition pd_is_empty (d : pydict V) : bool :=
  match d with
  | [] => true
  | _ => false
  end.
End Dict.

Definition zsum (l : list Z) : Z := fold_left Z.add l 0.
Definition zlen {A : Type} (l : list A) : Z := Z.of_nat (List.length l).

(** ** The aggregations over the results payload *)

(** [payload['MRData']['RaceTable']['Races']]. *)
Definition races_of (payload : json) : result json :=
  m <- getitem payload "MRData" ;;
  t <- getitem m "RaceTable" ;;
  getitem t "Races".

(** [x['Driver']['familyName']]. *)
Definition family_name (x : json) : result json :=
  d <- getitem x "Driver" ;;
  getitem d "familyName".

(** Lines 98-103: the body of the inner loop of
    [plot_average_finish_position_by_driver]. *)
Definition average_result (finish_positions : pydict (list Z)) (res : json)
  : result (pydict (list Z)) :=
  driver <- family_name res ;;
  p <- getitem res "position" ;;
  position <- py_int p ;;
  h <- py_hash driver ;;
  let fp := if pd_mem finish_positions h then finish_positions
            else pd_set finish_positions h driver [] in
  match pd_get fp h with
  | Some positions => Ok (pd_set fp h driver (positions ++ [position]))
  | None => Err KeyError
  end.

Definition average_race (finish_positions : pydict (list Z)) (race : json)
  : result (pydict (list Z)) :=
  rs <- getitem race "Results" ;;
  items <- py_iter rs ;;
  foldM average_result items finish_positions.

(** Lines 94-103: [finish_positions] after the loops. *)
Definition finish_positions_of (payload : json) : result (pydict (list Z)) :=
  results <- races_of payload ;;
  races <- py_iter results ;;
  foldM average_race races [].

(** [sum(positions) / len(positions)]. *)
Definition mean (positions : list Z) : result num :=
  f <- py_truediv (zsum positions) (zlen positions) ;;
  Ok (NFloat f).

(** Lines 94-106 of [plot_average_finish_position_by_driver]. *)
Definition average_finish_series (payload : json) : result series :=
  finish_positions <- finish_positions_of payload ;;
  let drivers := pd_keys finish_positions in
  avg_positions <- mapM mean (pd_values finish_positions) ;;
  Ok (drivers, avg_positions).

(** Lines 119-121: the body of the loop of [plot_most_wins_by_driver]. *)
Definition wins_race (win_counts : pydict Z) (race : json) : result (pydict Z) :=
  rs <- getitem race "Results" ;;
  winner <- getitem0 rs ;;
  driver <- family_name winner ;;
  h <- py_hash driver ;;
  Ok (pd_set win_counts h driver (pd_get_default win_counts h 0 + 1)).

(** Lines 115-121: [win_counts] after the loop. *)
Definition win_counts_of (payload : json) : result (pydict Z) :=
  results <- races_of payload ;;
  races <- py_iter results ;;
  foldM wins_race races [].

(** Lines 115-124 of [plot_most_wins_by_driver]. *)
Definition most_wins_series (payload : json) : result series :=
  win_counts <- win_counts_of payload ;;
  Ok (pd_keys win_counts, map NInt (pd_values win_counts)).

(** Lines 149-152: the body of the inner loop of
    [plot_podium_finishes_by_driver]. *)
Definition podium_result (podium_counts : pydict Z) (res : json) : result (pydict Z) :=
  p <- getitem res "position" ;;
  position <- py_int p ;;
  if position <=? 3 then
    driver <- family_name res ;;
    h <- py_hash driver ;;
    Ok (pd_set podium_counts h driver (pd_get_default podium_counts h 0 + 1))
  else Ok podium_counts.

Definition podium_race (podium_counts : pydict Z) (race : json) : result (pydict Z) :=
  rs <- getitem race "Results" ;;
  items <- py_iter rs ;;
  foldM podium_result items podium_counts.

(** Lines 144-152: [podium_counts] after the loops. *)
Definition podium_counts_of (payload : json) : result (pydict Z) :=
  results <- races_of payload ;;
  races <- py_iter results ;;
  foldM podium_race races [].

(** Lines 144-155 of [plot_podium_finishes_by_driver]. *)
Definition podium_series (payload : json) : result series :=
  podium_counts <- podium_counts_of payload ;;
  Ok (pd_keys podium_counts, map NInt (pd_values podium_counts)).

(** ** The aggregations over the standings payloads *)

(** [payload['MRData']['StandingsTable']['StandingsLists'][0][table]]. *)
Definition standings_of (table : string) (payload : json) : result json :=
  m <- getitem payload "MRData" ;;
  t <- getitem m "StandingsTable" ;;
  l <- getitem t "StandingsLists" ;;
  s <- getitem0 l ;;
  getitem s table.

(** [x['Constructor']['name']]. *)
Definition constructor_name (x : json) : result json :=
  c <- getitem x "Constructor" ;;
  getitem c "name".

(** ** The application state *)

(** What the program does to the outside, in order. *)
Inductive event : Type :=
| ShowError (title message : string)
| ShowInfo (title message : string)
| HttpGet (url : string).

(** What a GET comes back with: [requests.get] raised, or a response
    with its status, reason phrase, URL ([response.url]: the address as
    it was sent, after encoding and redirects) and decoded body. *)
Inductive response : Type :=
| TransportError (text : string)
| Response (status : Z) (reason : string) (url : string) (body : json).

(** The matplotlib axes: the bar containers drawn so far and the texts. *)
Record axes : Type := mk_axes {
  bars : list series;
  title : string;
  xlabel : string;
  ylabel : string;
  xtick_rotation : option Z
}.

(** The axes as [plt.subplots] makes them. *)
Definition empty_axes : axes :=
  mk_axes [] EmptyString EmptyString EmptyString None.

(** [ax.clear()]: the bars and the texts go; a rotation that an earlier
    [tick_params] gave the tick labels stays. *)
Definition ax_clear (a : axes) : axes :=
  mk_axes [] EmptyString EmptyString EmptyString (xtick_rotation a).

Record App : Type := mk_App {
  data : pydict json;
  chart_type : string;
  season_entry : string;
  ax : axes;
  canvas : axes;
  trace : list event
}.

(** [__init__] and [setup_ui]. *)
Definition init : App :=
  mk_App [] "Total Points Distribution" EmptyString empty_axes empty_axes [].

Definition emit (ev : event) (app : App) : App :=
  mk_App (data app) (chart_type app) (season_entry app) (ax app) (canvas app)
         (trace app ++ [ev]).

Definition set_data (name : string) (v : json) (app : App) : App :=
  mk_App (pd_set (data app) (HStr name) (JStr name) v) (chart_type app)
         (season_entry app) (ax app) (canvas app) (trace app).

Definition set_ax (a : axes) (app : App) : App :=
  mk_App (data app) (chart_type app) (season_entry app) a (canvas app) (trace app).

(** [self.canvas.draw()]. *)
Definition canvas_draw (app : App) : App :=
  mk_App (data app) (chart_type app) (season_entry app) (ax app) (ax app) (trace app).

(** [self.data[name]]. *)
Definition data_get (app : App) (name : string) : result json :=
  match pd_get (data app) (HStr name) with
  | Some v => Ok v
  | None => Err KeyError
  end.

(** ** [fetch_data] *)

Definition decimal (z : Z) : string := NilZero.string_of_int (Z.to_int z).

(** The text of the [HTTPError] of [raise_for_status]; [url] is the
    URL of the response. *)
Definition http_error_text (status : Z) (reason url : string) : string :=
  (decimal status ++ (if (status <? 500)%Z then " Client Error: " else " Server Error: ")
   ++ reason ++ " for url: " ++ url)%string.

(** [requests.get(url)], [raise_for_status()], [json()]: the decoded body,
    or the text of the [RequestException].  [raise_for_status] raises for
    a status from 400 to 599.  A body that is not JSON is not modelled. *)
Definition outcome (net : string -> response) (url : string) : string + json :=
  match net url with
  | TransportError text => inl text
  | Response status reason response_url body =>
      if (400 <=? status) && (status <? 600)
      then inl (http_error_text status reason response_url)
      else inr body
  end.

Definition request (net : string -> response) (url : string) (app : App)
  : App * (string + json) :=
  (emit (HttpGet url) app, outcome net url).

Definition standings_url (season : string) : string :=
  ("https://ergast.com/api/f1/" ++ season ++ "/driverStandings.json")%string.
Definition results_url (season : string) : string :=
  ("https://ergast.com/api/f1/" ++ season ++ "/results.json?limit=1000")%string.
Definition constructor_standings_url (season : string) : string :=
  ("https://ergast.com/api/f1/" ++ season ++ "/constructorStandings.json")%string.

(** The [except requests.RequestException] clause. *)
Definition fetch_failed (e : string) (app : App) : App :=
  emit (ShowError "Error" ("Failed to fetch data: " ++ e)%string) app.

Definition fetch_data (net : string -> response) (app : App) : App :=
  let season := season_entry app in
  if negb (isdigit season) then
    emit (ShowError "Error" "Please enter a valid season year.") app
  else
    let (app, r) := request net (standings_url season) app in
    match r with
    | inl e => fetch_failed e app
    | inr body =>
        let app := set_data "standings" body app in
        let (app, r) := request net (results_url season) app in
        match r with
        | inl e => fetch_failed e app
        | inr body =>
            let app := set_data "results" body app in
            let (app, r) := request net (constructor_standings_url season) app in
            match r with
            | inl e => fetch_failed e app
            | inr body =>
                let app := set_data "constructor_standings" body app in
                emit (ShowInfo "Success" "Data fetched successfully!") app
            end
        end
    end.

(** ** The plot methods and [update_chart] *)

(** [self.ax.clear()]. *)
Definition clear_axes (app : App) : App := set_ax (ax_clear (ax app)) app.

(** The axes once [ax.bar(labels, values)] has returned and [set_title],
    [set_xlabel], [set_ylabel] and [tick_params(axis='x', rotation=90)]
    have run. *)
Definition draw_bars (s : series) (t xl yl : string) (app : App) : App :=
  set_ax (mk_axes (bars (ax app) ++ [s]) t xl yl (Some 90)) app.

Section Float.
(** [float(v)] on a payload field. *)
Variable py_float : json -> result float.

(** The exception with which [ax.bar] rejects a series, if it does (a
    label that is [None], labels that mix text and numbers).  It raises
    before anything is added to the axes. *)
Variable bar_error : series -> option exn.

(** [ax.bar(labels, values)] and the four calls after it. *)
Definition plot_bars (s : series) (t xl yl : string) (app : App) : result App :=
  match bar_error s with
  | Some e => Err e
  | None => Ok (draw_bars s t xl yl app)
  end.

Definition plot_average_finish_position_by_driver (app : App) : result App :=
  payload <- data_get app "results" ;;
  s <- average_finish_series payload ;;
  plot_bars s "Average Finish Position by Driver" "Driver"
    "Average Finish Position" app.

Definition plot_most_wins_by_driver (app : App) : result App :=
  payload <- data_get app "results" ;;
  s <- most_wins_series payload ;;
  plot_bars s "Most Wins by Driver" "Driver" "Wins" app.

Definition plot_podium_finishes_by_driver (app : App) : result App :=
  payload <- data_get app "results" ;;
  s <- podium_series payload ;;
  plot_bars s "Podium Finishes by Driver" "Driver" "Podium Finishes" app.

(** [float(x['points'])]. *)
Definition points_of (x : json) : result num :=
  p <- getitem x "points" ;;
  f <- py_float p ;;
  Ok (NFloat f).

(** Lines 83-85 of [plot_total_points_distribution]. *)
Definition total_points_series (payload : json) : result series :=
  standings <- standings_of "DriverStandings" payload ;;
  items <- py_iter standings ;;
  drivers <- mapM family_name items ;;
  points <- mapM points_of items ;;
  Ok (drivers, points).

(** Lines 133-135 of [plot_constructor_championship_standings]. *)
Definition constructor_series (payload : json) : result series :=
  standings <- standings_of "ConstructorStandings" payload ;;
  items <- py_iter standings ;;
  constructors <- mapM constructor_name items ;;
  points <- mapM points_of items ;;
  Ok (constructors, points).

Definition plot_total_points_distribution (app : App) : result App :=
  payload <- data_get app "standings" ;;
  s <- total_points_series payload ;;
  plot_bars s "Total Points Distribution" "Driver" "Total Points" app.

Definition plot_constructor_championship_standings (app : App) : result App :=
  payload <- data_get app "constructor_standings" ;;
  s <- constructor_series payload ;;
  plot_bars s "Constructor Championship Standings" "Constructor" "Points" app.

(** The [if]/[elif] chain of [update_chart]. *)
Definition plot_selected (app : App) : result App :=
  let chart_type := chart_type app in
  if String.eqb chart_type "Total Points Distribution" then
    plot_total_points_distribution app
  else if String.eqb chart_type "Average Finish Position by Driver" then
    plot_average_finish_position_by_driver app
  else if String.eqb chart_type "Most Wins by Driver" then
    plot_most_wins_by_driver app
  else if String.eqb chart_type "Constructor Championship Standings" then
    plot_constructor_championship_standings app
  else if String.eqb chart_type "Podium Finishes by Driver" then
    plot_podium_finishes_by_driver app
  else Ok app.

(** [update_chart]: the state it leaves, and the exception that leaves
    it, if any.  A plot method raises, if at all, while it reads the
    payload or in [ax.bar], before anything is added to the axes. *)
Definition update_chart (app : App) : App * option exn :=
  if pd_is_empty (data app) then
    (emit (ShowError "Error" "No data available. Please fetch data first.") app, None)
  else
    let app := clear_axes app in
    match plot_selected app with
    | Ok app => (canvas_draw app, None)
    | Err e => (app, Some e)
    end.
End Float.

(** ** A [float] for the examples

    [float] on the fields the examples use: integers, and numerals
    [digits] or [digits.digits] with an optional sign and surrounding
    whitespace.  The decimal value is rounded to the nearest binary64.
    Other spellings that [float] reads (exponents, [inf], [nan]) are
    answered with [ValueError] here. *)

Fixpoint decimal_fraction (m k : Z) (cs : list ascii) : option (Z * Z) :=
  match cs with
  | [] => Some (m, k)
  | c :: r =>
      if is_decimal c then decimal_fraction (10 * m + digit_val c) (k + 1) r else None
  end.

Fixpoint decimal_integer (m : Z) (cs : list ascii) : option (Z * Z) :=
  match cs with
  | [] => Some (m, 0)
  | c :: r =>
      if is_decimal c then decimal_integer (10 * m + digit_val c) r
      else if code c =? 46 then decimal_fraction m 0 r
      else None
  end.

Definition decimal_numeral (cs : list ascii) : option (Z * Z) :=
  match cs with
  | c :: r => if is_decimal c then decimal_integer (digit_val c) r else None
  | [] => None
  end.

Definition float_of_numeral (neg : bool) (cs : list ascii) : result float :=
  match decimal_numeral cs with
  | Some (m, k) =>
      if m =? 0 then Ok (S754_zero neg)
      else
        match py_truediv (if neg then - m else m) (10 ^ k) with
        | Err OverflowError => Ok (S754_infinity neg)
        | r => r
        end
  | None => Err ValueError
  end.

Definition float_of_decimal (v : json) : result float :=
  match v with
  | JInt z => py_truediv z 1
  | JBool b => py_truediv (if b then 1 else 0) 1
  | JFloat f => Ok f
  | JStr s =>
      match strip (list_ascii_of_string s) with
      | c :: r =>
          if code c =? 43 then float_of_numeral false r
          else if code c =? 45 then float_of_numeral true r
          else float_of_numeral false (c :: r)
      | [] => Err ValueError
      end
  | _ => Err TypeError
  end.

(** ** Payloads of the shape the API sends *)

Definition result_entry (family position : string) : json :=
  JObj [("position", JStr position);
        ("Driver", JObj [("driverId", JStr family); ("familyName", JStr family)])].

Definition race_entry (results : list json) : json :=
  JObj [("raceName", JStr "Grand Prix"); ("Results", JArr results)].

Definition results_payload (races : list json) : json :=
  JObj [("MRData", JObj [("RaceTable", JObj [("Races", JArr races)])])].

Definition driver_standing (family points : string) : json :=
  JObj [("points", JStr points); ("Driver", JObj [("familyName", JStr family)])].

Definition constructor_standing (name points : string) : json :=
  JObj [("points", JStr points); ("Constructor", JObj [("name", JStr name)])].

Definition standings_payload (table : string) (entries : list json) : json :=
  JObj [("MRData", JObj [("StandingsTable",
          JObj [("StandingsLists", JArr [JObj [(table, JArr entries)]])])])].

(** ** The payload as the specification reads it *)

(** A driver as a dictionary key: the class of the family name and the
    family name. *)
Record driver : Type := mk_driver { d_key : hkey; d_name : json }.

(** One result: who, and the finishing position as an integer. *)
Record placing : Type := mk_placing { p_driver : driver; p_position : Z }.

Definition driver_of (x : json) : result driver :=
  name <- family_name x ;;
  h <- py_hash name ;;
  Ok (mk_driver h name).

Definition placing_of (res : json) : result placing :=
  name <- family_name res ;;
  p <- getitem res "position" ;;
  position <- py_int p ;;
  h <- py_hash name ;;
  Ok (mk_placing (mk_driver h name) position).

(** The races of a results payload. *)
Definition race_list (payload : json) : result (list json) :=
  results <- races_of payload ;;
  py_iter results.

(** The result entries of a race. *)
Definition race_results (race : json) : result (list json) :=
  rs <- getitem race "Results" ;;
  py_iter rs.

(** All results of the season, race by race, in payload order. *)
Definition placings (payload : json) : result (list (list placing)) :=
  races <- race_list payload ;;
  mapM (fun race => items <- race_results race ;; mapM placing_of items) races.

(** The first-listed result entry of a race. *)
Definition first_listed (race : json) : result json :=
  rs <- getitem race "Results" ;;
  getitem0 rs.

(** The driver of the first-listed result of each race. *)
Definition winners (payload : json) : result (list driver) :=
  races <- race_list payload ;;
  mapM (fun race => w <- first_listed race ;; driver_of w) races.

(** The entries of a standings payload. *)
Definition standing_entries (table : string) (payload : json) : result (list json) :=
  standings <- standings_of table payload ;;
  py_iter standings.

Definition same_driver (a b : driver) : bool := hkey_eqb (d_key a) (d_key b).

(** The drivers of a list, each once, in the order of first appearance. *)
Fixpoint first_seen (l : list driver) : list driver :=
  match l with
  | [] => []
  | d :: r => d :: filter (fun x => negb (same_driver d x)) (first_seen r)
  end.

(** How many times a driver occurs in a list. *)
Definition occurrences (d : driver) (l : list driver) : Z :=
  zlen (filter (same_driver d) l).

(** The finishing positions of a driver, in payload order. *)
Definition positions_of (d : driver) (l : list placing) : list Z :=
  map p_position (filter (fun p => same_driver d (p_driver p)) l).

Definition on_podium (p : placing) : bool := p_position p <=? 3.

(** The results that count as podium finishes. *)
Definition podium_placings (l : list placing) : list placing := filter on_podium l.

(** How many podium finishes a driver has. *)
Definition podiums_of (d : driver) (l : list placing) : Z :=
  zlen (filter (fun p => same_driver d (p_driver p) && on_podium p) l).

(** The finishing position of a result entry, as an integer. *)
Definition position_of (res : json) : result Z :=
  p <- getitem res "position" ;;
  py_int p.

(** All result entries of the season, in payload order. *)
Definition all_results (payload : json) : result (list json) :=
  races <- race_list payload ;;
  rss <- mapM race_results races ;;
  Ok (List.concat rss).

(** A result entry counts as a podium finish when its position reads as
    an integer that is at most 3. *)
Definition counts_as_podium (res : json) : bool :=
  match position_of res with
  | Ok z => z <=? 3
  | Err _ => false
  end.

(** The drivers of the result entries that count, in payload order. *)
Definition podium_drivers (rs : list json) : list driver :=
  flat_map (fun res =>
              if counts_as_podium res then
                match driver_of res with
                | Ok d => [d]
                | Err _ => []
                end
              else []) rs.

(** How many of the result entries count and belong to a driver. *)
Definition podium_finishes (d : driver) (rs : list json) : Z :=
  zlen (filter (fun res =>
                  counts_as_podium res &&
                  match driver_of res with
                  | Ok d' => same_driver d d'
                  | Err _ => false
                  end) rs).

(** A result entry that the podium chart can read: the position reads
    as an integer and, when it is at most 3, the entry names a driver. *)
Definition podium_readable (res : json) : Prop :=
  (exists z, position_of res = Ok z)
  /\ (counts_as_podium res = true -> exists d, driver_of res = Ok d).

(** A result entry with a family name and an integer position, and a
    race whose results are all such. *)
Definition well_formed_result (res : json) : Prop :=
  exists p, placing_of res = Ok p.

Definition well_formed_race (race : json) : Prop :=
  exists items, race_results race = Ok items /\ Forall well_formed_result items.

(** A result entry whose finishing position [int] does not read, with
    the exception that reading it raises: the field is missing; it is
    text that is not a numeral; it is [null], a list or an object; it is
    an infinity or a NaN.  (A position that is a number, [true] or
    [false] is read.) *)
Inductive unreadable_position : json -> exn -> Prop :=
| position_missing (fields : list (string * json)) :
    assoc "position" fields = None ->
    unreadable_position (JObj fields) KeyError
| position_not_numeral (fields : list (string * json)) (s : string) :
    assoc "position" fields = Some (JStr s) -> int_of_string s = None ->
    unreadable_position (JObj fields) ValueError
| position_null (fields : list (string * json)) :
    assoc "position" fields = Some JNull ->
    unreadable_position (JObj fields) TypeError
| position_list (fields : list (string * json)) (items : list json) :
    assoc "position" fields = Some (JArr items) ->
    unreadable_position (JObj fields) TypeError
| position_object (fields inner : list (string * json)) :
    assoc "position" fields = Some (JObj inner) ->
    unreadable_position (JObj fields) TypeError
| position_infinite (fields : list (string * json)) (neg : bool) :
    assoc "position" fields = Some (JFloat (S754_infinity neg)) ->
    unreadable_position (JObj fields) OverflowError
| position_nan (fields : list (string * json)) :
    assoc "position" fields = Some (JFloat S754_nan) ->
    unreadable_position (JObj fields) ValueError.

(** The season input reads as a positive integer. *)
Definition is_positive_integer (s : string) : bool :=
  match int_of_string s with
  | Some z => 0 <? z
  | None => false
  end.

Definition is_request (ev : event) : bool :=
  match ev with
  | HttpGet _ => true
  | _ => false
  end.

Definition is_message (ev : event) : bool :=
  match ev with
  | HttpGet _ => false
  | _ => true
  end.

(** The same application with another history of events. *)
Definition retrace (t : list event) (app : App) : App :=
  mk_App (data app) (chart_type app) (season_entry app) (ax app) (canvas app) t.

Definition set_season (season : string) (app : App) : App :=
  mk_App (data app) (chart_type app) season (ax app) (canvas app) (trace app).

Definition set_chart_type (name : string) (app : App) : App :=
  mk_App (data app) name (season_entry app) (ax app) (canvas app) (trace app).

Definition num_total (vs : list num) : Z :=
  fold_right (fun v acc => match v with NInt z => z + acc | NFloat _ => acc end) 0 vs.

(** Two key objects that a dictionary tells apart. *)
Definition distinct_keys (a b : json) : Prop :=
  exists ha hb, py_hash a = Ok ha /\ py_hash b = Ok hb /\ ha <> hb.

Definition season_2021 : json :=
  results_payload
    [race_entry [result_entry "Hamilton" "1"; result_entry "Verstappen" "2";
                 result_entry "Bottas" "3"; result_entry "Norris" "4"];
     race_entry [result_entry "Verstappen" "1"; result_entry "Norris" "2";
                 result_entry "Hamilton" "3"; result_entry "Bottas" "12"];
     race_entry [result_entry "Verstappen" "1"; result_entry "Hamilton" "2";
                 result_entry "Bottas" "3"]].

(** ** Grouping under a key

    The three loops over results share one shape: the value under the
    driver's key is replaced by a function [f] of the old value (if any)
    and the item. *)

Definition group_step {X V : Type} (drv : X -> driver) (f : option V -> X -> V)
  (d : pydict V) (x : X) : pydict V :=
  pd_set d (d_key (drv x)) (d_name (drv x)) (f (pd_get d (d_key (drv x))) x).

(** The items of a driver, in order. *)
Definition items_of {X : Type} (drv : X -> driver) (dr : driver) (items : list X) : list X :=
  filter (fun x => same_driver dr (drv x)) items.

(** The slot a driver ends with when [g] gives the value of a group. *)
Definition slot {X V : Type} (drv : X -> driver) (g : list X -> V) (items : list X)
  (dr : driver) : entry V :=
  mk_entry (d_key dr) (d_name dr) (g (items_of drv dr items)).

Definition grouped {X V : Type} (drv : X -> driver) (g : list X -> V) (items : list X)
  : pydict V :=
  map (slot drv g items) (first_seen (map drv items)).

(** [d.get(k, 0) + 1] and [d[k].append(position)] as functions of the
    old value. *)
Definition count_up {X : Type} (old : option Z) (_ : X) : Z :=
  match old with
  | Some v => v
  | None => 0
  end + 1.

Definition append_position (old : option (list Z)) (p : placing) : list Z :=
  match old with
  | Some l => l
  | None => []
  end ++ [p_position p].

(** What the podium loop reads of one result: the driver when the
    position is at most 3, nothing about the driver otherwise. *)
Definition podium_entry (res : json) : result (option driver) :=
  p <- getitem res "position" ;;
  position <- py_int p ;;
  if position <=? 3 then
    name <- family_name res ;;
    h <- py_hash name ;;
    Ok (Some (mk_driver h name))
  else Ok None.

Definition podium_step (d : pydict Z) (o : option driver) : pydict Z :=
  match o with
  | Some dr => group_step (fun x => x) count_up d dr
  | None => d
  end.

(** What the podium loops read of the whole payload. *)
Definition podium_entries (payload : json) : result (list (list (option driver))) :=
  races <- race_list payload ;;
  mapM (fun race => items <- race_results race ;; mapM podium_entry items) races.

(** The driver of a placing if it is a podium finish. *)
Definition podium_driver (p : placing) : option driver :=
  if on_podium p then Some (p_driver p) else None.

Fixpoint somes {A : Type} (l : list (option A)) : list A :=
  match l with
  | [] => []
  | Some a :: r => a :: somes r
  | None :: r => somes r
  end.

(** A dictionary as the code builds it: the keys are pairwise different
    and every key object belongs to the class it is filed under. *)
Definition dict_ok {V : Type} (d : pydict V) : Prop :=
  NoDup (map ekey d) /\ Forall (fun e => py_hash (eobj e) = Ok (ekey e)) d.

Definition zsum_values (d : pydict Z) : Z :=
  fold_right (fun e acc => evalue e + acc) 0 d.

(** ** Examples *)

Definition standings_2021 : json :=
  standings_payload "DriverStandings"
    [driver_standing "Verstappen" "395.5"; driver_standing "Hamilton" "387.5";
     driver_standing "Bottas" "226"].

(** The one-character string of the superscript two. *)
Definition superscript_two : string := String (ascii_of_nat 178) EmptyString.

Definition unsorted_race : json :=
  results_payload [race_entry [result_entry "Norris" "2"; result_entry "Hamilton" "1"]].

Definition placed (family : string) (position : Z) : placing :=
  mk_placing (mk_driver (HStr family) (JStr family)) position.

Definition placings_2021 : list (list placing) :=
  [[placed "Hamilton" 1; placed "Verstappen" 2; placed "Bottas" 3; placed "Norris" 4];
   [placed "Verstappen" 1; placed "Norris" 2; placed "Hamilton" 3; placed "Bottas" 12];
   [placed "Verstappen" 1; placed "Hamilton" 2; placed "Bottas" 3]].

Definition averages_2021 : list num :=
  [NFloat float_two;
   NFloat (S754_finite false 6004799503160661 (-52));
   NFloat (S754_finite false 6755399441055744 (-50));
   NFloat (S754_finite false 6755399441055744 (-51))].

Definition constructors_2021 : json :=
  standings_payload "ConstructorStandings"
    [constructor_standing "Mercedes" "613.5"; constructor_standing "Red Bull" "585.5"].

(** An [ax.bar] for the examples: it takes labels that are all text or
    all numbers and rejects the rest. *)
Definition is_text (v : json) : bool :=
  match v with
  | JStr _ => true
  | _ => false
  end.

Definition is_number (v : json) : bool :=
  match v with
  | JBool _ | JInt _ | JFloat _ => true
  | _ => false
  end.

Definition bar_rejects (s : series) : option exn :=
  if forallb is_text (fst s) || forallb is_number (fst s) then None
  else Some TypeError.

Definition net_up (url : string) : response := Response 200 "OK" url (JObj []).

(** A network on which the standings arrive and the results request is
    answered with status 500. *)
Definition net_results_down (url : string) : response :=
  if String.eqb url (results_url "2021")
  then Response 500 "Internal Server Error" url JNull
  else if String.eqb url (standings_url "2021") then Response 200 "OK" url standings_2021
  else Response 200 "OK" url constructors_2021.

Definition after_failed_fetch : App :=
  fetch_data net_results_down (set_season "2021" init).

(** A network that answers the three requests for 2021. *)
Definition net_2021 (url : string) : response :=
  if String.eqb url (results_url "2021") then Response 200 "OK" url season_2021
  else if String.eqb url (standings_url "2021") then Response 200 "OK" url standings_2021
  else Response 200 "OK" url constructors_2021.

(** The standings document of a season that has none. *)
Definition no_standings : json :=
  JObj [("MRData", JObj [("StandingsTable", JObj [("StandingsLists", JArr [])])])].

(** A season in which the second race has no results. *)
Definition season_with_empty_race : json :=
  results_payload
    [race_entry [result_entry "Hamilton" "1"; result_entry "Verstappen" "2"];
     race_entry [];
     race_entry [result_entry "Verstappen" "1"]].

(** The same results, all in one race. *)
Definition season_in_one_race : json :=
  results_payload
    [race_entry [result_entry "Hamilton" "1"; result_entry "Verstappen" "2";
                 result_entry "Verstappen" "1"]].

(** Two races, and the same two races in the other order. *)
Definition two_races : json :=
  results_payload
    [race_entry [result_entry "Hamilton" "1"; result_entry "Verstappen" "2"];
     race_entry [result_entry "Verstappen" "1"; result_entry "Hamilton" "3"]].

Definition two_races_swapped : json :=
  results_payload
    [race_entry [result_entry "Verstappen" "1"; result_entry "Hamilton" "3"];
     race_entry [result_entry "Hamilton" "1"; result_entry "Verstappen" "2"]].

(** A result entry that names no driver, and a season with one in fifth
    place. *)
Definition nameless_result (position : string) : json :=
  JObj [("position", JStr position)].

Definition season_with_nameless : json :=
  results_payload [race_entry [result_entry "Hamilton" "1"; nameless_result "5"]].

(** A position of 401 digits: a one and 400 zeros. *)
Definition huge_position : string :=
  String "1" (string_of_list_ascii (repeat "0"%char 400)).

Definition overflow_season : json :=
  results_payload [race_entry [result_entry "Hamilton" huge_position]].

Definition bad_season : json :=
  results_payload
    [race_entry [result_entry "Hamilton" "1"; result_entry "Verstappen" "abc"]].

Definition bad_app : App :=
  set_chart_type "Average Finish Position by Driver"
    (set_data "results" bad_season (set_data "standings" standings_2021 init)).

(** ** The application as a whole *)

(** The options of the chart-type selector, in order. *)
Definition chart_types : list string :=
  ["Total Points Distribution"; "Average Finish Position by Driver";
   "Most Wins by Driver"; "Constructor Championship Standings";
   "Podium Finishes by Driver"].

(** The slots [fetch_data] assigns, in the order it assigns them. *)
Definition store_slots : list (hkey * json) :=
  [(HStr "standings", JStr "standings"); (HStr "results", JStr "results");
   (HStr "constructor_standings", JStr "constructor_standings")].

Definition slots_of {V : Type} (d : pydict V) : list (hkey * json) :=
  map (fun e => (ekey e, eobj e)) d.

(** The three requests of a fetch, in order. *)
Definition fetch_requests (season : string) : list event :=
  [HttpGet (standings_url season); HttpGet (results_url season);
   HttpGet (constructor_standings_url season)].

(** What a plot method hands to the axes. *)
Record chart : Type := mk_chart {
  c_series : series;
  c_title : string;
  c_xlabel : string;
  c_ylabel : string
}.

(** The chart a selection asks for, read from the store alone: nothing
    when the selection is none of the five options. *)
Definition selected_chart (py_float : json -> result float) (d : pydict json)
  (name : string) : result (option chart) :=
  let payload key :=
    match pd_get d (HStr key) with
    | Some v => Ok v
    | None => Err KeyError
    end in
  if String.eqb name "Total Points Distribution" then
    p <- payload "standings" ;; s <- total_points_series py_float p ;;
    Ok (Some (mk_chart s "Total Points Distribution" "Driver" "Total Points"))
  else if String.eqb name "Average Finish Position by Driver" then
    p <- payload "results" ;; s <- average_finish_series p ;;
    Ok (Some (mk_chart s "Average Finish Position by Driver" "Driver"
                "Average Finish Position"))
  else if String.eqb name "Most Wins by Driver" then
    p <- payload "results" ;; s <- most_wins_series p ;;
    Ok (Some (mk_chart s "Most Wins by Driver" "Driver" "Wins"))
  else if String.eqb name "Constructor Championship Standings" then
    p <- payload "constructor_standings" ;; s <- constructor_series py_float p ;;
    Ok (Some (mk_chart s "Constructor Championship Standings" "Constructor" "Points"))
  else if String.eqb name "Podium Finishes by Driver" then
    p <- payload "results" ;; s <- podium_series p ;;
    Ok (Some (mk_chart s "Podium Finishes by Driver" "Driver" "Podium Finishes"))
  else Ok None.

(** The key of [self.data] that the plot method of a chart type reads. *)
Definition payload_key (name : string) : option string :=
  if String.eqb name "Total Points Distribution" then Some "standings"
  else if String.eqb name "Average Finish Position by Driver" then Some "results"
  else if String.eqb name "Most Wins by Driver" then Some "results"
  else if String.eqb name "Constructor Championship Standings"
       then Some "constructor_standings"
  else if String.eqb name "Podium Finishes by Driver" then Some "results"
  else None.

(** The states the user can bring the application to: typing a season,
    choosing one of the five chart types, pressing "Fetch Data" on any
    network, pressing "Update Chart".  After an exception in
    [update_chart] the state is the one the method left. *)
Inductive reachable (py_float : json -> result float)
  (bar_error : series -> option exn) : App -> Prop :=
| reach_init : reachable py_float bar_error init
| reach_season (app : App) (season : string) :
    reachable py_float bar_error app -> reachable py_float bar_error (set_season season app)
| reach_select (app : App) (name : string) :
    reachable py_float bar_error app -> In name chart_types ->
    reachable py_float bar_error (set_chart_type name app)
| reach_fetch (app : App) (net : string -> response) :
    reachable py_float bar_error app -> reachable py_float bar_error (fetch_data net app)
| reach_update (app : App) :
    reachable py_float bar_error app -> reachable py_float bar_error (fst (update_chart py_float bar_error app)).

(** Two key objects that a dictionary takes for the same key. *)
Definition same_key (a b : json) : Prop :=
  exists h, py_hash a = Ok h /\ py_hash b = Ok h.

(** The exceptions of reading a field, of the wins loop and of the loops
    that parse positions. *)
Definition lookup_error (e : exn) : Prop := e = KeyError \/ e = TypeError.

Definition wins_error (e : exn) : Prop :=
  e = KeyError \/ e = TypeError \/ e = IndexError.

Definition position_error (e : exn) : Prop :=
  e = KeyError \/ e = TypeError \/ e = ValueError \/ e = OverflowError.

(** * Proofs *)

(** ** Results, comprehensions and loops *)

Lemma bind_Ok {A B : Type} (r : result A) (k : A -> result B) (b : B) :
  bind r k = Ok b -> exists a, r = Ok a /\ k a = Ok b.
Proof.
  destruct r as [a|e]; simpl; intros H.
  - exists a. split; [reflexivity | exact H].
  - discriminate H.
Qed.

Lemma bind_assoc {A B C : Type} (r : result A) (k : A -> result B) (k' : B -> result C) :
  bind (bind r k) k' = bind r (fun a => bind (k a) k').
Proof. destruct r; reflexivity. Qed.

Lemma bind_ext {A B : Type} (r : result A) (k k' : A -> result B) :
  (forall a, k a = k' a) -> bind r k = bind r k'.
Proof. intros H. destruct r; simpl; [apply H | reflexivity]. Qed.

Ltac bind_inv H :=
  let a := fresh "a" in
  let Ha := fresh "Ha" in
  apply bind_Ok in H; destruct H as [a [Ha H]].

Lemma mapM_Forall2 {A B : Type} (f : A -> result B) (l : list A) (ys : list B) :
  mapM f l = Ok ys <-> Forall2 (fun x y => f x = Ok y) l ys.
Proof.
  revert ys. induction l as [|x r IH]; intros ys; simpl.
  - split; intros H.
    + injection H as <-. constructor.
    + inversion H. reflexivity.
  - split; intros H.
    + bind_inv H. bind_inv H. injection H as <-.
      constructor; [assumption | apply IH; assumption].
    + inversion H as [|? y ? ys' Hx Hr]; subst.
      rewrite Hx. simpl. apply IH in Hr. rewrite Hr. reflexivity.
Qed.

Lemma mapM_length {A B : Type} (f : A -> result B) (l : list A) (ys : list B) :
  mapM f l = Ok ys -> List.length ys = List.length l.
Proof.
  intros H. apply mapM_Forall2 in H. symmetry.
  induction H; simpl; congruence.
Qed.

Lemma mapM_nth {A B : Type} (f : A -> result B) (l : list A) (ys : list B) :
  mapM f l = Ok ys ->
  forall i x, nth_error l i = Some x ->
              exists y, nth_error ys i = Some y /\ f x = Ok y.
Proof.
  intros H. apply mapM_Forall2 in H.
  induction H as [|x0 y0 l0 ys0 Hxy _ IH]; intros i x Hi.
  - destruct i; discriminate Hi.
  - destruct i as [|i]; simpl in *.
    + injection Hi as <-. exists y0. split; [reflexivity | assumption].
    + apply IH. assumption.
Qed.

(** A loop whose body reads the item and then updates purely is the
    comprehension of the reads followed by the fold of the updates. *)
Lemma foldM_decode {A B C : Type} (step : A -> B -> result A)
      (ext : B -> result C) (upd : A -> C -> A) :
  (forall a x, step a x = (y <- ext x ;; Ok (upd a y))) ->
  forall l a, foldM step l a = (ys <- mapM ext l ;; Ok (fold_left upd ys a)).
Proof.
  intros Hstep. induction l as [|x r IH]; intros a; simpl; [reflexivity|].
  rewrite Hstep. destruct (ext x) as [y|e]; simpl; [|reflexivity].
  rewrite IH. destruct (mapM ext r); reflexivity.
Qed.

Lemma fold_left_concat {A C : Type} (upd : A -> C -> A) (yss : list (list C)) (a : A) :
  fold_left (fun a ys => fold_left upd ys a) yss a = fold_left upd (List.concat yss) a.
Proof.
  revert a. induction yss as [|ys r IH]; intros a; simpl; [reflexivity|].
  rewrite fold_left_app. apply IH.
Qed.

Lemma foldM_ext {A B : Type} (step step' : A -> B -> result A) :
  (forall a x, step a x = step' a x) ->
  forall l a, foldM step l a = foldM step' l a.
Proof.
  intros H. induction l as [|x r IH]; intros a; simpl; [reflexivity|].
  rewrite H. apply bind_ext. intros a'. apply IH.
Qed.

(** The same for a loop nested in a loop. *)
Lemma foldM_nested {A B C : Type} (step : A -> B -> result A)
      (ext : B -> result C) (upd : A -> C -> A) (inner : json -> result (list B)) :
  (forall a x, step a x = (y <- ext x ;; Ok (upd a y))) ->
  forall races a,
    foldM (fun a race => items <- inner race ;; foldM step items a) races a
    = (yss <- mapM (fun race => items <- inner race ;; mapM ext items) races ;;
       Ok (fold_left upd (List.concat yss) a)).
Proof.
  intros Hstep races a.
  rewrite (foldM_decode _ (fun race => items <- inner race ;; mapM ext items)
                        (fun a ys => fold_left upd ys a)).
  - apply bind_ext. intros yss. rewrite fold_left_concat. reflexivity.
  - intros a0 race. rewrite bind_assoc. apply bind_ext. intros items.
    apply foldM_decode. assumption.
Qed.

(** A property that every pass of the body keeps holds after the loop. *)
Lemma foldM_invariant {A B : Type} (P : A -> Prop) (step : A -> B -> result A) :
  (forall a x a', P a -> step a x = Ok a' -> P a') ->
  forall l a a', P a -> foldM step l a = Ok a' -> P a'.
Proof.
  intros Hstep. induction l as [|x r IH]; intros a a' Ha H; simpl in H.
  - injection H as <-. assumption.
  - bind_inv H. eapply IH; [|eassumption]. eapply Hstep; eassumption.
Qed.

Lemma foldM_app {A B : Type} (step : A -> B -> result A) (l1 l2 : list B) (a : A) :
  foldM step (l1 ++ l2) a = (a' <- foldM step l1 a ;; foldM step l2 a').
Proof.
  revert a. induction l1 as [|x r IH]; intros a; simpl; [reflexivity|].
  destruct (step a x); simpl; [apply IH | reflexivity].
Qed.

Lemma mapM_nested_inv {A B C : Type} (g : A -> result (list B)) (f : B -> result C)
      (l : list A) (zss : list (list C)) :
  mapM (fun x => ys <- g x ;; mapM f ys) l = Ok zss
  <-> exists yss, mapM g l = Ok yss
                  /\ Forall2 (fun ys zs => mapM f ys = Ok zs) yss zss.
Proof.
  revert zss. induction l as [|x r IH]; intros zss; simpl.
  - split.
    + intros H. injection H as <-. exists []. split; [reflexivity | constructor].
    + intros [yss [H1 H2]]. injection H1 as <-. inversion H2. reflexivity.
  - split.
    + intros H. bind_inv H. bind_inv Ha. bind_inv H. injection H as <-.
      apply IH in Ha1. destruct Ha1 as [yss [H1 H2]].
      exists (a0 :: yss). rewrite Ha0, H1. simpl.
      split; [reflexivity | constructor; assumption].
    + intros [yss [H1 H2]]. bind_inv H1. bind_inv H1. injection H1 as <-.
      inversion H2 as [|? zs ? zss' Hz Hr]; subst.
      rewrite Ha. simpl. rewrite Hz. simpl.
      assert (E : mapM (fun x0 => ys <- g x0 ;; mapM f ys) r = Ok zss').
      { apply IH. exists a0. split; assumption. }
      rewrite E. reflexivity.
Qed.

(** A loop raises when its body raises on one of the items whatever the
    state: at that item, or earlier. *)
Lemma foldM_fails {A B : Type} (step : A -> B -> result A) (l : list B) (x : B) :
  In x l -> (forall a, exists e, step a x = Err e) ->
  forall a, exists e, foldM step l a = Err e.
Proof.
  intros Hin Hx. induction l as [|y r IH]; [contradiction|].
  intros a. simpl. destruct (step a y) as [a'|e] eqn:E; simpl.
  - destruct Hin as [->|Hin]; [|apply IH; assumption].
    destruct (Hx a) as [e He]. congruence.
  - exists e. reflexivity.
Qed.

Lemma foldM_returns {A B : Type} (step : A -> B -> result A) (l : list B) :
  (forall a x, In x l -> exists a', step a x = Ok a') ->
  forall a, exists a', foldM step l a = Ok a'.
Proof.
  induction l as [|y r IH]; intros H a; simpl.
  - exists a. reflexivity.
  - destruct (H a y (or_introl eq_refl)) as [a' Ha']. rewrite Ha'. simpl.
    apply IH. intros a0 x Hx. apply H. right. assumption.
Qed.

(** The exception of a loop is that of the first item on which the body
    raises. *)
Lemma foldM_first_failure {A B : Type} (step : A -> B -> result A)
      (before after : list B) (bad : B) (e : exn) :
  (forall a x, In x before -> exists a', step a x = Ok a') ->
  (forall a, step a bad = Err e) ->
  forall a, foldM step (before ++ bad :: after) a = Err e.
Proof.
  intros Hb Hbad a. rewrite foldM_app.
  destruct (foldM_returns step before Hb a) as [a' Ha']. rewrite Ha'. simpl.
  rewrite Hbad. reflexivity.
Qed.

Lemma mapM_fails {A B : Type} (f : A -> result B) (l : list A) (x : A) (e0 : exn) :
  In x l -> f x = Err e0 -> (forall y e, In y l -> f y = Err e -> e = e0) ->
  mapM f l = Err e0.
Proof.
  intros Hin Hx Hall. induction l as [|y r IH]; [contradiction|]. simpl.
  destruct (f y) as [b|e] eqn:E; simpl.
  - destruct Hin as [->|Hin]; [congruence|].
    rewrite IH; [reflexivity | assumption |].
    intros y0 e Hy0. apply Hall. right. assumption.
  - f_equal. eapply Hall; [left; reflexivity | eassumption].
Qed.

Lemma mapM_fails_inv {A B : Type} (f : A -> result B) (l : list A) (e : exn) :
  mapM f l = Err e -> exists x, In x l /\ f x = Err e.
Proof.
  induction l as [|y r IH]; simpl; [discriminate|].
  destruct (f y) as [b|e'] eqn:E; simpl.
  - destruct (mapM f r) as [ys|e'']; simpl; [discriminate|].
    intros H. injection H as ->. destruct (IH eq_refl) as [x [Hx Hf]].
    exists x. split; [right; assumption | assumption].
  - intros H. injection H as ->. exists y. split; [left; reflexivity | assumption].
Qed.

Lemma map_aligned {A B C : Type} (f : A -> B) (g : A -> C) (xs : list A)
      (i : nat) (l : B) (v : C) :
  nth_error (map f xs) i = Some l -> nth_error (map g xs) i = Some v ->
  exists x, nth_error xs i = Some x /\ In x xs /\ l = f x /\ v = g x.
Proof.
  rewrite !nth_error_map. destruct (nth_error xs i) as [x|] eqn:E; [|discriminate].
  simpl. intros Hl Hv. injection Hl as <-. injection Hv as <-.
  exists x. split; [reflexivity|]. split; [eapply nth_error_In; eassumption|].
  split; reflexivity.
Qed.

(** ** Binary64 division stays in range *)

Lemma digits2_pos_bounds (p : positive) :
  2 ^ (Zpos (digits2_pos p) - 1) <= Zpos p < 2 ^ Zpos (digits2_pos p).
Proof.
  induction p as [p IH|p IH|]; simpl digits2_pos.
  - rewrite Pos2Z.inj_succ.
    replace (Z.succ (Zpos (digits2_pos p)) - 1) with (Z.succ (Zpos (digits2_pos p) - 1)) by lia.
    rewrite !Z.pow_succ_r by lia. lia.
  - rewrite Pos2Z.inj_succ.
    replace (Z.succ (Zpos (digits2_pos p)) - 1) with (Z.succ (Zpos (digits2_pos p) - 1)) by lia.
    rewrite !Z.pow_succ_r by lia. lia.
  - simpl. lia.
Qed.

Lemma Zdigits2_le (m k : Z) : 0 <= k -> 0 <= m -> m < 2 ^ k -> Zdigits2 m <= k.
Proof.
  intros Hk Hm Hlt. destruct m as [|p|p]; simpl; [assumption| |lia].
  pose proof (digits2_pos_bounds p) as [Hlo _].
  assert (H : 2 ^ (Zpos (digits2_pos p) - 1) < 2 ^ k) by lia.
  apply Z.pow_lt_mono_r_iff in H; lia.
Qed.

Lemma shifted_trans (j k : Z) (x y z : shr_record) :
  0 <= j -> 0 <= k -> shifted j x y -> shifted k y z -> shifted (j + k) x z.
Proof.
  intros Hj Hk [Hy Hxy] [Hz Hyz]. split; [assumption|].
  rewrite Z.pow_add_r by assumption.
  assert (0 < 2 ^ j) by (apply Z.pow_pos_nonneg; lia). nia.
Qed.

Lemma shr_1_shifted (x : shr_record) : 0 <= shr_m x -> shifted 1 x (shr_1 x).
Proof.
  destruct x as [m r s]. simpl. intros Hm. unfold shifted.
  change (2 ^ 1) with 2.
  destruct m as [|[p|p|]|p]; cbn [shr_1 shr_m orb]; lia.
Qed.

Lemma iter_shr_1_shifted (p : positive) :
  forall x, 0 <= shr_m x -> shifted (Zpos p) x (iter_pos shr_1 p x).
Proof.
  induction p as [p IH|p IH|]; intros x Hx; simpl iter_pos.
  - pose proof (shr_1_shifted x Hx) as H1.
    pose proof (IH _ (proj1 H1)) as H2.
    pose proof (IH _ (proj1 H2)) as H3.
    replace (Zpos p~1) with (1 + (Zpos p + Zpos p)) by lia.
    apply (shifted_trans 1 (Zpos p + Zpos p) _ _ _ ltac:(lia) ltac:(lia) H1).
    apply (shifted_trans (Zpos p) (Zpos p) _ _ _ ltac:(lia) ltac:(lia) H2 H3).
  - pose proof (IH _ Hx) as H2.
    pose proof (IH _ (proj1 H2)) as H3.
    replace (Zpos p~0) with (Zpos p + Zpos p) by lia.
    apply (shifted_trans (Zpos p) (Zpos p) _ _ _ ltac:(lia) ltac:(lia) H2 H3).
  - apply shr_1_shifted. assumption.
Qed.

Lemma shr_record_of_loc_m (m : Z) (l : location) : shr_m (shr_record_of_loc m l) = m.
Proof. destruct l as [|[ | | ]]; reflexivity. Qed.

Lemma shr_fexp_below (d m e : Z) (l : location) :
  0 <= d -> below d m e ->
  below d (shr_m (fst (shr_fexp prec emax m e l))) (snd (shr_fexp prec emax m e l))
  /\ snd (shr_fexp prec emax m e l) <= Z.max e (d - 53).
Proof.
  intros Hd [Hm [He Hlt]]. unfold shr_fexp, shr.
  assert (Hdig : Zdigits2 m <= d - e) by (apply Zdigits2_le; lia).
  assert (Hf : fexp prec emax (Zdigits2 m + e) <= Z.max (d - 53) (-1074)).
  { unfold fexp, emin, prec, emax. lia. }
  destruct (fexp prec emax (Zdigits2 m + e) - e) as [|n|n] eqn:En; simpl fst; simpl snd.
  - rewrite shr_record_of_loc_m. unfold below. lia.
  - pose proof (iter_shr_1_shifted n (shr_record_of_loc m l)) as H.
    destruct (H ltac:(rewrite shr_record_of_loc_m; exact Hm)) as [H0 Hs].
    rewrite shr_record_of_loc_m in Hs.
    split; [|lia]. split; [assumption|]. split; [lia|].
    assert (Hp : 2 ^ (d - e) = 2 ^ Zpos n * 2 ^ (d - (e + Zpos n))).
    { rewrite <- Z.pow_add_r by lia. f_equal. lia. }
    assert (Hpos : 0 < 2 ^ Zpos n) by (apply Z.pow_pos_nonneg; lia).
    apply (Z.mul_lt_mono_pos_l (2 ^ Zpos n)); [assumption|]. rewrite <- Hp. lia.
  - rewrite shr_record_of_loc_m. unfold below. lia.
Qed.

Lemma round_nearest_even_bounds (m : Z) (l : location) :
  m <= round_nearest_even m l <= m + 1.
Proof.
  unfold round_nearest_even. destruct l as [|[ | | ]]; try lia.
  destruct (Z.even m); lia.
Qed.

Lemma binary_round_aux_finite (d : Z) (neg : bool) (m e : Z) (l : location) :
  0 <= d <= 1023 -> e <= 0 -> below d m e ->
  match binary_round_aux prec emax neg m e l with
  | S754_finite _ _ _ | S754_zero _ => True
  | _ => False
  end.
Proof.
  intros Hd He Hb. unfold binary_round_aux.
  destruct (shr_fexp_below d m e l ltac:(lia) Hb) as [H1 He1].
  destruct (shr_fexp prec emax m e l) as [mrs1 e1]. simpl fst in *. simpl snd in *.
  set (m1 := round_nearest_even (shr_m mrs1) (loc_of_shr_record mrs1)).
  assert (Hb1 : below (d + 1) m1 e1).
  { destruct H1 as [H0 [Hle Hlt]].
    pose proof (round_nearest_even_bounds (shr_m mrs1) (loc_of_shr_record mrs1)).
    fold m1 in H. unfold below. split; [lia|]. split; [lia|].
    replace (d + 1 - e1) with (Z.succ (d - e1)) by lia.
    rewrite Z.pow_succ_r by lia. lia. }
  destruct (shr_fexp_below (d + 1) m1 e1 loc_Exact ltac:(lia) Hb1) as [H2 He2].
  destruct (shr_fexp prec emax m1 e1 loc_Exact) as [mrs2 e2].
  simpl fst in *. simpl snd in *.
  destruct H2 as [H0 _].
  destruct (shr_m mrs2) as [|p|p]; [exact I| |lia].
  assert (Hle : (e2 <=? emax - prec) = true).
  { apply Z.leb_le. unfold emax, prec. lia. }
  rewrite Hle. exact I.
Qed.

Lemma py_truediv_returns (a b : Z) :
  b <> 0 -> Z.abs a < 2 ^ 1023 -> exists f, py_truediv a b = Ok f.
Proof.
  intros Hb Ha. unfold py_truediv.
  destruct (b =? 0) eqn:Eb; [apply Z.eqb_eq in Eb; contradiction|].
  destruct (a =? 0) eqn:Ea; [eexists; reflexivity|].
  apply Z.eqb_neq in Ea.
  unfold SFdiv_core_binary.
  set (e0 := Z.min (fexp prec emax (Zdigits2 (Z.abs a) + 0 - (Zdigits2 (Z.abs b) + 0))) (0 - 0)).
  assert (He0 : e0 <= 0) by (unfold e0; lia).
  set (m' := match 0 - 0 - e0 with
             | 0 => Z.abs a
             | Zpos _ => Z.shiftl (Z.abs a) (0 - 0 - e0)
             | Zneg _ => 0
             end).
  assert (Hm' : 0 <= m' < 2 ^ (1023 - e0)).
  { assert (Hs : m' = Z.abs a * 2 ^ (- e0)).
    { unfold m'. replace (0 - 0 - e0) with (- e0) by lia.
      destruct (- e0) as [|p|p] eqn:E; [simpl; lia| |lia].
      rewrite Z.shiftl_mul_pow2 by lia. reflexivity. }
    rewrite Hs. replace (1023 - e0) with (1023 + - e0) by lia.
    rewrite Z.pow_add_r by lia.
    assert (0 < 2 ^ (- e0)) by (apply Z.pow_pos_nonneg; lia). nia. }
  assert (Hq : Z.div_eucl m' (Z.abs b) = (m' / Z.abs b, m' mod Z.abs b)).
  { unfold Z.div, Z.modulo. destruct (Z.div_eucl m' (Z.abs b)). reflexivity. }
  rewrite Hq.
  assert (Hbelow : below 1023 (m' / Z.abs b) e0).
  { unfold below. split; [apply Z.div_pos; lia|]. split; [lia|].
    assert (m' / Z.abs b <= m'); [|lia].
    apply Z.div_le_upper_bound; [lia|]. nia. }
  pose proof (binary_round_aux_finite 1023 (xorb (a <? 0) (b <? 0)) _ _
                (new_location (Z.abs b) (m' mod Z.abs b)) ltac:(lia) He0 Hbelow) as H.
  destruct (binary_round_aux prec emax _ _ _ _); try contradiction; eexists; reflexivity.
Qed.

(** ** Keys and first appearances *)

Lemma hkey_eqb_eq (a b : hkey) : hkey_eqb a b = true <-> a = b.
Proof.
  destruct a, b; simpl; split; intros H; try discriminate; try reflexivity.
  - apply Z.eqb_eq in H. congruence.
  - injection H as ->. apply Z.eqb_refl.
  - apply andb_true_iff in H. destruct H as [H He].
    apply andb_true_iff in H. destruct H as [Hs Hm].
    apply Bool.eqb_prop in Hs. apply Pos.eqb_eq in Hm. apply Z.eqb_eq in He.
    congruence.
  - injection H as -> -> ->.
    rewrite Bool.eqb_reflx, Pos.eqb_refl, Z.eqb_refl. reflexivity.
  - apply Bool.eqb_prop in H. congruence.
  - injection H as ->. apply Bool.eqb_reflx.
  - apply String.eqb_eq in H. congruence.
  - injection H as ->. apply String.eqb_refl.
Qed.

Lemma hkey_eqb_refl (a : hkey) : hkey_eqb a a = true.
Proof. apply hkey_eqb_eq. reflexivity. Qed.

Lemma hkey_eqb_neq (a b : hkey) : hkey_eqb a b = false <-> a <> b.
Proof.
  split.
  - intros H E. apply hkey_eqb_eq in E. congruence.
  - intros H. destruct (hkey_eqb a b) eqn:E; [|reflexivity].
    apply hkey_eqb_eq in E. contradiction.
Qed.

Lemma same_driver_key (a b : driver) : same_driver a b = true <-> d_key a = d_key b.
Proof. apply hkey_eqb_eq. Qed.

Lemma same_driver_sym (a b : driver) : same_driver a b = same_driver b a.
Proof.
  destruct (same_driver a b) eqn:E1, (same_driver b a) eqn:E2; try reflexivity.
  - apply same_driver_key in E1. symmetry in E1. apply same_driver_key in E1. congruence.
  - apply same_driver_key in E2. symmetry in E2. apply same_driver_key in E2. congruence.
Qed.

Lemma same_driver_subst (a b c : driver) :
  same_driver a b = true -> same_driver a c = same_driver b c.
Proof.
  intros H. apply same_driver_key in H. unfold same_driver. rewrite H. reflexivity.
Qed.

Lemma filter_none {A : Type} (p : A -> bool) (l : list A) :
  existsb p l = false -> filter p l = [].
Proof.
  induction l as [|x r IH]; simpl; [reflexivity|].
  destruct (p x); simpl; [discriminate | assumption].
Qed.

Lemma filter_some {A : Type} (p : A -> bool) (l : list A) :
  existsb p l = true -> filter p l <> [].
Proof.
  induction l as [|x r IH]; simpl; [discriminate|].
  destruct (p x); simpl; [discriminate | assumption].
Qed.

Lemma existsb_filter_other (d a : driver) (l : list driver) :
  same_driver a d = false ->
  existsb (same_driver d) (filter (fun x => negb (same_driver a x)) l)
  = existsb (same_driver d) l.
Proof.
  intros Had. induction l as [|x r IH]; simpl; [reflexivity|].
  destruct (same_driver a x) eqn:Eax; simpl.
  - rewrite IH. destruct (same_driver d x) eqn:Edx; [|reflexivity].
    rewrite (same_driver_sym a d) in Had.
    rewrite (same_driver_subst d x a Edx) in Had.
    rewrite (same_driver_sym x a) in Had. congruence.
  - rewrite IH. reflexivity.
Qed.

Lemma existsb_filter_self (a : driver) (l : list driver) :
  existsb (same_driver a) (filter (fun x => negb (same_driver a x)) l) = false.
Proof.
  induction l as [|x r IH]; simpl; [reflexivity|].
  destruct (same_driver a x) eqn:E; simpl; [assumption|].
  rewrite E. assumption.
Qed.

Lemma existsb_first_seen (d : driver) (l : list driver) :
  existsb (same_driver d) (first_seen l) = existsb (same_driver d) l.
Proof.
  induction l as [|a r IH]; simpl; [reflexivity|].
  destruct (same_driver d a) eqn:E; simpl; [reflexivity|].
  rewrite existsb_filter_other; [assumption|].
  rewrite same_driver_sym. assumption.
Qed.

Lemma first_seen_snoc (l : list driver) (d : driver) :
  first_seen (l ++ [d])
  = if existsb (same_driver d) l then first_seen l else first_seen l ++ [d].
Proof.
  induction l as [|a r IH]; simpl; [reflexivity|].
  rewrite IH. destruct (same_driver d a) eqn:Eda; simpl.
  - destruct (existsb (same_driver d) r); [reflexivity|].
    rewrite filter_app. simpl. rewrite same_driver_sym, Eda. simpl.
    rewrite app_nil_r. reflexivity.
  - destruct (existsb (same_driver d) r); [reflexivity|].
    rewrite filter_app. simpl. rewrite same_driver_sym, Eda. reflexivity.
Qed.

Lemma first_seen_incl (l : list driver) (d : driver) :
  In d (first_seen l) -> In d l.
Proof.
  revert d. induction l as [|a r IH]; intros d; simpl; [tauto|].
  intros [H|H]; [left; assumption|].
  apply filter_In in H. right. apply IH. tauto.
Qed.

Lemma not_in_keys (d : driver) (l : list driver) :
  existsb (same_driver d) l = false -> ~ In (d_key d) (map d_key l).
Proof.
  intros H Hin. apply in_map_iff in Hin. destruct Hin as [x [Hk Hx]].
  assert (E : existsb (same_driver d) l = true).
  { apply existsb_exists. exists x. split; [assumption|].
    apply same_driver_key. congruence. }
  congruence.
Qed.

Lemma first_seen_NoDup (l : list driver) : NoDup (map d_key (first_seen l)).
Proof.
  induction l as [|a r IH]; simpl; [constructor|].
  constructor.
  - apply not_in_keys. apply existsb_filter_self.
  - clear -IH. induction (first_seen r) as [|x s IHs]; simpl; [constructor|].
    inversion IH as [|? ? Hx Hs]; subst.
    destruct (same_driver a x); simpl; [apply IHs; assumption|].
    constructor; [|apply IHs; assumption].
    intros Hin. apply Hx. apply in_map_iff in Hin. destruct Hin as [y [Hy Hin]].
    apply filter_In in Hin. apply in_map_iff. exists y. tauto.
Qed.

(** ** Dictionaries *)

Lemma pd_get_set_same {V : Type} (d : pydict V) (h : hkey) (k : json) (v : V) :
  pd_get (pd_set d h k v) h = Some v.
Proof.
  induction d as [|e r IH]; simpl.
  - rewrite hkey_eqb_refl. reflexivity.
  - destruct (hkey_eqb (ekey e) h) eqn:E; simpl; rewrite E; [reflexivity | assumption].
Qed.

Lemma pd_set_set {V : Type} (d : pydict V) (h : hkey) (k : json) (v v' : V) :
  pd_set (pd_set d h k v) h k v' = pd_set d h k v'.
Proof.
  induction d as [|e r IH]; simpl.
  - rewrite hkey_eqb_refl. reflexivity.
  - destruct (hkey_eqb (ekey e) h) eqn:E; simpl; rewrite E; [reflexivity|].
    rewrite IH. reflexivity.
Qed.

Lemma pd_set_keys {V : Type} (d : pydict V) (h : hkey) (k : json) (v : V) :
  map ekey (pd_set d h k v)
  = if pd_mem d h then map ekey d else map ekey d ++ [h].
Proof.
  unfold pd_mem. induction d as [|e r IH]; simpl; [reflexivity|].
  destruct (hkey_eqb (ekey e) h) eqn:E; simpl; [reflexivity|].
  rewrite IH. destruct (pd_get r h); reflexivity.
Qed.

Lemma pd_mem_In {V : Type} (d : pydict V) (h : hkey) :
  pd_mem d h = false -> ~ In h (map ekey d).
Proof.
  unfold pd_mem. induction d as [|e r IH]; simpl; [tauto|].
  destruct (hkey_eqb (ekey e) h) eqn:E; [discriminate|].
  intros H [Hin|Hin].
  - apply hkey_eqb_neq in E. contradiction.
  - apply IH; assumption.
Qed.

(** Assignment under a key object of the right class keeps a dictionary
    well formed. *)
Lemma pd_set_ok {V : Type} (d : pydict V) (h : hkey) (k : json) (v : V) :
  py_hash k = Ok h -> dict_ok d -> dict_ok (pd_set d h k v).
Proof.
  intros Hk [Hnd Hall]. split.
  - rewrite pd_set_keys. destruct (pd_mem d h) eqn:E; [assumption|].
    apply NoDup_app; [assumption | constructor; [simpl; tauto | constructor] |].
    intros x Hx [Hin|[]]. subst x. apply pd_mem_In in E. contradiction.
  - clear Hnd. induction d as [|e r IH]; simpl.
    + constructor; [assumption | constructor].
    + inversion Hall as [|? ? He Hr]; subst.
      destruct (hkey_eqb (ekey e) h); constructor; auto.
Qed.

Lemma dict_ok_nil {V : Type} : dict_ok (@nil (entry V)).
Proof. split; constructor. Qed.

Lemma dict_ok_keys_distinct {V : Type} (d : pydict V) :
  dict_ok d ->
  forall i j a b, i <> j -> nth_error (pd_keys d) i = Some a ->
                  nth_error (pd_keys d) j = Some b -> distinct_keys a b.
Proof.
  intros [Hnd Hall] i j a b Hij Ha Hb.
  unfold pd_keys in Ha, Hb.
  rewrite nth_error_map in Ha. rewrite nth_error_map in Hb.
  destruct (nth_error d i) as [ea|] eqn:Ei; [|discriminate].
  destruct (nth_error d j) as [eb|] eqn:Ej; [|discriminate].
  simpl in Ha, Hb. injection Ha as <-. injection Hb as <-.
  rewrite Forall_forall in Hall.
  exists (ekey ea), (ekey eb).
  split; [apply Hall; eapply nth_error_In; eassumption|].
  split; [apply Hall; eapply nth_error_In; eassumption|].
  intros E. apply Hij.
  apply (proj1 (NoDup_nth_error (map ekey d)) Hnd).
  - rewrite length_map. apply nth_error_Some. congruence.
  - rewrite !nth_error_map, Ei, Ej. simpl. congruence.
Qed.

Lemma distinct_keys_neq (a b : json) : distinct_keys a b -> a <> b.
Proof. intros [ha [hb [Ha [Hb Hne]]]] E. subst b. congruence. Qed.

Lemma dict_ok_keys_NoDup {V : Type} (d : pydict V) : dict_ok d -> NoDup (pd_keys d).
Proof.
  intros Hok. apply NoDup_nth_error. intros i j Hi E.
  destruct (Nat.eq_dec i j) as [|Hij]; [assumption|]. exfalso.
  apply nth_error_Some in Hi.
  destruct (nth_error (pd_keys d) i) as [a|] eqn:Ea; [|congruence].
  symmetry in E.
  apply (distinct_keys_neq a a); [|reflexivity].
  eapply dict_ok_keys_distinct; eassumption.
Qed.

(** ** Grouping: the dictionary after the loop, in closed form *)

Section Grouping.
Context {X V : Type}.
Variable drv : X -> driver.
Variable f : option V -> X -> V.
Variable g : list X -> V.
Hypothesis g_one : forall x, f None x = g [x].
Hypothesis g_snoc : forall l x, l <> [] -> f (Some (g l)) x = g (l ++ [x]).

Lemma items_of_same (a b : driver) (items : list X) :
  same_driver a b = true -> items_of drv a items = items_of drv b items.
Proof.
  intros H. unfold items_of. apply filter_ext. intros x.
  apply same_driver_subst. assumption.
Qed.

Lemma items_of_snoc (a : driver) (items : list X) (x : X) :
  items_of drv a (items ++ [x])
  = items_of drv a items ++ (if same_driver a (drv x) then [x] else []).
Proof. unfold items_of. rewrite filter_app. reflexivity. Qed.

Lemma existsb_items (a : driver) (items : list X) :
  existsb (fun x => same_driver a (drv x)) items
  = existsb (same_driver a) (map drv items).
Proof. induction items as [|x r IH]; simpl; congruence. Qed.

Lemma pd_get_slots (items : list X) (ds : list driver) (dx : driver) :
  pd_get (map (slot drv g items) ds) (d_key dx)
  = if existsb (same_driver dx) ds then Some (g (items_of drv dx items)) else None.
Proof.
  induction ds as [|dr r IH]; simpl; [reflexivity|].
  fold (same_driver dr dx). rewrite (same_driver_sym dx dr).
  destruct (same_driver dr dx) eqn:E; simpl; [|assumption].
  rewrite (items_of_same dr dx); [reflexivity | assumption].
Qed.

Lemma pd_set_slots_new (mk : driver -> entry V) (ds : list driver)
      (dx : driver) (k : json) (v : V) :
  (forall dr, ekey (mk dr) = d_key dr) ->
  existsb (same_driver dx) ds = false ->
  pd_set (map mk ds) (d_key dx) k v = map mk ds ++ [mk_entry (d_key dx) k v].
Proof.
  intros Hmk. induction ds as [|dr r IH]; simpl; [reflexivity|].
  intros H. apply orb_false_iff in H. destruct H as [H1 H2].
  rewrite Hmk. fold (same_driver dr dx). rewrite same_driver_sym, H1.
  rewrite IH; [reflexivity | assumption].
Qed.

Lemma pd_set_slots_old (mk : driver -> entry V) (ds : list driver)
      (dx : driver) (k : json) (v : V) :
  (forall dr, ekey (mk dr) = d_key dr) ->
  (forall dr, eobj (mk dr) = d_name dr) ->
  NoDup (map d_key ds) ->
  existsb (same_driver dx) ds = true ->
  pd_set (map mk ds) (d_key dx) k v
  = map (fun dr => if same_driver dx dr
                   then mk_entry (d_key dr) (d_name dr) v else mk dr) ds.
Proof.
  intros Hmk Hobj. induction ds as [|dr r IH]; simpl; [discriminate|].
  intros Hnd H. inversion Hnd as [|? ? Hnotin Hnd']; subst.
  rewrite Hmk, Hobj. fold (same_driver dr dx). rewrite (same_driver_sym dr dx).
  destruct (same_driver dx dr) eqn:E; simpl in *.
  - f_equal. apply map_ext_in. intros y Hy.
    destruct (same_driver dx y) eqn:Ey; [|reflexivity].
    exfalso. apply Hnotin. apply same_driver_key in E, Ey.
    rewrite <- E, Ey. apply in_map. assumption.
  - rewrite IH; [reflexivity | assumption | assumption].
Qed.

Lemma group_step_snoc (items : list X) (x : X) :
  group_step drv f (grouped drv g items) x = grouped drv g (items ++ [x]).
Proof.
  unfold group_step, grouped.
  rewrite pd_get_slots, existsb_first_seen.
  rewrite map_app. simpl. rewrite first_seen_snoc.
  destruct (existsb (same_driver (drv x)) (map drv items)) eqn:E.
  - rewrite pd_set_slots_old;
      [| reflexivity | reflexivity | apply first_seen_NoDup
       | rewrite existsb_first_seen; assumption].
    apply map_ext. intros dr. unfold slot.
    rewrite items_of_snoc, (same_driver_sym dr (drv x)).
    destruct (same_driver (drv x) dr) eqn:Ed.
    + rewrite g_snoc.
      * rewrite (items_of_same dr (drv x)); [reflexivity|].
        rewrite same_driver_sym. assumption.
      * apply filter_some. rewrite existsb_items. assumption.
    + rewrite app_nil_r. reflexivity.
  - rewrite pd_set_slots_new;
      [| reflexivity | rewrite existsb_first_seen; assumption].
    rewrite map_app. simpl. f_equal.
    + apply map_ext_in. intros dr Hdr. unfold slot.
      rewrite items_of_snoc.
      destruct (same_driver dr (drv x)) eqn:Ed; [|rewrite app_nil_r; reflexivity].
      exfalso. apply first_seen_incl in Hdr.
      assert (Ex : existsb (same_driver (drv x)) (map drv items) = true).
      { apply existsb_exists. exists dr. split; [assumption|].
        rewrite same_driver_sym. assumption. }
      congruence.
    + unfold slot. rewrite items_of_snoc.
      unfold same_driver at 1. rewrite hkey_eqb_refl.
      unfold items_of at 1. rewrite filter_none; [|rewrite existsb_items; assumption].
      simpl. rewrite g_one. reflexivity.
Qed.

(** The loop from the empty dictionary leaves one slot per driver, in
    the order of first appearance, holding [g] of the driver's items. *)
Lemma fold_grouped (items : list X) :
  fold_left (group_step drv f) items [] = grouped drv g items.
Proof.
  induction items as [|x r IH] using rev_ind; [reflexivity|].
  rewrite fold_left_app. simpl. rewrite IH. apply group_step_snoc.
Qed.
End Grouping.

(** ** The three loops over the results, in closed form *)

Lemma zlen_snoc {A : Type} (l : list A) (x : A) : zlen (l ++ [x]) = zlen l + 1.
Proof. unfold zlen. rewrite length_app. simpl. lia. Qed.

Lemma mapM_premap {A B C : Type} (f : B -> result C) (h : A -> B) (l : list A) :
  mapM f (map h l) = mapM (fun x => f (h x)) l.
Proof. induction l as [|x r IH]; simpl; [reflexivity|]. rewrite IH. reflexivity. Qed.

Lemma wins_race_decode (d : pydict Z) (race : json) :
  wins_race d race
  = (dr <- (w <- first_listed race ;; driver_of w) ;;
     Ok (group_step (fun x => x) count_up d dr)).
Proof.
  unfold wins_race, first_listed, driver_of.
  destruct (getitem race "Results") as [rs|]; simpl; [|reflexivity].
  destruct (getitem0 rs) as [w|]; simpl; [|reflexivity].
  destruct (family_name w) as [name|]; simpl; [|reflexivity].
  destruct (py_hash name) as [h|]; reflexivity.
Qed.

Lemma win_counts_closed (payload : json) :
  win_counts_of payload
  = (ws <- winners payload ;; Ok (grouped (fun x => x) zlen ws)).
Proof.
  unfold win_counts_of, winners, race_list. rewrite !bind_assoc.
  apply bind_ext. intros results.
  apply bind_ext. intros races.
  rewrite (foldM_decode _ _ _ wins_race_decode).
  apply bind_ext. intros ws. f_equal.
  apply fold_grouped.
  - reflexivity.
  - intros l x _. unfold count_up. symmetry. apply zlen_snoc.
Qed.

Lemma most_wins_closed (payload : json) :
  most_wins_series payload
  = (ws <- winners payload ;;
     Ok (map d_name (first_seen ws),
         map (fun d => NInt (occurrences d ws)) (first_seen ws))).
Proof.
  unfold most_wins_series. rewrite win_counts_closed, bind_assoc.
  apply bind_ext. intros ws. simpl.
  unfold grouped, pd_keys, pd_values. rewrite map_id, !map_map. reflexivity.
Qed.

Lemma average_result_decode (d : pydict (list Z)) (res : json) :
  average_result d res
  = (p <- placing_of res ;; Ok (group_step p_driver append_position d p)).
Proof.
  unfold average_result, placing_of.
  destruct (family_name res) as [name|]; simpl; [|reflexivity].
  destruct (getitem res "position") as [p|]; simpl; [|reflexivity].
  destruct (py_int p) as [position|]; simpl; [|reflexivity].
  destruct (py_hash name) as [h|]; simpl; [|reflexivity].
  unfold group_step, append_position, pd_mem. simpl.
  destruct (pd_get d h) as [ps|] eqn:E.
  - rewrite E. reflexivity.
  - rewrite pd_get_set_same, pd_set_set. reflexivity.
Qed.

Lemma finish_positions_closed (payload : json) :
  finish_positions_of payload
  = (pss <- placings payload ;;
     Ok (grouped p_driver (map p_position) (List.concat pss))).
Proof.
  unfold finish_positions_of, placings, race_list. rewrite !bind_assoc.
  apply bind_ext. intros results.
  apply bind_ext. intros races.
  rewrite (foldM_ext average_race
             (fun a race => items <- race_results race ;; foldM average_result items a)).
  2: { intros a race. unfold average_race, race_results.
       rewrite bind_assoc. reflexivity. }
  rewrite (foldM_nested average_result placing_of
             (group_step p_driver append_position) race_results).
  - apply bind_ext. intros pss. f_equal.
    apply fold_grouped.
    + reflexivity.
    + intros l x _. unfold append_position. rewrite map_app. reflexivity.
  - apply average_result_decode.
Qed.

Lemma average_finish_closed (payload : json) :
  average_finish_series payload
  = (pss <- placings payload ;;
     let all := List.concat pss in
     let ds := first_seen (map p_driver all) in
     vs <- mapM (fun d => mean (positions_of d all)) ds ;;
     Ok (map d_name ds, vs)).
Proof.
  unfold average_finish_series. rewrite finish_positions_closed, bind_assoc.
  apply bind_ext. intros pss. simpl.
  unfold grouped, pd_keys, pd_values. rewrite !map_map, mapM_premap. reflexivity.
Qed.

Lemma podium_result_decode (d : pydict Z) (res : json) :
  podium_result d res = (o <- podium_entry res ;; Ok (podium_step d o)).
Proof.
  unfold podium_result, podium_entry.
  destruct (getitem res "position") as [p|]; simpl; [|reflexivity].
  destruct (py_int p) as [position|]; simpl; [|reflexivity].
  destruct (position <=? 3); [|reflexivity].
  destruct (family_name res) as [name|]; simpl; [|reflexivity].
  destruct (py_hash name) as [h|]; reflexivity.
Qed.

Lemma fold_podium_step (os : list (option driver)) (d : pydict Z) :
  fold_left podium_step os d
  = fold_left (group_step (fun x => x) count_up) (somes os) d.
Proof.
  revert d. induction os as [|o r IH]; intros d; simpl; [reflexivity|].
  destruct o as [dr|]; simpl; apply IH.
Qed.

Lemma podium_counts_closed (payload : json) :
  podium_counts_of payload
  = (oss <- podium_entries payload ;;
     Ok (grouped (fun x => x) zlen (somes (List.concat oss)))).
Proof.
  unfold podium_counts_of, podium_entries, race_list. rewrite !bind_assoc.
  apply bind_ext. intros results.
  apply bind_ext. intros races.
  rewrite (foldM_ext podium_race
             (fun a race => items <- race_results race ;; foldM podium_result items a)).
  2: { intros a race. unfold podium_race, race_results.
       rewrite bind_assoc. reflexivity. }
  rewrite (foldM_nested podium_result podium_entry podium_step race_results).
  - apply bind_ext. intros oss. f_equal.
    rewrite fold_podium_step. apply fold_grouped.
    + reflexivity.
    + intros l x _. unfold count_up. symmetry. apply zlen_snoc.
  - apply podium_result_decode.
Qed.

Lemma podium_closed (payload : json) :
  podium_series payload
  = (oss <- podium_entries payload ;;
     let ps := somes (List.concat oss) in
     Ok (map d_name (first_seen ps),
         map (fun d => NInt (occurrences d ps)) (first_seen ps))).
Proof.
  unfold podium_series. rewrite podium_counts_closed, bind_assoc.
  apply bind_ext. intros oss. simpl.
  unfold grouped, pd_keys, pd_values. rewrite map_id, !map_map. reflexivity.
Qed.

Lemma mapM_impl {A B C : Type} (f : A -> result B) (f' : A -> result C) (h : B -> C) :
  (forall x y, f x = Ok y -> f' x = Ok (h y)) ->
  forall l ys, mapM f l = Ok ys -> mapM f' l = Ok (map h ys).
Proof.
  intros Hf l ys H. apply mapM_Forall2 in H. apply mapM_Forall2.
  induction H; simpl; constructor; auto.
Qed.

Lemma podium_entry_placing (res : json) (p : placing) :
  placing_of res = Ok p -> podium_entry res = Ok (podium_driver p).
Proof.
  unfold placing_of, podium_entry, podium_driver, on_podium. intros H.
  destruct (family_name res) as [name|]; simpl in *; [|discriminate].
  destruct (getitem res "position") as [q|]; simpl in *; [|discriminate].
  destruct (py_int q) as [position|]; simpl in *; [|discriminate].
  destruct (py_hash name) as [h|]; simpl in *; [|discriminate].
  injection H as <-. simpl. destruct (position <=? 3); reflexivity.
Qed.

Lemma podium_entries_placings (payload : json) (pss : list (list placing)) :
  placings payload = Ok pss ->
  podium_entries payload = Ok (map (map podium_driver) pss).
Proof.
  unfold placings, podium_entries. intros H.
  destruct (race_list payload) as [races|]; simpl in *; [|discriminate].
  revert H. apply mapM_impl. intros race ps H.
  destruct (race_results race) as [items|]; simpl in *; [|discriminate].
  revert H. apply mapM_impl. apply podium_entry_placing.
Qed.

Lemma somes_podium (pss : list (list placing)) :
  somes (List.concat (map (map podium_driver) pss))
  = map p_driver (podium_placings (List.concat pss)).
Proof.
  unfold podium_placings. rewrite <- concat_map.
  induction (List.concat pss) as [|p r IH]; simpl; [reflexivity|].
  unfold podium_driver at 1. destruct (on_podium p); simpl; rewrite IH; reflexivity.
Qed.

(** ** What the podium chart reads of the results *)

Lemma podium_drivers_cons (res : json) (rs : list json) :
  podium_drivers (res :: rs) = (podium_drivers [res] ++ podium_drivers rs)%list.
Proof. unfold podium_drivers. simpl. rewrite app_nil_r. reflexivity. Qed.

Lemma podium_drivers_app (rs rs' : list json) :
  podium_drivers (rs ++ rs') = (podium_drivers rs ++ podium_drivers rs')%list.
Proof. apply flat_map_app. Qed.

Lemma somes_app {A : Type} (l l' : list (option A)) :
  somes (l ++ l') = (somes l ++ somes l')%list.
Proof.
  induction l as [|[a|] r IH]; simpl; [reflexivity | rewrite IH; reflexivity | exact IH].
Qed.

Lemma podium_entry_reads (res : json) (o : option driver) :
  podium_entry res = Ok o ->
  podium_readable res /\ somes [o] = podium_drivers [res].
Proof.
  unfold podium_entry, podium_readable, podium_drivers, counts_as_podium,
    position_of, driver_of.
  simpl flat_map. rewrite app_nil_r. intros H.
  destruct (getitem res "position") as [p|]; simpl in *; [|discriminate].
  destruct (py_int p) as [z|]; simpl in *; [|discriminate].
  destruct (z <=? 3).
  - destruct (family_name res) as [name|]; simpl in *; [|discriminate].
    destruct (py_hash name) as [h|]; simpl in *; [|discriminate].
    injection H as <-.
    split; [split; [eexists; reflexivity | intros _; eexists; reflexivity] | reflexivity].
  - injection H as <-.
    split; [split; [eexists; reflexivity | discriminate] | reflexivity].
Qed.

Lemma podium_entry_returns (res : json) :
  podium_readable res -> exists o, podium_entry res = Ok o.
Proof.
  unfold podium_entry, podium_readable, counts_as_podium, position_of, driver_of.
  intros [[z Hz] Hd].
  destruct (getitem res "position") as [p|]; simpl in *; [|discriminate].
  destruct (py_int p) as [z'|]; simpl in *; [|discriminate].
  destruct (z' <=? 3); [|eexists; reflexivity].
  destruct (Hd eq_refl) as [d Hdr].
  destruct (family_name res) as [name|]; simpl in *; [|discriminate].
  destruct (py_hash name) as [h|]; simpl in *; [|discriminate].
  eexists. reflexivity.
Qed.

Lemma podium_entries_read (rs : list json) (os : list (option driver)) :
  mapM podium_entry rs = Ok os ->
  Forall podium_readable rs /\ somes os = podium_drivers rs.
Proof.
  intros H. apply mapM_Forall2 in H.
  induction H as [|res o rs os Ho _ [IH1 IH2]]; [split; [constructor | reflexivity]|].
  apply podium_entry_reads in Ho. destruct Ho as [Hr Hs].
  split; [constructor; assumption|].
  rewrite podium_drivers_cons, <- Hs, <- IH2. destruct o; reflexivity.
Qed.

Lemma podium_entries_return (rs : list json) :
  Forall podium_readable rs -> exists os, mapM podium_entry rs = Ok os.
Proof.
  induction 1 as [|res rs Hr _ [os IH]]; [exists []; reflexivity|].
  destruct (podium_entry_returns res Hr) as [o Ho].
  exists (o :: os). simpl. rewrite Ho. simpl. rewrite IH. reflexivity.
Qed.

Lemma podium_view (payload : json) (oss : list (list (option driver))) :
  podium_entries payload = Ok oss ->
  exists rs, all_results payload = Ok rs
             /\ Forall podium_readable rs
             /\ somes (List.concat oss) = podium_drivers rs.
Proof.
  unfold podium_entries, all_results. intros H. bind_inv H. rewrite Ha. simpl.
  apply mapM_nested_inv in H. destruct H as [rss [H1 H2]]. rewrite H1. simpl.
  exists (List.concat rss). split; [reflexivity|]. clear H1 Ha.
  induction H2 as [|rs os rss oss Hro _ [IH1 IH2]]; simpl.
  - split; [constructor | reflexivity].
  - apply podium_entries_read in Hro. destruct Hro as [Hr Hs].
    split; [apply Forall_app; split; assumption|].
    rewrite somes_app, podium_drivers_app, Hs, IH2. reflexivity.
Qed.

Lemma podium_view_returns (payload : json) (rs : list json) :
  all_results payload = Ok rs -> Forall podium_readable rs ->
  exists oss, podium_entries payload = Ok oss.
Proof.
  unfold podium_entries, all_results. intros H Hr. do 2 bind_inv H.
  injection H as <-. rewrite Ha. simpl.
  assert (E : exists oss, Forall2 (fun rs os => mapM podium_entry rs = Ok os) a0 oss).
  { clear Ha0. induction a0 as [|rs rss IH]; [exists []; constructor|].
    simpl in Hr. apply Forall_app in Hr. destruct Hr as [Hr1 Hr2].
    destruct (podium_entries_return rs Hr1) as [os Hos].
    destruct (IH Hr2) as [oss Hoss].
    exists (os :: oss). constructor; assumption. }
  destruct E as [oss Hoss]. exists oss.
  apply mapM_nested_inv. exists a0. split; assumption.
Qed.

Lemma occurrences_podium_drivers (d : driver) (rs : list json) :
  occurrences d (podium_drivers rs) = podium_finishes d rs.
Proof.
  unfold occurrences, podium_finishes, zlen.
  induction rs as [|res rs IH]; [reflexivity|].
  rewrite podium_drivers_cons, filter_app, length_app, Nat2Z.inj_add, IH.
  unfold podium_drivers. simpl flat_map. rewrite app_nil_r. simpl filter.
  destruct (counts_as_podium res); simpl; [|reflexivity].
  destruct (driver_of res) as [d'|]; simpl; [|reflexivity].
  destruct (same_driver d d'); simpl List.length; lia.
Qed.

Lemma podium_drivers_length (rs : list json) :
  Forall podium_readable rs ->
  zlen (podium_drivers rs) = zlen (filter counts_as_podium rs).
Proof.
  unfold zlen. induction 1 as [|res rs [_ Hd] _ IH]; [reflexivity|].
  rewrite podium_drivers_cons, length_app, Nat2Z.inj_add, IH.
  unfold podium_drivers. simpl flat_map. rewrite app_nil_r. simpl filter.
  destruct (counts_as_podium res); simpl; [|reflexivity].
  destruct (Hd eq_refl) as [d Hdr]. rewrite Hdr. simpl List.length. lia.
Qed.

(** ** Counting *)

Lemma zsum_values_count (d : pydict Z) (h : hkey) (k : json) :
  zsum_values (pd_set d h k (pd_get_default d h 0 + 1)) = zsum_values d + 1.
Proof.
  unfold pd_get_default. induction d as [|e r IH]; simpl; [lia|].
  destruct (hkey_eqb (ekey e) h); simpl; lia.
Qed.

Lemma num_total_values (d : pydict Z) :
  num_total (map NInt (pd_values d)) = zsum_values d.
Proof. induction d as [|e r IH]; simpl; [reflexivity | rewrite IH; reflexivity]. Qed.

Lemma wins_race_sum (d d' : pydict Z) (race : json) :
  wins_race d race = Ok d' -> zsum_values d' = zsum_values d + 1.
Proof.
  unfold wins_race. intros H. do 4 bind_inv H. injection H as <-.
  apply zsum_values_count.
Qed.

Lemma wins_loop_sum (races : list json) (d d' : pydict Z) :
  foldM wins_race races d = Ok d' -> zsum_values d' = zsum_values d + zlen races.
Proof.
  revert d. induction races as [|race r IH]; intros d H; simpl in H.
  - injection H as <-. unfold zlen. simpl. lia.
  - bind_inv H. apply IH in H. apply wins_race_sum in Ha.
    unfold zlen in *. simpl List.length. lia.
Qed.

Lemma count_loop_sum (items : list driver) (d : pydict Z) :
  zsum_values (fold_left (group_step (fun x => x) count_up) items d)
  = zsum_values d + zlen items.
Proof.
  revert d. induction items as [|x r IH]; intros d; simpl.
  - unfold zlen. simpl. lia.
  - rewrite IH. unfold group_step, count_up.
    change (match pd_get d (d_key x) with Some v => v | None => 0 end)
      with (pd_get_default d (d_key x) 0).
    rewrite zsum_values_count. unfold zlen. simpl List.length. lia.
Qed.

(** The occurrences of the drivers of a list add up to its length. *)
Lemma occurrences_total (l : list driver) :
  num_total (map (fun d => NInt (occurrences d l)) (first_seen l)) = zlen l.
Proof.
  pose proof (count_loop_sum l []) as H.
  rewrite (fold_grouped (fun x => x) count_up zlen) in H.
  - rewrite <- num_total_values in H. simpl in H. rewrite <- H.
    unfold grouped, pd_values. rewrite map_id, !map_map. reflexivity.
  - reflexivity.
  - intros l0 x _. unfold count_up. symmetry. apply zlen_snoc.
Qed.

Lemma occurrences_podium (d : driver) (l : list placing) :
  occurrences d (map p_driver (podium_placings l)) = podiums_of d l.
Proof.
  unfold occurrences, podiums_of, podium_placings, zlen. f_equal.
  induction l as [|p r IH]; simpl; [reflexivity|].
  destruct (on_podium p); simpl.
  - destruct (same_driver d (p_driver p)); simpl; congruence.
  - rewrite andb_false_r. assumption.
Qed.

(** ** The dictionaries of the three loops are well formed *)

Lemma driver_of_hash (x : json) (dr : driver) :
  driver_of x = Ok dr -> py_hash (d_name dr) = Ok (d_key dr).
Proof.
  unfold driver_of. intros H. do 2 bind_inv H. injection H as <-. assumption.
Qed.

Lemma placing_of_hash (res : json) (p : placing) :
  placing_of res = Ok p -> py_hash (d_name (p_driver p)) = Ok (d_key (p_driver p)).
Proof.
  unfold placing_of. intros H. do 4 bind_inv H. injection H as <-. assumption.
Qed.

Lemma placings_hash (payload : json) (pss : list (list placing)) (p : placing) :
  placings payload = Ok pss -> In p (List.concat pss) ->
  py_hash (d_name (p_driver p)) = Ok (d_key (p_driver p)).
Proof.
  unfold placings. intros H Hin. bind_inv H.
  apply mapM_Forall2 in H. apply in_concat in Hin. destruct Hin as [ps [Hps Hp]].
  clear Ha.
  induction H as [|race ps0 races pss0 Hrace _ IH]; [contradiction|].
  destruct Hps as [->|Hps]; [|apply IH; assumption].
  bind_inv Hrace. apply mapM_Forall2 in Hrace. clear -Hrace Hp.
  induction Hrace as [|x q xs qs Hx _ IH]; [contradiction|].
  destruct Hp as [->|Hp]; [eapply placing_of_hash; eassumption | apply IH; assumption].
Qed.

Lemma winners_hash (payload : json) (ws : list driver) (d : driver) :
  winners payload = Ok ws -> In d ws -> py_hash (d_name d) = Ok (d_key d).
Proof.
  unfold winners. intros H Hin. bind_inv H. apply mapM_Forall2 in H. clear Ha.
  induction H as [|race w races ws Hw _ IH]; [contradiction|].
  destruct Hin as [->|Hin]; [|apply IH; assumption].
  bind_inv Hw. eapply driver_of_hash. eassumption.
Qed.

Lemma podium_drivers_hash (rs : list json) (d : driver) :
  In d (podium_drivers rs) -> py_hash (d_name d) = Ok (d_key d).
Proof.
  unfold podium_drivers. rewrite in_flat_map. intros [res [_ Hd]].
  destruct (counts_as_podium res); [|contradiction].
  destruct (driver_of res) as [d'|] eqn:E; [|contradiction].
  destruct Hd as [->|[]]. eapply driver_of_hash. eassumption.
Qed.

Lemma wins_race_ok (d d' : pydict Z) (race : json) :
  dict_ok d -> wins_race d race = Ok d' -> dict_ok d'.
Proof.
  unfold wins_race. intros Hd H. do 4 bind_inv H. injection H as <-.
  apply pd_set_ok; assumption.
Qed.

Lemma average_result_ok (d d' : pydict (list Z)) (res : json) :
  dict_ok d -> average_result d res = Ok d' -> dict_ok d'.
Proof.
  rewrite average_result_decode. intros Hd H. bind_inv H. injection H as <-.
  apply pd_set_ok; [|assumption]. eapply placing_of_hash. eassumption.
Qed.

Lemma podium_result_ok (d d' : pydict Z) (res : json) :
  dict_ok d -> podium_result d res = Ok d' -> dict_ok d'.
Proof.
  unfold podium_result. intros Hd H. do 2 bind_inv H.
  destruct (a0 <=? 3).
  - do 2 bind_inv H. injection H as <-. apply pd_set_ok; assumption.
  - injection H as <-. assumption.
Qed.

Lemma win_counts_ok (payload : json) (d : pydict Z) :
  win_counts_of payload = Ok d -> dict_ok d.
Proof.
  unfold win_counts_of. intros H. do 2 bind_inv H.
  eapply (foldM_invariant dict_ok); [| apply dict_ok_nil | eassumption].
  intros ? ? ? ?. apply wins_race_ok. assumption.
Qed.

Lemma finish_positions_ok (payload : json) (d : pydict (list Z)) :
  finish_positions_of payload = Ok d -> dict_ok d.
Proof.
  unfold finish_positions_of. intros H. do 2 bind_inv H.
  eapply (foldM_invariant dict_ok); [| apply dict_ok_nil | eassumption].
  intros d0 race d1 Hd0 Hr. unfold average_race in Hr. do 2 bind_inv Hr.
  eapply (foldM_invariant dict_ok); [| eassumption | eassumption].
  intros ? ? ? ?. apply average_result_ok. assumption.
Qed.

Lemma podium_counts_ok (payload : json) (d : pydict Z) :
  podium_counts_of payload = Ok d -> dict_ok d.
Proof.
  unfold podium_counts_of. intros H. do 2 bind_inv H.
  eapply (foldM_invariant dict_ok); [| apply dict_ok_nil | eassumption].
  intros d0 race d1 Hd0 Hr. unfold podium_race in Hr. do 2 bind_inv Hr.
  eapply (foldM_invariant dict_ok); [| eassumption | eassumption].
  intros ? ? ? ?. apply podium_result_ok. assumption.
Qed.

(** * The properties of the specification *)

(** ** Standings *)

Lemma standings_series_inv (name_of : json -> result json)
      (points : json -> result num) (table : string) (payload : json)
      (ls : list json) (vs : list num) :
  (standings <- standings_of table payload ;;
   items <- py_iter standings ;;
   labels <- mapM name_of items ;;
   values <- mapM points items ;;
   Ok (labels, values)) = Ok (ls, vs) ->
  exists entries,
    standing_entries table payload = Ok entries
    /\ mapM name_of entries = Ok ls /\ mapM points entries = Ok vs.
Proof.
  intros H. do 4 bind_inv H. injection H as <- <-.
  exists a0. unfold standing_entries. rewrite Ha. simpl. auto.
Qed.

Lemma points_of_float (py_float : json -> result float) (entries : list json)
      (pts : list float) :
  Forall2 (fun e f => (p <- getitem e "points" ;; py_float p) = Ok f) entries pts ->
  mapM (points_of py_float) entries = Ok (map NFloat pts).
Proof.
  intros H. apply mapM_Forall2.
  induction H as [|e f es fs Hef _ IH]; simpl; constructor; [|assumption].
  unfold points_of. bind_inv Hef. rewrite Ha. simpl. rewrite Hef. reflexivity.
Qed.

(** C3, as stated, fails: not every standings payload gives a series.
    The document of a season without standings has an empty
    [StandingsLists]; it has no list of driver entries, and line 83
    raises [IndexError]. *)
Lemma total_points_no_standings :
  total_points_series float_of_decimal no_standings = Err IndexError
  /\ standing_entries "DriverStandings" no_standings = Err IndexError.
Proof. split; reflexivity. Qed.

(** C3, amended.  "Total Points Distribution": when the standings
    payload lists the entries [entries], each with a family name and
    with points that [float] reads, the series is the family names in
    payload order with the parsed points in payload order, and both
    lists are as long as [entries].  Conversely, whenever a series is
    produced, its length is the number of entries and label and value
    [i] come from entry [i].  When [StandingsLists] is empty no series
    is produced: the aggregation raises [IndexError]. *)
Theorem total_points_series_spec (py_float : json -> result float) (payload : json) :
  (forall entries names pts,
      standing_entries "DriverStandings" payload = Ok entries ->
      Forall2 (fun e l => family_name e = Ok l) entries names ->
      Forall2 (fun e f => (p <- getitem e "points" ;; py_float p) = Ok f) entries pts ->
      total_points_series py_float payload = Ok (names, map NFloat pts)
      /\ List.length names = List.length entries
      /\ List.length (map NFloat pts) = List.length entries)
  /\ (forall ls vs,
         total_points_series py_float payload = Ok (ls, vs) ->
         exists entries,
           standing_entries "DriverStandings" payload = Ok entries
           /\ List.length ls = List.length entries
           /\ List.length vs = List.length entries
           /\ forall i e, nth_error entries i = Some e ->
                exists l f, nth_error ls i = Some l
                            /\ nth_error vs i = Some (NFloat f)
                            /\ family_name e = Ok l
                            /\ (p <- getitem e "points" ;; py_float p) = Ok f)
  /\ (forall m t,
         getitem payload "MRData" = Ok m ->
         getitem m "StandingsTable" = Ok t ->
         getitem t "StandingsLists" = Ok (JArr []) ->
         total_points_series py_float payload = Err IndexError).
Proof.
  split; [|split].
  - intros entries names pts He Hn Hp.
    unfold standing_entries in He. bind_inv He.
    unfold total_points_series. rewrite Ha. simpl. rewrite He. simpl.
    apply mapM_Forall2 in Hn. rewrite Hn. simpl.
    rewrite (points_of_float _ _ _ Hp). simpl.
    split; [reflexivity|]. split.
    + eapply mapM_length. eassumption.
    + rewrite length_map. symmetry. eapply Forall2_length. eassumption.
  - intros ls vs H. apply standings_series_inv in H.
    destruct H as [entries [He [Hl Hv]]]. exists entries.
    split; [assumption|].
    split; [eapply mapM_length; eassumption|].
    split; [eapply mapM_length; eassumption|].
    intros i e Hi.
    destruct (mapM_nth _ _ _ Hl i e Hi) as [l [Hli Hle]].
    destruct (mapM_nth _ _ _ Hv i e Hi) as [v [Hvi Hve]].
    unfold points_of in Hve. do 2 bind_inv Hve. injection Hve as <-.
    exists l, a0. rewrite Ha. simpl. auto.
  - intros m t Hm Ht Hl. unfold total_points_series, standings_of.
    rewrite Hm. simpl. rewrite Ht. simpl. rewrite Hl. reflexivity.
Qed.

Lemma total_points_series_spec_witness :
  total_points_series float_of_decimal standings_2021
  = Ok ([JStr "Verstappen"; JStr "Hamilton"; JStr "Bottas"],
        map NFloat [S754_finite false 6957709580566528 (-44);
                    S754_finite false 6816972092211200 (-44);
                    S754_finite false 7951668092076032 (-45)])
  /\ List.length [JStr "Verstappen"; JStr "Hamilton"; JStr "Bottas"] = 3%nat.
Proof.
  assert (Hn : Forall2 (fun e l => family_name e = Ok l)
                 [driver_standing "Verstappen" "395.5";
                  driver_standing "Hamilton" "387.5"; driver_standing "Bottas" "226"]
                 [JStr "Verstappen"; JStr "Hamilton"; JStr "Bottas"])
    by (repeat constructor).
  assert (Hp : Forall2 (fun e f => (p <- getitem e "points" ;; float_of_decimal p) = Ok f)
                 [driver_standing "Verstappen" "395.5";
                  driver_standing "Hamilton" "387.5"; driver_standing "Bottas" "226"]
                 [S754_finite false 6957709580566528 (-44);
                  S754_finite false 6816972092211200 (-44);
                  S754_finite false 7951668092076032 (-45)])
    by (repeat constructor).
  destruct (proj1 (total_points_series_spec float_of_decimal standings_2021)
              _ _ _ eq_refl Hn Hp) as [H1 [H2 _]].
  split; [exact H1 | exact H2].
Defined.

(** ** Wins *)

(** C4.  "Most Wins by Driver": when every race of the payload has a
    first-listed result with a family name, the series lists the drivers
    of those entries in the order of first appearance, each with the
    number of races in which that driver is listed first, and the counts
    add up to the number of races.  Whenever a series is produced at all,
    its counts add up to the number of races.  The first-listed entry is
    taken as it comes: in [unsorted_race] the win goes to the driver
    listed first although the position of that entry is 2. *)
Theorem most_wins_one_per_race (payload : json) :
  (forall races ws,
      race_list payload = Ok races ->
      Forall2 (fun race w => (x <- first_listed race ;; driver_of x) = Ok w) races ws ->
      most_wins_series payload
      = Ok (map d_name (first_seen ws),
            map (fun d => NInt (occurrences d ws)) (first_seen ws))
      /\ num_total (map (fun d => NInt (occurrences d ws)) (first_seen ws)) = zlen races)
  /\ (forall ls vs,
         most_wins_series payload = Ok (ls, vs) ->
         exists races, race_list payload = Ok races /\ num_total vs = zlen races)
  /\ most_wins_series unsorted_race = Ok ([JStr "Norris"], [NInt 1]).
Proof.
  split; [|split].
  - intros races ws Hr Hw. rewrite most_wins_closed.
    unfold winners. rewrite Hr. simpl.
    pose proof (proj2 (mapM_Forall2 _ _ _) Hw) as Hm. rewrite Hm. simpl.
    split; [reflexivity|].
    rewrite occurrences_total. unfold zlen. f_equal.
    symmetry. eapply Forall2_length. eassumption.
  - intros ls vs H. unfold most_wins_series in H. bind_inv H.
    injection H as <- <-. unfold win_counts_of in Ha. do 2 bind_inv Ha.
    exists a1. split.
    + unfold race_list. rewrite Ha0. simpl. assumption.
    + rewrite num_total_values. apply wins_loop_sum in Ha. simpl in Ha. assumption.
  - reflexivity.
Qed.

Lemma most_wins_one_per_race_witness :
  most_wins_series season_2021
  = Ok ([JStr "Hamilton"; JStr "Verstappen"], [NInt 1; NInt 2])
  /\ num_total [NInt 1; NInt 2] = 3.
Proof.
  assert (Hw : Forall2 (fun race w => (x <- first_listed race ;; driver_of x) = Ok w)
                 [race_entry [result_entry "Hamilton" "1"; result_entry "Verstappen" "2";
                              result_entry "Bottas" "3"; result_entry "Norris" "4"];
                  race_entry [result_entry "Verstappen" "1"; result_entry "Norris" "2";
                              result_entry "Hamilton" "3"; result_entry "Bottas" "12"];
                  race_entry [result_entry "Verstappen" "1"; result_entry "Hamilton" "2";
                              result_entry "Bottas" "3"]]
                 [mk_driver (HStr "Hamilton") (JStr "Hamilton");
                  mk_driver (HStr "Verstappen") (JStr "Verstappen");
                  mk_driver (HStr "Verstappen") (JStr "Verstappen")])
    by (repeat constructor).
  destruct (proj1 (most_wins_one_per_race season_2021) _ _ eq_refl Hw) as [H1 H2].
  split; [exact H1 | exact H2].
Defined.

(** ** Podium finishes *)

(** C5.  "Podium Finishes by Driver" counts a result exactly when its
    position, read as an integer, is at most 3.

    On a payload whose results all carry a family name and an integer
    position, the series lists the drivers with such a result once each,
    in the order of their first such result, each with the number of
    their results of position at most 3; the counts add up to the number
    of such results.

    The same holds of every payload on which a series is produced, and
    one is produced whenever every result has a position that reads as
    an integer and every result of position at most 3 names a driver: a
    result of position above 3 is never counted, whether it names a
    driver or not. *)
Theorem podium_counts_spec (payload : json) :
  (forall pss,
      placings payload = Ok pss ->
      let all := List.concat pss in
      let ds := first_seen (map p_driver (podium_placings all)) in
      podium_series payload
      = Ok (map d_name ds, map (fun d => NInt (podiums_of d all)) ds)
      /\ (forall p, In p (podium_placings all) <-> In p all /\ p_position p <= 3)
      /\ num_total (map (fun d => NInt (podiums_of d all)) ds)
         = zlen (podium_placings all))
  /\ (forall rs,
         all_results payload = Ok rs -> Forall podium_readable rs ->
         let ds := first_seen (podium_drivers rs) in
         podium_series payload
         = Ok (map d_name ds, map (fun d => NInt (podium_finishes d rs)) ds))
  /\ (forall ls vs,
         podium_series payload = Ok (ls, vs) ->
         exists rs,
           all_results payload = Ok rs
           /\ Forall podium_readable rs
           /\ (forall res, In res rs ->
                 (counts_as_podium res = true
                  <-> exists z, position_of res = Ok z /\ z <= 3))
           /\ ls = map d_name (first_seen (podium_drivers rs))
           /\ vs = map (fun d => NInt (podium_finishes d rs))
                     (first_seen (podium_drivers rs))
           /\ num_total vs = zlen (filter counts_as_podium rs)).
Proof.
  assert (Hv : forall rs,
             map (fun d => NInt (occurrences d (podium_drivers rs)))
               (first_seen (podium_drivers rs))
             = map (fun d => NInt (podium_finishes d rs))
                 (first_seen (podium_drivers rs))).
  { intros rs. apply map_ext. intros d.
    rewrite occurrences_podium_drivers. reflexivity. }
  split; [|split].
  - intros pss Hp all ds.
    assert (Hw : map (fun d => NInt (podiums_of d all)) ds
                 = map (fun d => NInt (occurrences d (map p_driver (podium_placings all))))
                     ds).
    { apply map_ext. intros d. rewrite occurrences_podium. reflexivity. }
    split; [|split].
    + rewrite podium_closed, (podium_entries_placings _ _ Hp). simpl.
      rewrite somes_podium. fold all. fold ds. rewrite Hw. reflexivity.
    + intros p. unfold podium_placings. rewrite filter_In.
      unfold on_podium. rewrite Z.leb_le. reflexivity.
    + rewrite Hw. unfold ds. rewrite occurrences_total.
      unfold zlen. rewrite length_map. reflexivity.
  - intros rs Hrs Hr ds.
    destruct (podium_view_returns payload rs Hrs Hr) as [oss Hoss].
    destruct (podium_view payload oss Hoss) as [rs' [Hrs' [_ Hs]]].
    assert (rs' = rs) by congruence. subst rs'.
    rewrite podium_closed, Hoss. simpl. rewrite Hs. fold ds.
    unfold ds. rewrite Hv. reflexivity.
  - intros ls vs H. rewrite podium_closed in H. bind_inv H.
    destruct (podium_view payload a Ha) as [rs [Hrs [Hr Hs]]].
    simpl in H. rewrite Hs, Hv in H. injection H as <- <-.
    exists rs. split; [assumption|]. split; [assumption|].
    split; [|split; [reflexivity|split; [reflexivity|]]].
    + intros res _. unfold counts_as_podium.
      destruct (position_of res) as [z|e].
      * rewrite Z.leb_le. split.
        -- intros Hz. exists z. split; [reflexivity | assumption].
        -- intros [z' [Hz' Hle]]. injection Hz' as <-. assumption.
      * split; [discriminate|]. intros [z [Hz _]]. discriminate.
    + rewrite <- Hv, occurrences_total. apply podium_drivers_length. assumption.
Qed.

Lemma podium_counts_spec_witness :
  podium_series season_2021
  = Ok ([JStr "Hamilton"; JStr "Verstappen"; JStr "Bottas"; JStr "Norris"],
        [NInt 3; NInt 3; NInt 2; NInt 1])
  /\ podium_series season_with_nameless = Ok ([JStr "Hamilton"], [NInt 1]).
Proof.
  assert (Hp : placings season_2021 = Ok placings_2021) by (vm_compute; reflexivity).
  assert (Hr : all_results season_with_nameless
               = Ok [result_entry "Hamilton" "1"; nameless_result "5"])
    by (vm_compute; reflexivity).
  assert (Hf : Forall podium_readable [result_entry "Hamilton" "1"; nameless_result "5"]).
  { constructor; [|constructor; [|constructor]].
    - split; [exists 1; reflexivity | intros _; eexists; reflexivity].
    - split; [exists 5; reflexivity | discriminate]. }
  split.
  - exact (proj1 (proj1 (podium_counts_spec season_2021) placings_2021 Hp)).
  - exact (proj1 (proj2 (podium_counts_spec season_with_nameless)) _ Hr Hf).
Defined.

(** ** Average finishing position *)

Lemma mean_returns (ps : list Z) :
  ps <> [] -> (exists v, mean ps = Ok v) \/ mean ps = Err OverflowError.
Proof.
  intros Hne. unfold mean, py_truediv.
  assert (Hlen : (zlen ps =? 0) = false).
  { apply Z.eqb_neq. unfold zlen. destruct ps; [contradiction | simpl; lia]. }
  rewrite Hlen. destruct (zsum ps =? 0); [left; eexists; reflexivity|].
  destruct (SFdiv_core_binary prec emax (Z.abs (zsum ps)) 0 (Z.abs (zlen ps)) 0)
    as [[q e] l].
  destruct (binary_round_aux prec emax _ q e l);
    simpl; first [left; eexists; reflexivity | right; reflexivity].
Qed.

Lemma listed_driver (all : list placing) (p : placing) :
  In p all ->
  exists d, In d (first_seen (map p_driver all)) /\ same_driver d (p_driver p) = true.
Proof.
  intros Hin.
  assert (E : existsb (same_driver (p_driver p)) (first_seen (map p_driver all)) = true).
  { rewrite existsb_first_seen. apply existsb_exists. exists (p_driver p).
    split; [apply in_map; assumption|]. unfold same_driver. apply hkey_eqb_refl. }
  apply existsb_exists in E. destruct E as [d [Hd Hs]].
  exists d. split; [assumption|]. rewrite same_driver_sym. assumption.
Qed.

Lemma positions_nonempty (all : list placing) (d : driver) :
  In d (first_seen (map p_driver all)) -> positions_of d all <> [].
Proof.
  intros Hd. apply first_seen_incl in Hd. apply in_map_iff in Hd.
  destruct Hd as [p [Hp Hin]]. unfold positions_of. intros E.
  apply map_eq_nil in E.
  assert (Hf : In p (filter (fun q => same_driver d (p_driver q)) all)).
  { apply filter_In. split; [assumption|]. rewrite Hp. unfold same_driver.
    apply hkey_eqb_refl. }
  rewrite E in Hf. contradiction.
Qed.

Lemma truediv_raises (a b : Z) (e : exn) :
  b <> 0 -> py_truediv a b = Err e -> e = OverflowError.
Proof.
  intros Hb. unfold py_truediv.
  destruct (b =? 0) eqn:Eb; [apply Z.eqb_eq in Eb; contradiction|].
  destruct (a =? 0); [discriminate|].
  destruct (SFdiv_core_binary prec emax (Z.abs a) 0 (Z.abs b) 0) as [[q x] l].
  destruct (binary_round_aux prec emax _ q x l); try discriminate;
    intros H; injection H as <-; reflexivity.
Qed.

Lemma zlen_nonempty {A : Type} (l : list A) : l <> [] -> zlen l <> 0.
Proof. unfold zlen. destruct l; [contradiction | simpl; lia]. Qed.

Lemma means_inv {D : Type} (q : D -> result float) (ds : list D) (vs : list num) :
  mapM (fun d => f <- q d ;; Ok (NFloat f)) ds = Ok vs
  <-> exists fs, vs = map NFloat fs /\ Forall2 (fun d f => q d = Ok f) ds fs.
Proof.
  rewrite mapM_Forall2. split.
  - induction 1 as [|d v ds vs Hd _ [fs [-> IH]]].
    + exists []. split; [reflexivity | constructor].
    + bind_inv Hd. injection Hd as <-. exists (a :: fs).
      split; [reflexivity | constructor; assumption].
  - intros [fs [-> H]]. induction H as [|d f ds fs Hd _ IH]; simpl; constructor.
    + rewrite Hd. reflexivity.
    + assumption.
Qed.

Lemma means_return {D : Type} (q : D -> result float) (ds : list D) :
  (forall d, In d ds -> exists f, q d = Ok f) ->
  exists fs, Forall2 (fun d f => q d = Ok f) ds fs.
Proof.
  induction ds as [|d ds IH]; intros H; [exists []; constructor|].
  destruct (H d (or_introl eq_refl)) as [f Hf].
  destruct IH as [fs Hfs]; [intros d' Hd'; apply H; right; assumption|].
  exists (f :: fs). constructor; assumption.
Qed.

(** C6, as stated, fails: the mean is not produced for every payload
    whose results carry family names and integer positions.  With a
    position of 401 digits the quotient is too large for a float, the
    division raises [OverflowError] and there is no series. *)
Lemma average_overflows :
  placings overflow_season = Ok [[placed "Hamilton" (10 ^ 400)]]
  /\ average_finish_series overflow_season = Err OverflowError.
Proof. split; vm_compute; reflexivity. Qed.

(** C6, amended.  "Average Finish Position by Driver": on a results
    payload in which every result has a family name and an integer
    position, the drivers are listed once each in the order of first
    appearance, every driver of a result is listed, and the value of a
    driver is [sum / len] of that driver's positions over all races, as
    Python divides integers (the nearest binary64).  The series is
    produced when every driver's positions add up to less than
    [2 ^ 1023] in absolute value.  When the aggregation of such a
    payload raises, it raises [OverflowError], and it does exactly when
    the quotient of some driver is too large for a float.  Positions
    [1, 3, 2] give exactly 2.0. *)
Theorem average_finish_spec (payload : json) (pss : list (list placing)) :
  placings payload = Ok pss ->
  let all := List.concat pss in
  let ds := first_seen (map p_driver all) in
  let average d := py_truediv (zsum (positions_of d all)) (zlen (positions_of d all)) in
  (Forall (fun d => Z.abs (zsum (positions_of d all)) < 2 ^ 1023) ds ->
   exists fs,
     average_finish_series payload = Ok (map d_name ds, map NFloat fs)
     /\ Forall2 (fun d f => average d = Ok f) ds fs)
  /\ (forall ls vs,
         average_finish_series payload = Ok (ls, vs) ->
         ls = map d_name ds
         /\ exists fs, vs = map NFloat fs /\ Forall2 (fun d f => average d = Ok f) ds fs)
  /\ (forall e,
         average_finish_series payload = Err e
         <-> e = OverflowError /\ exists d, In d ds /\ average d = Err OverflowError)
  /\ (forall p, In p all -> exists d, In d ds /\ same_driver d (p_driver p) = true)
  /\ (forall d, In d ds -> positions_of d all <> [])
  /\ py_truediv (zsum [1; 3; 2]) (zlen [1; 3; 2]) = Ok float_two.
Proof.
  intros Hp all ds average.
  assert (Hc : average_finish_series payload
               = (vs <- mapM (fun d => f <- average d ;; Ok (NFloat f)) ds ;;
                  Ok (map d_name ds, vs))).
  { rewrite average_finish_closed, Hp. reflexivity. }
  assert (Hlen : forall d, In d ds -> zlen (positions_of d all) <> 0).
  { intros d Hd. apply zlen_nonempty. apply positions_nonempty. assumption. }
  split; [|split; [|split; [|split; [|split]]]].
  - intros Hb.
    destruct (means_return average ds) as [fs Hfs].
    { intros d Hd. apply py_truediv_returns; [apply Hlen; assumption|].
      rewrite Forall_forall in Hb. apply Hb. assumption. }
    exists fs. split; [|assumption].
    rewrite Hc. rewrite (proj2 (means_inv average ds (map NFloat fs))).
    + reflexivity.
    + exists fs. split; [reflexivity | assumption].
  - intros ls vs H. rewrite Hc in H. bind_inv H. injection H as <- <-.
    split; [reflexivity|]. apply means_inv. assumption.
  - intros e. rewrite Hc. split.
    + intros H.
      destruct (mapM (fun d => f <- average d ;; Ok (NFloat f)) ds) as [vs|e'] eqn:E;
        simpl in H; [discriminate|]. injection H as ->.
      apply mapM_fails_inv in E. destruct E as [d [Hd Hf]].
      destruct (average d) as [f|e'] eqn:Ea; simpl in Hf; [discriminate|].
      injection Hf as ->.
      assert (e = OverflowError).
      { eapply truediv_raises; [apply Hlen; eassumption | exact Ea]. }
      subst e. split; [reflexivity|]. exists d. split; assumption.
    + intros [-> [d [Hd Hf]]].
      rewrite (mapM_fails _ ds d OverflowError Hd).
      * reflexivity.
      * rewrite Hf. reflexivity.
      * intros d' e Hd' He.
        destruct (average d') as [f|e'] eqn:Ea; simpl in He; [discriminate|].
        injection He as <-.
        eapply truediv_raises; [apply Hlen; eassumption | exact Ea].
  - apply listed_driver.
  - apply positions_nonempty.
  - reflexivity.
Qed.

Lemma average_finish_spec_witness :
  (exists fs,
      average_finish_series season_2021
      = Ok ([JStr "Hamilton"; JStr "Verstappen"; JStr "Bottas"; JStr "Norris"],
            map NFloat fs)
      /\ Forall2 (fun d f =>
                    py_truediv (zsum (positions_of d (List.concat placings_2021)))
                      (zlen (positions_of d (List.concat placings_2021))) = Ok f)
           (first_seen (map p_driver (List.concat placings_2021))) fs)
  /\ positions_of (mk_driver (HStr "Hamilton") (JStr "Hamilton")) (List.concat placings_2021)
     = [1; 3; 2]
  /\ exists fs, averages_2021 = map NFloat fs.
Proof.
  assert (Hp : placings season_2021 = Ok placings_2021) by (vm_compute; reflexivity).
  assert (Hs : average_finish_series season_2021
               = Ok ([JStr "Hamilton"; JStr "Verstappen"; JStr "Bottas"; JStr "Norris"],
                     averages_2021))
    by (vm_compute; reflexivity).
  assert (Hb : Forall (fun d => Z.abs (zsum (positions_of d (List.concat placings_2021)))
                                < 2 ^ 1023)
                 (first_seen (map p_driver (List.concat placings_2021)))).
  { apply Forall_forall. intros d Hd. vm_compute in Hd.
    destruct Hd as [<-|[<-|[<-|[<-|[]]]]]; vm_compute; reflexivity. }
  pose proof (average_finish_spec season_2021 placings_2021 Hp) as [H1 [H2 _]].
  split; [exact (H1 Hb)|]. split; [vm_compute; reflexivity|].
  destruct (H2 _ _ Hs) as [_ [fs [Hfs _]]]. exists fs. exact Hfs.
Defined.

(** ** Every series is index-aligned *)

Lemma mapM_nth_inv {A B : Type} (f : A -> result B) (l : list A) (ys : list B) :
  mapM f l = Ok ys ->
  forall i y, nth_error ys i = Some y ->
              exists x, nth_error l i = Some x /\ f x = Ok y.
Proof.
  intros H. apply mapM_Forall2 in H.
  induction H as [|x0 y0 l0 ys0 Hxy _ IH]; intros i y Hi.
  - destruct i; discriminate Hi.
  - destruct i as [|i]; simpl in *.
    + injection Hi as <-. exists x0. split; [reflexivity | assumption].
    + apply IH. assumption.
Qed.

Lemma standings_aligned (name_of : json -> result json) (points : json -> result num)
      (table : string) (payload : json) (ls : list json) (vs : list num) :
  (standings <- standings_of table payload ;;
   items <- py_iter standings ;;
   labels <- mapM name_of items ;;
   values <- mapM points items ;;
   Ok (labels, values)) = Ok (ls, vs) ->
  List.length ls = List.length vs
  /\ exists entries,
      standing_entries table payload = Ok entries
      /\ forall i l v, nth_error ls i = Some l -> nth_error vs i = Some v ->
           exists e, nth_error entries i = Some e /\ name_of e = Ok l /\ points e = Ok v.
Proof.
  intros H. apply standings_series_inv in H. destruct H as [entries [He [Hl Hv]]].
  split.
  - rewrite (mapM_length _ _ _ Hl), (mapM_length _ _ _ Hv). reflexivity.
  - exists entries. split; [assumption|]. intros i l v Hi Hj.
    destruct (mapM_nth_inv _ _ _ Hl i l Hi) as [e [Hei Hel]].
    destruct (mapM_nth_inv _ _ _ Hv i v Hj) as [e' [Hei' Hev]].
    exists e. rewrite Hei in Hei'. injection Hei' as <-. auto.
Qed.

(** C9.  Every series an aggregation produces has as many values as
    labels, and the value at an index is the aggregate of the label at
    that index.  For the two standings charts label and value [i] are
    the name and the points, read by [float], of entry [i].  For the
    three results charts the label is the family name of a driver and
    the value is, for the wins, the number of races in which that driver
    is listed first; for the podium finishes, the number of results of
    that driver whose position is at most 3; for the average, the sum of
    that driver's positions divided by their number. *)
Theorem series_index_aligned (py_float : json -> result float) :
  (forall payload ls vs,
      total_points_series py_float payload = Ok (ls, vs) ->
      List.length ls = List.length vs
      /\ exists entries,
          standing_entries "DriverStandings" payload = Ok entries
          /\ forall i l v, nth_error ls i = Some l -> nth_error vs i = Some v ->
               exists e f, nth_error entries i = Some e
                           /\ family_name e = Ok l
                           /\ (p <- getitem e "points" ;; py_float p) = Ok f
                           /\ v = NFloat f)
  /\ (forall payload ls vs,
         constructor_series py_float payload = Ok (ls, vs) ->
         List.length ls = List.length vs
         /\ exists entries,
             standing_entries "ConstructorStandings" payload = Ok entries
             /\ forall i l v, nth_error ls i = Some l -> nth_error vs i = Some v ->
                  exists e f, nth_error entries i = Some e
                              /\ constructor_name e = Ok l
                              /\ (p <- getitem e "points" ;; py_float p) = Ok f
                              /\ v = NFloat f)
  /\ (forall payload ls vs,
         average_finish_series payload = Ok (ls, vs) ->
         List.length ls = List.length vs
         /\ exists pss,
             placings payload = Ok pss
             /\ forall i l v, nth_error ls i = Some l -> nth_error vs i = Some v ->
                  exists d f,
                    d_name d = l /\ py_hash l = Ok (d_key d)
                    /\ py_truediv (zsum (positions_of d (List.concat pss)))
                         (zlen (positions_of d (List.concat pss))) = Ok f
                    /\ v = NFloat f)
  /\ (forall payload ls vs,
         most_wins_series payload = Ok (ls, vs) ->
         List.length ls = List.length vs
         /\ exists ws,
             winners payload = Ok ws
             /\ forall i l v, nth_error ls i = Some l -> nth_error vs i = Some v ->
                  exists d, d_name d = l /\ py_hash l = Ok (d_key d)
                            /\ v = NInt (occurrences d ws))
  /\ (forall payload ls vs,
         podium_series payload = Ok (ls, vs) ->
         List.length ls = List.length vs
         /\ exists rs,
             all_results payload = Ok rs
             /\ forall i l v, nth_error ls i = Some l -> nth_error vs i = Some v ->
                  exists d, d_name d = l /\ py_hash l = Ok (d_key d)
                            /\ v = NInt (podium_finishes d rs)).
Proof.
  split; [|split; [|split; [|split]]]; intros payload ls vs H.
  - apply standings_aligned in H. destruct H as [Hlen [entries [He Hnth]]].
    split; [assumption|]. exists entries. split; [assumption|].
    intros i l v Hl Hv. destruct (Hnth i l v Hl Hv) as [e [Hei [Hn Hp]]].
    unfold points_of in Hp. do 2 bind_inv Hp. injection Hp as <-.
    exists e, a0. rewrite Ha. simpl. auto.
  - apply standings_aligned in H. destruct H as [Hlen [entries [He Hnth]]].
    split; [assumption|]. exists entries. split; [assumption|].
    intros i l v Hl Hv. destruct (Hnth i l v Hl Hv) as [e [Hei [Hn Hp]]].
    unfold points_of in Hp. do 2 bind_inv Hp. injection Hp as <-.
    exists e, a0. rewrite Ha. simpl. auto.
  - rewrite average_finish_closed in H. bind_inv H. cbv zeta in H. bind_inv H.
    injection H as <- <-. split.
    + rewrite (mapM_length _ _ _ Ha0), length_map. reflexivity.
    + exists a. split; [assumption|]. intros i l v Hl Hv.
      rewrite nth_error_map in Hl.
      destruct (nth_error (first_seen (map p_driver (List.concat a))) i) as [d|] eqn:Ed;
        [|discriminate].
      simpl in Hl. injection Hl as <-.
      destruct (mapM_nth _ _ _ Ha0 i d Ed) as [v' [Hv' Hm]].
      rewrite Hv in Hv'. injection Hv' as <-.
      unfold mean in Hm. bind_inv Hm. injection Hm as <-.
      exists d, a1. split; [reflexivity|]. split; [|split; [assumption | reflexivity]].
      apply nth_error_In in Ed. apply first_seen_incl in Ed.
      apply in_map_iff in Ed. destruct Ed as [p [<- Hp]].
      eapply placings_hash; eassumption.
  - rewrite most_wins_closed in H. bind_inv H. injection H as <- <-. split.
    + rewrite !length_map. reflexivity.
    + exists a. split; [assumption|]. intros i l v Hl Hv.
      destruct (map_aligned _ _ _ _ _ _ Hl Hv) as [d [_ [Hd [-> ->]]]].
      exists d. split; [reflexivity|]. split; [|reflexivity].
      apply first_seen_incl in Hd. eapply winners_hash; eassumption.
  - rewrite podium_closed in H. bind_inv H.
    destruct (podium_view payload a Ha) as [rs [Hrs [_ Hs]]].
    cbv zeta in H. rewrite Hs in H. injection H as <- <-. split.
    + rewrite !length_map. reflexivity.
    + exists rs. split; [assumption|]. intros i l v Hl Hv.
      destruct (map_aligned _ _ _ _ _ _ Hl Hv) as [d [_ [Hd [-> ->]]]].
      exists d. split; [reflexivity|].
      split; [|rewrite occurrences_podium_drivers; reflexivity].
      apply first_seen_incl in Hd. eapply podium_drivers_hash; eassumption.
Qed.

(** ** Labels of the results charts *)

(** C10.  In the series of each of the three results charts no label
    occurs twice: any two labels at different indices are key objects
    that a dictionary tells apart, hence different. *)
Theorem results_labels_distinct (payload : json) (ls : list json) (vs : list num) :
  average_finish_series payload = Ok (ls, vs)
  \/ most_wins_series payload = Ok (ls, vs)
  \/ podium_series payload = Ok (ls, vs) ->
  NoDup ls
  /\ forall i j a b, i <> j -> nth_error ls i = Some a -> nth_error ls j = Some b ->
                     distinct_keys a b.
Proof.
  intros H.
  assert (Hd : exists V (d : pydict V), dict_ok d /\ ls = pd_keys d).
  { destruct H as [H|[H|H]].
    - unfold average_finish_series in H. do 2 bind_inv H. injection H as <- <-.
      exists (list Z), a. split; [eapply finish_positions_ok; eassumption | reflexivity].
    - unfold most_wins_series in H. bind_inv H. injection H as <- <-.
      exists Z, a. split; [eapply win_counts_ok; eassumption | reflexivity].
    - unfold podium_series in H. bind_inv H. injection H as <- <-.
      exists Z, a. split; [eapply podium_counts_ok; eassumption | reflexivity]. }
  destruct Hd as [V [d [Hok ->]]]. split.
  - apply dict_ok_keys_NoDup. assumption.
  - apply dict_ok_keys_distinct. assumption.
Qed.

Lemma series_index_aligned_witness :
  (exists d,
      d_name d = JStr "Verstappen"
      /\ py_hash (JStr "Verstappen") = Ok (d_key d)
      /\ NInt 2 = NInt (occurrences d [mk_driver (HStr "Hamilton") (JStr "Hamilton");
                                       mk_driver (HStr "Verstappen") (JStr "Verstappen");
                                       mk_driver (HStr "Verstappen") (JStr "Verstappen")]))
  /\ (exists d f,
         d_name d = JStr "Hamilton"
         /\ py_truediv (zsum (positions_of d (List.concat placings_2021)))
              (zlen (positions_of d (List.concat placings_2021))) = Ok f
         /\ NFloat float_two = NFloat f).
Proof.
  pose proof (series_index_aligned float_of_decimal) as [_ [_ [H3 [H4 _]]]].
  assert (E3 : average_finish_series season_2021
               = Ok ([JStr "Hamilton"; JStr "Verstappen"; JStr "Bottas"; JStr "Norris"],
                     averages_2021))
    by (vm_compute; reflexivity).
  assert (E4 : most_wins_series season_2021
               = Ok ([JStr "Hamilton"; JStr "Verstappen"], [NInt 1; NInt 2]))
    by (vm_compute; reflexivity).
  assert (W : winners season_2021
              = Ok [mk_driver (HStr "Hamilton") (JStr "Hamilton");
                    mk_driver (HStr "Verstappen") (JStr "Verstappen");
                    mk_driver (HStr "Verstappen") (JStr "Verstappen")])
    by (vm_compute; reflexivity).
  assert (P : placings season_2021 = Ok placings_2021) by (vm_compute; reflexivity).
  split.
  - destruct (H4 _ _ _ E4) as [_ [ws [Hws Hnth]]].
    rewrite W in Hws. injection Hws as <-.
    destruct (Hnth 1%nat (JStr "Verstappen") (NInt 2) eq_refl eq_refl) as [d Hd].
    exists d. exact Hd.
  - destruct (H3 _ _ _ E3) as [_ [pss [Hpss Hnth]]].
    rewrite P in Hpss. injection Hpss as <-.
    destruct (Hnth 0%nat (JStr "Hamilton") (NFloat float_two) eq_refl eq_refl)
      as [d [f [H1 [_ [H2 H5]]]]].
    exists d, f. split; [exact H1|]. split; [exact H2 | exact H5].
Defined.

Lemma results_labels_distinct_witness :
  NoDup [JStr "Hamilton"; JStr "Verstappen"; JStr "Bottas"; JStr "Norris"]
  /\ NoDup [JStr "Hamilton"; JStr "Verstappen"].
Proof.
  assert (E1 : average_finish_series season_2021
               = Ok ([JStr "Hamilton"; JStr "Verstappen"; JStr "Bottas"; JStr "Norris"],
                     averages_2021))
    by (vm_compute; reflexivity).
  assert (E2 : most_wins_series season_2021
               = Ok ([JStr "Hamilton"; JStr "Verstappen"], [NInt 1; NInt 2]))
    by (vm_compute; reflexivity).
  split.
  - exact (proj1 (results_labels_distinct season_2021 _ _ (or_introl E1))).
  - exact (proj1 (results_labels_distinct season_2021 _ _ (or_intror (or_introl E2)))).
Defined.

(** ** [update_chart] before any fetch *)

(** C7.  With an empty data store [update_chart] shows the error box
    "No data available. Please fetch data first." and returns: nothing is
    aggregated, the axes and the canvas are as before, no exception
    leaves the method. *)
Theorem update_chart_idle (py_float : json -> result float)
  (bar_error : series -> option exn) (app : App) :
  data app = [] ->
  update_chart py_float bar_error app
  = (emit (ShowError "Error" "No data available. Please fetch data first.") app, None)
  /\ ax (fst (update_chart py_float bar_error app)) = ax app
  /\ canvas (fst (update_chart py_float bar_error app)) = canvas app
  /\ data (fst (update_chart py_float bar_error app)) = data app
  /\ trace (fst (update_chart py_float bar_error app))
     = trace app ++ [ShowError "Error" "No data available. Please fetch data first."].
Proof.
  intros H. unfold update_chart. rewrite H. simpl. auto.
Qed.

Lemma update_chart_idle_witness :
  update_chart float_of_decimal bar_rejects init
  = (emit (ShowError "Error" "No data available. Please fetch data first.") init, None)
  /\ canvas (fst (update_chart float_of_decimal bar_rejects init)) = empty_axes.
Proof.
  destruct (update_chart_idle float_of_decimal bar_rejects init eq_refl) as [H1 [_ [H2 _]]].
  split; [exact H1 | exact H2].
Defined.

(** ** [fetch_data]: the season check *)

(** C2, as stated, fails: the season "0" does not read as a positive
    integer, yet it passes the check, three requests are sent and the
    data store changes.  The same holds for the superscript two, which
    does not read as an integer at all. *)
Lemma season_zero_is_fetched :
  is_positive_integer "0" = false
  /\ filter is_request (trace (fetch_data net_up (set_season "0" init)))
     = [HttpGet (standings_url "0"); HttpGet (results_url "0");
        HttpGet (constructor_standings_url "0")]
  /\ pd_keys (data (fetch_data net_up (set_season "0" init)))
     = [JStr "standings"; JStr "results"; JStr "constructor_standings"]
  /\ data (set_season "0" init) = []
  /\ int_of_string superscript_two = None
  /\ filter is_request (trace (fetch_data net_up (set_season superscript_two init)))
     = [HttpGet (standings_url superscript_two); HttpGet (results_url superscript_two);
        HttpGet (constructor_standings_url superscript_two)].
Proof. repeat split. Qed.

Lemma isdigit_false (s : string) :
  isdigit s = false <-> s = EmptyString \/ all_chars is_digit_char s = false.
Proof.
  destruct s as [|c r]; simpl.
  - split; auto.
  - split; [auto|]. intros [H|H]; [discriminate | assumption].
Qed.

(** C2, amended.  When the season input is not all digits (it is empty,
    or one of its characters is not a digit, so that [isdigit] is false),
    [fetch_data] shows the error box "Please enter a valid season year."
    and does nothing else: no request is sent and the data store is
    unchanged. *)
Theorem fetch_rejects_non_digits (net : string -> response) (app : App) :
  isdigit (season_entry app) = false ->
  fetch_data net app = emit (ShowError "Error" "Please enter a valid season year.") app
  /\ filter is_request (trace (fetch_data net app)) = filter is_request (trace app)
  /\ data (fetch_data net app) = data app
  /\ trace (fetch_data net app)
     = trace app ++ [ShowError "Error" "Please enter a valid season year."].
Proof.
  intros H. unfold fetch_data. rewrite H. simpl.
  rewrite filter_app. simpl. rewrite app_nil_r. auto.
Qed.

Lemma fetch_rejects_non_digits_witness :
  fetch_data net_up (set_season "abc" init)
  = emit (ShowError "Error" "Please enter a valid season year.") (set_season "abc" init)
  /\ filter is_request (trace (fetch_data net_up (set_season "abc" init))) = [].
Proof.
  destruct (fetch_rejects_non_digits net_up (set_season "abc" init) eq_refl)
    as [H1 [H2 _]].
  split; [exact H1 | exact H2].
Defined.

(** ** [fetch_data]: a request that fails *)

(** C1, as stated, fails.  From the empty store, with the second of the
    three requests failing, [fetch_data] reports "Failed to fetch data"
    and has sent two requests, yet the store keeps the standings of that
    fetch.  The next [update_chart] then draws the standings chart, and
    for the wins chart lets a [KeyError] out, where after no fetch at all
    it shows "No data available. Please fetch data first.". *)
Lemma failed_fetch_keeps_standings :
  pd_keys (data after_failed_fetch) = [JStr "standings"]
  /\ data_get after_failed_fetch "standings" = Ok standings_2021
  /\ trace after_failed_fetch
     = [HttpGet (standings_url "2021"); HttpGet (results_url "2021");
        ShowError "Error"
          "Failed to fetch data: 500 Server Error: Internal Server Error for url: https://ergast.com/api/f1/2021/results.json?limit=1000"]
  /\ (exists s, bars (canvas (fst (update_chart float_of_decimal bar_rejects after_failed_fetch))) = [s])
  /\ snd (update_chart float_of_decimal bar_rejects after_failed_fetch) = None
  /\ trace (fst (update_chart float_of_decimal bar_rejects after_failed_fetch))
     = trace after_failed_fetch
  /\ snd (update_chart float_of_decimal bar_rejects
            (set_chart_type "Most Wins by Driver" after_failed_fetch)) = Some KeyError
  /\ update_chart float_of_decimal bar_rejects (set_season "2021" init)
     = (emit (ShowError "Error" "No data available. Please fetch data first.")
             (set_season "2021" init), None).
Proof.
  repeat split. eexists. reflexivity.
Qed.

Lemma retrace_self (app : App) : retrace (trace app) app = app.
Proof. destruct app. reflexivity. Qed.

Lemma plot_retrace (bar_error : series -> option exn) (t : list event) (app : App)
      (payload : string) (agg : json -> result series) (tt xl yl : string) :
  (p <- data_get (retrace t app) payload ;; s <- agg p ;;
   plot_bars bar_error s tt xl yl (retrace t app))
  = match (p <- data_get app payload ;; s <- agg p ;;
           plot_bars bar_error s tt xl yl app) with
    | Ok app' => Ok (retrace t app')
    | Err e => Err e
    end.
Proof.
  unfold data_get, plot_bars. simpl.
  destruct (pd_get (data app) (HStr payload)) as [p|]; simpl; [|reflexivity].
  destruct (agg p) as [s|]; simpl; [|reflexivity].
  destruct (bar_error s); reflexivity.
Qed.

Lemma plot_selected_retrace (py_float : json -> result float)
  (bar_error : series -> option exn) (t : list event) (app : App) :
  plot_selected py_float bar_error (retrace t app)
  = match plot_selected py_float bar_error app with
    | Ok app' => Ok (retrace t app')
    | Err e => Err e
    end.
Proof.
  unfold plot_selected. simpl.
  repeat match goal with
         | |- context [if ?c then _ else _] => destruct c; [apply plot_retrace|]
         end.
  reflexivity.
Qed.

(** What [update_chart] does depends on the history only in that it
    adds to it. *)
Lemma update_chart_retrace (py_float : json -> result float)
  (bar_error : series -> option exn) (app : App) :
  exists evs, forall t,
      update_chart py_float bar_error (retrace t app)
      = (retrace (t ++ evs) (fst (update_chart py_float bar_error app)),
         snd (update_chart py_float bar_error app)).
Proof.
  unfold update_chart. simpl. destruct (pd_is_empty (data app)).
  - eexists. intros t. reflexivity.
  - exists []. intros t. rewrite app_nil_r.
    change (clear_axes (retrace t app)) with (retrace t (clear_axes app)).
    rewrite plot_selected_retrace.
    destruct (plot_selected py_float bar_error (clear_axes app)); reflexivity.
Qed.

(** C1, amended.  With an all-digit season, a fetch in which a request
    fails stops at that request: no later request is sent, the error box
    "Failed to fetch data: ..." is shown, and neither the failed request
    nor a later one stores a payload.  The payloads of the requests that
    succeeded before it are stored as they arrived: the standings when
    the second request fails, the standings and the results when the
    third fails.  When the first request fails the store is unchanged
    and the next [update_chart] does what it would have done without
    that fetch. *)
Theorem fetch_failure_keeps_earlier_payloads
        (py_float : json -> result float) (bar_error : series -> option exn) (net : string -> response)
        (app : App) (e : string) :
  isdigit (season_entry app) = true ->
  let season := season_entry app in
  let failed := ShowError "Error" ("Failed to fetch data: " ++ e)%string in
  (outcome net (standings_url season) = inl e ->
   data (fetch_data net app) = data app
   /\ trace (fetch_data net app) = trace app ++ [HttpGet (standings_url season); failed]
   /\ exists evs,
       update_chart py_float bar_error app
       = (retrace (trace app ++ evs) (fst (update_chart py_float bar_error app)),
          snd (update_chart py_float bar_error app))
       /\ update_chart py_float bar_error (fetch_data net app)
          = (retrace (trace (fetch_data net app) ++ evs) (fst (update_chart py_float bar_error app)),
             snd (update_chart py_float bar_error app)))
  /\ (forall standings,
         outcome net (standings_url season) = inr standings ->
         outcome net (results_url season) = inl e ->
         data (fetch_data net app)
         = pd_set (data app) (HStr "standings") (JStr "standings") standings
         /\ trace (fetch_data net app)
            = trace app ++ [HttpGet (standings_url season);
                            HttpGet (results_url season); failed])
  /\ (forall standings results,
         outcome net (standings_url season) = inr standings ->
         outcome net (results_url season) = inr results ->
         outcome net (constructor_standings_url season) = inl e ->
         data (fetch_data net app)
         = pd_set (pd_set (data app) (HStr "standings") (JStr "standings") standings)
                  (HStr "results") (JStr "results") results
         /\ trace (fetch_data net app)
            = trace app ++ [HttpGet (standings_url season);
                            HttpGet (results_url season);
                            HttpGet (constructor_standings_url season); failed]).
Proof.
  intros Hd season failed. unfold fetch_data, request. rewrite Hd.
  cbn [negb]. fold season. split; [|split].
  - intros H1. rewrite H1.
    assert (Hf : fetch_failed e (emit (HttpGet (standings_url season)) app)
                 = retrace (trace app ++ [HttpGet (standings_url season); failed]) app).
    { unfold fetch_failed, emit, retrace. simpl. rewrite <- app_assoc. reflexivity. }
    rewrite Hf. split; [reflexivity|]. split; [reflexivity|].
    destruct (update_chart_retrace py_float bar_error app) as [evs Hevs]. exists evs.
    split.
    + rewrite <- (Hevs (trace app)). rewrite retrace_self. reflexivity.
    + apply Hevs.
  - intros standings H1 H2. rewrite H1, H2.
    split; [reflexivity|]. simpl. rewrite <- !app_assoc. reflexivity.
  - intros standings results H1 H2 H3. rewrite H1, H2, H3.
    split; [reflexivity|]. simpl. rewrite <- !app_assoc. reflexivity.
Qed.

Lemma fetch_failure_keeps_earlier_payloads_witness :
  data after_failed_fetch
  = pd_set [] (HStr "standings") (JStr "standings") standings_2021
  /\ trace after_failed_fetch
     = [HttpGet (standings_url "2021"); HttpGet (results_url "2021");
        ShowError "Error"
          "Failed to fetch data: 500 Server Error: Internal Server Error for url: https://ergast.com/api/f1/2021/results.json?limit=1000"].
Proof.
  exact (proj1 (proj2 (fetch_failure_keeps_earlier_payloads float_of_decimal bar_rejects
                         net_results_down (set_season "2021" init) _ eq_refl))
           standings_2021 eq_refl eq_refl).
Defined.

(** ** A finishing position that is not a number *)

(** C8, as stated, fails: with the position "abc" in the payload,
    [update_chart] lets the [ValueError] out; it catches nothing and
    shows no message. *)
Lemma position_error_not_reported :
  snd (update_chart float_of_decimal bar_rejects bad_app) = Some ValueError
  /\ filter is_message (trace (fst (update_chart float_of_decimal bar_rejects bad_app))) = []
  /\ trace (fst (update_chart float_of_decimal bar_rejects bad_app)) = trace bad_app.
Proof. repeat split. Qed.

Lemma average_result_bad_position (d : pydict (list Z)) (bad : json) (e : exn) :
  (exists name, family_name bad = Ok name) ->
  (p <- getitem bad "position" ;; py_int p) = Err e ->
  average_result d bad = Err e.
Proof.
  intros [name Hn] Hp. unfold average_result. rewrite Hn. cbn [bind].
  destruct (getitem bad "position") as [p|]; cbn [bind] in *;
    [|injection Hp as ->; reflexivity].
  destruct (py_int p); cbn [bind]; [discriminate | injection Hp as ->; reflexivity].
Qed.

Lemma unreadable_position_raises (bad : json) (e : exn) :
  unreadable_position bad e -> position_of bad = Err e.
Proof.
  intros H. destruct H as [? H|? ? H Hs|? H|? ? H|? ? H|? ? H|? H];
    unfold position_of, getitem; rewrite H; simpl; rewrite ?Hs; reflexivity.
Qed.

Lemma podium_result_unreadable (d : pydict Z) (bad : json) (e : exn) :
  unreadable_position bad e -> podium_result d bad = Err e.
Proof.
  intros H. apply unreadable_position_raises in H.
  unfold podium_result, position_of in *.
  destruct (getitem bad "position") as [p|]; simpl in *;
    [|injection H as ->; reflexivity].
  destruct (py_int p); simpl in *; [discriminate | injection H as ->; reflexivity].
Qed.

Lemma average_result_unreadable (d : pydict (list Z)) (bad : json) (e : exn) :
  unreadable_position bad e ->
  exists e', average_result d bad = Err e'
             /\ ((exists name, family_name bad = Ok name) -> e' = e).
Proof.
  intros H. apply unreadable_position_raises in H.
  destruct (family_name bad) as [name|e0] eqn:En.
  - exists e. split; [|reflexivity].
    apply average_result_bad_position; [exists name; assumption | exact H].
  - exists e0. split.
    + unfold average_result. rewrite En. reflexivity.
    + intros [name Hn]. discriminate Hn.
Qed.

Lemma podium_result_returns (d : pydict Z) (res : json) :
  well_formed_result res -> exists d', podium_result d res = Ok d'.
Proof.
  intros [p Hp]. rewrite podium_result_decode, (podium_entry_placing _ _ Hp).
  eexists. reflexivity.
Qed.

Lemma average_result_returns (d : pydict (list Z)) (res : json) :
  well_formed_result res -> exists d', average_result d res = Ok d'.
Proof.
  intros [p Hp]. rewrite average_result_decode, Hp. eexists. reflexivity.
Qed.

(** The two nested loops over races and results: they raise when the
    body raises on some result whatever the state, and with the
    exception of the first such result when the body returns on the
    results before it. *)
Lemma results_loop_fails {A : Type} (step : A -> json -> result A) (payload : json)
      (races : list json) (race : json) (items : list json) (bad : json) :
  race_list payload = Ok races -> In race races ->
  race_results race = Ok items -> In bad items ->
  (forall a, exists e, step a bad = Err e) ->
  forall a, exists e,
    (results <- races_of payload ;;
     races <- py_iter results ;;
     foldM (fun a race => rs <- getitem race "Results" ;;
                          items <- py_iter rs ;;
                          foldM step items a) races a) = Err e.
Proof.
  intros Hraces Hrace Hitems Hbad Hstep a.
  unfold race_list in Hraces.
  destruct (races_of payload) as [results|]; simpl in Hraces; [|discriminate].
  simpl. rewrite Hraces. simpl.
  apply (foldM_fails _ races race Hrace). intros a1.
  unfold race_results in Hitems.
  destruct (getitem race "Results") as [rs|]; simpl in Hitems; [|discriminate].
  simpl. rewrite Hitems. simpl.
  apply (foldM_fails step items bad Hbad Hstep).
Qed.

Lemma results_loop_first_failure {A : Type} (step : A -> json -> result A)
      (payload : json) (races_before races_after : list json) (race : json)
      (before after : list json) (bad : json) (e : exn) :
  race_list payload = Ok (races_before ++ race :: races_after) ->
  race_results race = Ok (before ++ bad :: after) ->
  (forall a x, well_formed_result x -> exists a', step a x = Ok a') ->
  Forall well_formed_race races_before ->
  Forall well_formed_result before ->
  (forall a, step a bad = Err e) ->
  forall a,
    (results <- races_of payload ;;
     races <- py_iter results ;;
     foldM (fun a race => rs <- getitem race "Results" ;;
                          items <- py_iter rs ;;
                          foldM step items a) races a) = Err e.
Proof.
  intros Hraces Hitems Hwf Hrb Hb Hbad a.
  unfold race_list in Hraces.
  destruct (races_of payload) as [results|]; simpl in Hraces; [|discriminate].
  simpl. rewrite Hraces. simpl.
  apply foldM_first_failure.
  - intros a1 r Hr. rewrite Forall_forall in Hrb.
    destruct (Hrb r Hr) as [items [Hi Hw]].
    unfold race_results in Hi.
    destruct (getitem r "Results") as [rs|]; simpl in Hi; [|discriminate].
    simpl. rewrite Hi. simpl.
    apply foldM_returns. intros a2 x Hx. apply Hwf.
    rewrite Forall_forall in Hw. apply Hw. assumption.
  - intros a1. unfold race_results in Hitems.
    destruct (getitem race "Results") as [rs|]; simpl in Hitems; [|discriminate].
    simpl. rewrite Hitems. simpl.
    apply foldM_first_failure; [|assumption].
    intros a2 x Hx. apply Hwf. rewrite Forall_forall in Hb. apply Hb. assumption.
Qed.

Lemma update_chart_results_error (py_float : json -> result float)
      (bar_error : series -> option exn) (app : App) (payload : json) (e : exn) :
  data_get app "results" = Ok payload ->
  (chart_type app = "Average Finish Position by Driver"
   /\ average_finish_series payload = Err e)
  \/ (chart_type app = "Podium Finishes by Driver" /\ podium_series payload = Err e) ->
  update_chart py_float bar_error app = (clear_axes app, Some e).
Proof.
  intros Hdata H. unfold update_chart.
  assert (Hne : pd_is_empty (data app) = false).
  { unfold data_get in Hdata. destruct (data app); [discriminate | reflexivity]. }
  rewrite Hne. unfold plot_selected.
  replace (chart_type (clear_axes app)) with (chart_type app) by reflexivity.
  destruct H as [[Hc Hs]|[Hc Hs]]; rewrite Hc; simpl.
  - unfold plot_average_finish_position_by_driver.
    replace (data_get (clear_axes app) "results")
      with (data_get app "results") by reflexivity.
    rewrite Hdata. simpl. rewrite Hs. reflexivity.
  - unfold plot_podium_finishes_by_driver.
    replace (data_get (clear_axes app) "results")
      with (data_get app "results") by reflexivity.
    rewrite Hdata. simpl. rewrite Hs. reflexivity.
Qed.

(** C8, amended.  When the results payload holds, anywhere, a result
    whose position [int] does not read (the field is missing; it is text
    that is not a numeral; it is [null], a list or an object; it is an
    infinity or a NaN), the aggregation of the podium chart and that of
    the average chart raise and produce no series, and [update_chart]
    lets the exception out after it has cleared the axes: no bar is
    drawn, the canvas is not redrawn and no message is shown.  When the
    results before it are well formed, the exception is the one of
    reading that position ([KeyError] when it is missing, [ValueError]
    for text that is not a numeral and for a NaN, [TypeError] for
    [null], a list or an object, [OverflowError] for an infinity); for
    the average chart, which reads the family name first, provided the
    result has one. *)
Theorem position_error_propagates (py_float : json -> result float)
  (bar_error : series -> option exn) (app : App) (payload : json)
  (races_before races_after : list json) (race : json)
  (before after : list json) (bad : json) (e : exn) :
  data_get app "results" = Ok payload ->
  race_list payload = Ok (races_before ++ race :: races_after) ->
  race_results race = Ok (before ++ bad :: after) ->
  unreadable_position bad e ->
  (chart_type app = "Podium Finishes by Driver" ->
   exists e',
     podium_series payload = Err e'
     /\ update_chart py_float bar_error app = (clear_axes app, Some e')
     /\ (Forall well_formed_race races_before -> Forall well_formed_result before ->
         e' = e))
  /\ (chart_type app = "Average Finish Position by Driver" ->
      exists e',
        average_finish_series payload = Err e'
        /\ update_chart py_float bar_error app = (clear_axes app, Some e')
        /\ (Forall well_formed_race races_before -> Forall well_formed_result before ->
            (exists name, family_name bad = Ok name) -> e' = e))
  /\ trace (clear_axes app) = trace app
  /\ canvas (clear_axes app) = canvas app
  /\ bars (ax (clear_axes app)) = [].
Proof.
  intros Hdata Hraces Hitems Hbad.
  assert (Hrace : In race (races_before ++ race :: races_after))
    by (apply in_or_app; right; left; reflexivity).
  assert (Hin : In bad (before ++ bad :: after))
    by (apply in_or_app; right; left; reflexivity).
  split; [|split; [|repeat split]].
  - intros Hc.
    assert (Hstep : forall d, podium_result d bad = Err e)
      by (intros d; apply podium_result_unreadable; assumption).
    destruct (results_loop_fails podium_result payload _ race _ bad
                Hraces Hrace Hitems Hin
                (fun d => ex_intro _ e (Hstep d)) []) as [e' He'].
    assert (Hs : podium_series payload = Err e').
    { unfold podium_series, podium_counts_of.
      change (foldM podium_race) with
        (foldM (fun a race0 => rs <- getitem race0 "Results" ;;
                               items <- py_iter rs ;;
                               foldM podium_result items a)).
      rewrite He'. reflexivity. }
    exists e'. split; [assumption|]. split.
    + eapply update_chart_results_error; [eassumption|]. right. auto.
    + intros Hrb Hb.
      pose proof (results_loop_first_failure podium_result payload _ _ _ _ _ _ e
                    Hraces Hitems podium_result_returns Hrb Hb Hstep []) as Hf.
      congruence.
  - intros Hc.
    assert (Hfail : forall d, exists e0, average_result d bad = Err e0).
    { intros d. destruct (average_result_unreadable d bad e Hbad) as [e0 [H0 _]].
      exists e0. assumption. }
    destruct (results_loop_fails average_result payload _ race _ bad
                Hraces Hrace Hitems Hin Hfail []) as [e' He'].
    assert (Hs : average_finish_series payload = Err e').
    { unfold average_finish_series, finish_positions_of.
      change (foldM average_race) with
        (foldM (fun a race0 => rs <- getitem race0 "Results" ;;
                               items <- py_iter rs ;;
                               foldM average_result items a)).
      rewrite He'. reflexivity. }
    exists e'. split; [assumption|]. split.
    + eapply update_chart_results_error; [eassumption|]. left. auto.
    + intros Hrb Hb Hname.
      assert (Hstep : forall d, average_result d bad = Err e).
      { intros d. destruct (average_result_unreadable d bad e Hbad) as [e0 [H0 H1]].
        rewrite (H1 Hname) in H0. assumption. }
      pose proof (results_loop_first_failure average_result payload _ _ _ _ _ _ e
                    Hraces Hitems average_result_returns Hrb Hb Hstep []) as Hf.
      congruence.
Qed.

Lemma position_error_propagates_witness :
  average_finish_series bad_season = Err ValueError
  /\ update_chart float_of_decimal bar_rejects bad_app
     = (clear_axes bad_app, Some ValueError).
Proof.
  assert (Hb : Forall well_formed_result [result_entry "Hamilton" "1"]).
  { constructor; [|constructor]. exists (placed "Hamilton" 1). reflexivity. }
  destruct (position_error_propagates float_of_decimal bar_rejects bad_app bad_season
              [] [] (race_entry [result_entry "Hamilton" "1"; result_entry "Verstappen" "abc"])
              [result_entry "Hamilton" "1"] [] (result_entry "Verstappen" "abc")
              ValueError eq_refl eq_refl eq_refl
              (position_not_numeral
                 [("position", JStr "abc");
                  ("Driver", JObj [("driverId", JStr "Verstappen");
                                   ("familyName", JStr "Verstappen")])]
                 "abc" eq_refl eq_refl))
    as [_ [H _]].
  destruct (H eq_refl) as [e' [H1 [H2 H3]]].
  assert (E : e' = ValueError).
  { apply H3; [constructor | exact Hb |]. exists (JStr "Verstappen"). reflexivity. }
  rewrite E in H1, H2. split; [exact H1 | exact H2].
Defined.

(** * Further properties of the code *)

(** ** [fetch_data] *)

Lemma pd_get_set_other {V : Type} (d : pydict V) (h h' : hkey) (k : json) (v : V) :
  h <> h' -> pd_get (pd_set d h k v) h' = pd_get d h'.
Proof.
  intros Hne. induction d as [|e r IH]; simpl.
  - apply hkey_eqb_neq in Hne. rewrite Hne. reflexivity.
  - destruct (hkey_eqb (ekey e) h) eqn:E; simpl.
    + apply hkey_eqb_eq in E. rewrite E.
      apply hkey_eqb_neq in Hne. rewrite Hne. reflexivity.
    + rewrite IH. reflexivity.
Qed.

(** The four ways a fetch with an all-digit season can go, and the one
    way it goes otherwise. *)
Lemma fetch_data_cases (net : string -> response) (app : App) :
  let season := season_entry app in
  let store (d : pydict json) (evs : list event) :=
    mk_App d (chart_type app) season (ax app) (canvas app) (trace app ++ evs) in
  let failed e := ShowError "Error" ("Failed to fetch data: " ++ e)%string in
  let put name v d := pd_set d (HStr name) (JStr name) v in
  (isdigit season = false
   /\ fetch_data net app
      = store (data app) [ShowError "Error" "Please enter a valid season year."])
  \/ (isdigit season = true
      /\ ((exists e, outcome net (standings_url season) = inl e
                     /\ fetch_data net app
                        = store (data app) (firstn 1 (fetch_requests season) ++ [failed e]))
          \/ (exists b1 e, outcome net (standings_url season) = inr b1
                /\ outcome net (results_url season) = inl e
                /\ fetch_data net app
                   = store (put "standings" b1 (data app))
                           (firstn 2 (fetch_requests season) ++ [failed e]))
          \/ (exists b1 b2 e, outcome net (standings_url season) = inr b1
                /\ outcome net (results_url season) = inr b2
                /\ outcome net (constructor_standings_url season) = inl e
                /\ fetch_data net app
                   = store (put "results" b2 (put "standings" b1 (data app)))
                           (firstn 3 (fetch_requests season) ++ [failed e]))
          \/ (exists b1 b2 b3, outcome net (standings_url season) = inr b1
                /\ outcome net (results_url season) = inr b2
                /\ outcome net (constructor_standings_url season) = inr b3
                /\ fetch_data net app
                   = store (put "constructor_standings" b3
                              (put "results" b2 (put "standings" b1 (data app))))
                           (firstn 3 (fetch_requests season)
                            ++ [ShowInfo "Success" "Data fetched successfully!"])))).
Proof.
  intros season store failed put. unfold fetch_data, request. fold season.
  destruct (isdigit season); cbn [negb]; [right; split; [reflexivity|] | left; auto].
  destruct (outcome net (standings_url season)) as [e1|b1].
  { left. exists e1. split; [reflexivity|].
    unfold fetch_failed, emit, store. cbn. rewrite <- app_assoc. reflexivity. }
  right. destruct (outcome net (results_url season)) as [e2|b2].
  { left. exists b1, e2. split; [reflexivity|]. split; [reflexivity|].
    unfold fetch_failed, emit, set_data, store, put. cbn.
    rewrite <- !app_assoc. reflexivity. }
  right. destruct (outcome net (constructor_standings_url season)) as [e3|b3].
  { left. exists b1, b2, e3. do 3 (split; [reflexivity|]).
    unfold fetch_failed, emit, set_data, store, put. cbn.
    rewrite <- !app_assoc. reflexivity. }
  right. exists b1, b2, b3. do 3 (split; [reflexivity|]).
  unfold emit, set_data, store, put. cbn. rewrite <- !app_assoc. reflexivity.
Qed.

Lemma hstr_neq (a b : string) : a <> b -> HStr a <> HStr b.
Proof. intros H E. injection E as E. contradiction. Qed.

(** X1.  A fetch whose three requests succeed stores the three bodies
    under their keys, leaves every other key of the store alone, sends
    the three requests in order and ends with the success box. *)
Theorem fetch_success_stores (net : string -> response) (app : App) (b1 b2 b3 : json) :
  isdigit (season_entry app) = true ->
  outcome net (standings_url (season_entry app)) = inr b1 ->
  outcome net (results_url (season_entry app)) = inr b2 ->
  outcome net (constructor_standings_url (season_entry app)) = inr b3 ->
  data_get (fetch_data net app) "standings" = Ok b1
  /\ data_get (fetch_data net app) "results" = Ok b2
  /\ data_get (fetch_data net app) "constructor_standings" = Ok b3
  /\ trace (fetch_data net app)
     = trace app ++ fetch_requests (season_entry app)
       ++ [ShowInfo "Success" "Data fetched successfully!"]
  /\ (forall h, h <> HStr "standings" -> h <> HStr "results" ->
                h <> HStr "constructor_standings" ->
                pd_get (data (fetch_data net app)) h = pd_get (data app) h).
Proof.
  intros Hd H1 H2 H3.
  destruct (fetch_data_cases net app) as [[Hf _]|[_ [C|[C|[C|C]]]]].
  - congruence.
  - destruct C as [e [He _]]. congruence.
  - destruct C as [c1 [e [_ [He _]]]]. congruence.
  - destruct C as [c1 [c2 [e [_ [_ [He _]]]]]]. congruence.
  - destruct C as [c1 [c2 [c3 [E1 [E2 [E3 Hf]]]]]].
    rewrite H1 in E1. rewrite H2 in E2. rewrite H3 in E3.
    injection E1 as <-. injection E2 as <-. injection E3 as <-.
    rewrite Hf. unfold data_get. cbn [data trace].
    split; [|split; [|split; [|split]]].
    + rewrite !pd_get_set_other by (apply hstr_neq; discriminate).
      rewrite pd_get_set_same. reflexivity.
    + rewrite pd_get_set_other by (apply hstr_neq; discriminate).
      rewrite pd_get_set_same. reflexivity.
    + rewrite pd_get_set_same. reflexivity.
    + reflexivity.
    + intros h N1 N2 N3.
      rewrite !pd_get_set_other by (intros E; symmetry in E; contradiction).
      reflexivity.
Qed.

Lemma fetch_success_stores_witness :
  data_get (fetch_data net_up (set_season "2021" init)) "results" = Ok (JObj [])
  /\ trace (fetch_data net_up (set_season "2021" init))
     = fetch_requests "2021" ++ [ShowInfo "Success" "Data fetched successfully!"].
Proof.
  destruct (fetch_success_stores net_up (set_season "2021" init) (JObj []) (JObj [])
              (JObj []) eq_refl eq_refl eq_refl eq_refl) as [_ [H2 [_ [H4 _]]]].
  split; [exact H2 | exact H4].
Defined.

(** X2.  A fetch changes nothing but the store and the history: the
    selection, the season input, the axes and the canvas are as before.
    The requests it sends are the first [n] of the three, in order, and
    [n] is 0 exactly when the season input is not all digits. *)
Theorem fetch_data_frame (net : string -> response) (app : App) :
  chart_type (fetch_data net app) = chart_type app
  /\ season_entry (fetch_data net app) = season_entry app
  /\ ax (fetch_data net app) = ax app
  /\ canvas (fetch_data net app) = canvas app
  /\ exists n evs,
      trace (fetch_data net app) = trace app ++ evs
      /\ filter is_request evs = firstn n (fetch_requests (season_entry app))
      /\ (n = 0%nat <-> isdigit (season_entry app) = false).
Proof.
  destruct (fetch_data_cases net app) as [[Hd Hf]|[Hd [C|[C|[C|C]]]]].
  - rewrite Hf. cbn. repeat split; try reflexivity.
    exists 0%nat. eexists. split; [reflexivity|]. split; [reflexivity|]. tauto.
  - destruct C as [e [_ Hf]]. rewrite Hf. cbn. repeat split; try reflexivity.
    exists 1%nat. eexists. split; [reflexivity|]. split; [reflexivity|].
    split; [discriminate | congruence].
  - destruct C as [c1 [e [_ [_ Hf]]]]. rewrite Hf. cbn. repeat split; try reflexivity.
    exists 2%nat. eexists. split; [reflexivity|]. split; [reflexivity|].
    split; [discriminate | congruence].
  - destruct C as [c1 [c2 [e [_ [_ [_ Hf]]]]]]. rewrite Hf. cbn.
    repeat split; try reflexivity.
    exists 3%nat. eexists. split; [reflexivity|]. split; [reflexivity|].
    split; [discriminate | congruence].
  - destruct C as [c1 [c2 [c3 [_ [_ [_ Hf]]]]]]. rewrite Hf. cbn.
    repeat split; try reflexivity.
    exists 3%nat. eexists. split; [reflexivity|]. split; [reflexivity|].
    split; [discriminate | congruence].
Qed.


(** X4.  The success box is shown exactly when the season input is all
    digits and all three requests succeed. *)
Theorem fetch_success_iff (net : string -> response) (app : App) :
  (exists evs, trace (fetch_data net app)
               = trace app ++ evs ++ [ShowInfo "Success" "Data fetched successfully!"])
  <-> isdigit (season_entry app) = true
      /\ exists b1 b2 b3,
          outcome net (standings_url (season_entry app)) = inr b1
          /\ outcome net (results_url (season_entry app)) = inr b2
          /\ outcome net (constructor_standings_url (season_entry app)) = inr b3.
Proof.
  assert (Hlast : forall (t e1 e2 : list event) (a b : event),
             t ++ e1 ++ [a] = t ++ e2 ++ [b] -> a = b).
  { intros t e1 e2 a b H. apply app_inv_head in H.
    apply app_inj_tail in H. tauto. }
  destruct (fetch_data_cases net app) as [[Hd Hf]|[Hd [C|[C|[C|C]]]]].
  - split.
    + intros [evs H]. rewrite Hf in H. cbn [trace] in H.
      apply (Hlast _ [] evs) in H. discriminate H.
    + intros [H _]. congruence.
  - destruct C as [e [He Hf]]. split.
    + intros [evs H]. rewrite Hf in H. cbn [trace] in H.
      apply Hlast in H. discriminate H.
    + intros [_ [b1 [b2 [b3 [H1 _]]]]]. congruence.
  - destruct C as [c1 [e [_ [He Hf]]]]. split.
    + intros [evs H]. rewrite Hf in H. cbn [trace] in H.
      apply Hlast in H. discriminate H.
    + intros [_ [b1 [b2 [b3 [_ [H2 _]]]]]]. congruence.
  - destruct C as [c1 [c2 [e [_ [_ [He Hf]]]]]]. split.
    + intros [evs H]. rewrite Hf in H. cbn [trace] in H.
      apply Hlast in H. discriminate H.
    + intros [_ [b1 [b2 [b3 [_ [_ H3]]]]]]. congruence.
  - destruct C as [c1 [c2 [c3 [E1 [E2 [E3 Hf]]]]]]. split.
    + intros _. split; [assumption|]. exists c1, c2, c3. auto.
    + intros _. rewrite Hf. cbn [trace]. eexists. reflexivity.
Qed.

(** ** [update_chart] *)

Lemma plot_chart (bar_error : series -> option exn) (app : App) (payload : string)
      (agg : json -> result series) (tt xl yl : string) :
  (p <- data_get app payload ;; s <- agg p ;; plot_bars bar_error s tt xl yl app)
  = match (p <- match pd_get (data app) (HStr payload) with
                | Some v => Ok v
                | None => Err KeyError
                end ;;
           s <- agg p ;; Ok (Some (mk_chart s tt xl yl))) with
    | Ok (Some c) =>
        plot_bars bar_error (c_series c) (c_title c) (c_xlabel c) (c_ylabel c) app
    | Ok None => Ok app
    | Err e => Err e
    end.
Proof.
  unfold data_get.
  destruct (pd_get (data app) (HStr payload)) as [p|]; simpl; [|reflexivity].
  destruct (agg p); reflexivity.
Qed.

(** The plot methods read the store and the selection, and write the
    axes; nothing else. *)
Lemma plot_selected_chart (py_float : json -> result float)
  (bar_error : series -> option exn) (app : App) :
  plot_selected py_float bar_error app
  = match selected_chart py_float (data app) (chart_type app) with
    | Ok (Some c) =>
        plot_bars bar_error (c_series c) (c_title c) (c_xlabel c) (c_ylabel c) app
    | Ok None => Ok app
    | Err e => Err e
    end.
Proof.
  unfold plot_selected, selected_chart. cbv zeta.
  repeat match goal with
         | |- context [if ?c then _ else _] => destruct c; [apply plot_chart|]
         end.
  reflexivity.
Qed.

Lemma update_chart_chart (py_float : json -> result float)
  (bar_error : series -> option exn) (app : App) :
  update_chart py_float bar_error app
  = if pd_is_empty (data app) then
      (emit (ShowError "Error" "No data available. Please fetch data first.") app, None)
    else
      match selected_chart py_float (data app) (chart_type app) with
      | Ok (Some c) =>
          match bar_error (c_series c) with
          | Some e => (clear_axes app, Some e)
          | None =>
              (canvas_draw (draw_bars (c_series c) (c_title c) (c_xlabel c) (c_ylabel c)
                              (clear_axes app)), None)
          end
      | Ok None => (canvas_draw (clear_axes app), None)
      | Err e => (clear_axes app, Some e)
      end.
Proof.
  unfold update_chart. destruct (pd_is_empty (data app)); [reflexivity|].
  rewrite plot_selected_chart.
  change (data (clear_axes app)) with (data app).
  change (chart_type (clear_axes app)) with (chart_type app).
  destruct (selected_chart py_float (data app) (chart_type app)) as [[c|]|e];
    try reflexivity.
  unfold plot_bars. destruct (bar_error (c_series c)); reflexivity.
Qed.

Lemma selected_chart_title (py_float : json -> result float) (d : pydict json)
      (name : string) (c : chart) :
  selected_chart py_float d name = Ok (Some c) -> c_title c = name.
Proof.
  unfold selected_chart. cbv zeta. intros H.
  repeat match type of H with
         | context [String.eqb name ?t] =>
             let E := fresh "E" in
             destruct (String.eqb name t) eqn:E;
             [ apply String.eqb_eq in E; do 2 bind_inv H; injection H as <-;
               symmetry; exact E |]
         end.
  discriminate H.
Qed.

Lemma selected_chart_none (py_float : json -> result float) (d : pydict json)
      (name : string) :
  selected_chart py_float d name = Ok None <-> ~ In name chart_types.
Proof.
  unfold selected_chart, chart_types. cbv zeta. split.
  - intros H Hin.
    repeat match type of H with
           | context [String.eqb name ?t] =>
               let E := fresh "E" in
               destruct (String.eqb name t) eqn:E;
               [ do 2 bind_inv H; discriminate H | apply String.eqb_neq in E ]
           end.
    simpl in Hin. intuition congruence.
  - intros Hn.
    repeat match goal with
           | |- context [String.eqb name ?t] =>
               let E := fresh "E" in
               destruct (String.eqb name t) eqn:E;
               [ apply String.eqb_eq in E; exfalso; apply Hn; subst name;
                 simpl; tauto |]
           end.
    reflexivity.
Qed.

(** X5.  When [update_chart] returns normally on a non-empty store with
    one of the five selections, the axes hold exactly one bar container,
    whatever they held before; the title is the selected chart type, the
    tick labels are rotated by 90, the canvas shows these axes and no
    message box appears. *)
Theorem update_chart_draws (py_float : json -> result float)
  (bar_error : series -> option exn) (app : App) :
  pd_is_empty (data app) = false ->
  In (chart_type app) chart_types ->
  snd (update_chart py_float bar_error app) = None ->
  exists s,
    bars (ax (fst (update_chart py_float bar_error app))) = [s]
    /\ title (ax (fst (update_chart py_float bar_error app))) = chart_type app
    /\ xtick_rotation (ax (fst (update_chart py_float bar_error app))) = Some 90
    /\ canvas (fst (update_chart py_float bar_error app)) = ax (fst (update_chart py_float bar_error app))
    /\ trace (fst (update_chart py_float bar_error app)) = trace app.
Proof.
  intros Hne Hin. rewrite update_chart_chart, Hne.
  destruct (selected_chart py_float (data app) (chart_type app)) as [[c|]|e] eqn:E.
  - destruct (bar_error (c_series c)); [discriminate|].
    intros _. exists (c_series c). cbn.
    rewrite (selected_chart_title _ _ _ _ E). repeat split.
  - apply selected_chart_none in E. contradiction.
  - discriminate.
Qed.

Lemma update_chart_draws_witness :
  exists s,
    bars (ax (fst (update_chart float_of_decimal bar_rejects
                     (set_chart_type "Most Wins by Driver" (set_data "results" season_2021 init)))))
    = [s].
Proof.
  destruct (update_chart_draws float_of_decimal bar_rejects
              (set_chart_type "Most Wins by Driver" (set_data "results" season_2021 init))
              eq_refl (or_intror (or_intror (or_introl eq_refl))) eq_refl)
    as [s [H _]].
  exists s. exact H.
Defined.

(** X6.  [update_chart] never touches the store, the selection or the
    season input and never sends a request.  It adds to the history the
    "No data available" box when the store is empty and nothing
    otherwise. *)
Theorem update_chart_frame (py_float : json -> result float)
  (bar_error : series -> option exn) (app : App) :
  data (fst (update_chart py_float bar_error app)) = data app
  /\ chart_type (fst (update_chart py_float bar_error app)) = chart_type app
  /\ season_entry (fst (update_chart py_float bar_error app)) = season_entry app
  /\ trace (fst (update_chart py_float bar_error app))
     = trace app
       ++ (if pd_is_empty (data app)
           then [ShowError "Error" "No data available. Please fetch data first."]
           else []).
Proof.
  rewrite update_chart_chart. destruct (pd_is_empty (data app)).
  - cbn. repeat split.
  - destruct (selected_chart py_float (data app) (chart_type app)) as [[c|]|e];
      [destruct (bar_error (c_series c))| |];
      cbn; rewrite app_nil_r; repeat split.
Qed.

(** X7.  Pressing "Update Chart" twice gives what pressing it once gives:
    the same axes, the same canvas, the same store and the same exception
    or none.  Bars do not pile up. *)
Theorem update_chart_twice (py_float : json -> result float)
  (bar_error : series -> option exn) (app : App) :
  let once := update_chart py_float bar_error app in
  let twice := update_chart py_float bar_error (fst once) in
  ax (fst twice) = ax (fst once)
  /\ canvas (fst twice) = canvas (fst once)
  /\ data (fst twice) = data (fst once)
  /\ snd twice = snd once.
Proof.
  cbv zeta. rewrite (update_chart_chart py_float bar_error app).
  destruct (pd_is_empty (data app)) eqn:Hne.
  - rewrite update_chart_chart. cbn. rewrite Hne. cbn. repeat split.
  - destruct (selected_chart py_float (data app) (chart_type app)) as [[c|]|e] eqn:E;
      [destruct (bar_error (c_series c)) eqn:B| |];
      rewrite update_chart_chart; cbn; rewrite Hne, E; try rewrite B;
      cbn; repeat split.
Qed.

(** X8.  On a non-empty store that lacks the payload the selected chart
    reads, [update_chart] clears the axes and lets a [KeyError] out; the
    canvas is not redrawn and no message box is shown. *)
Theorem update_chart_missing_payload (py_float : json -> result float)
  (bar_error : series -> option exn) (app : App)
        (key : string) :
  pd_is_empty (data app) = false ->
  payload_key (chart_type app) = Some key ->
  pd_get (data app) (HStr key) = None ->
  update_chart py_float bar_error app = (clear_axes app, Some KeyError).
Proof.
  intros Hne Hk Hg. rewrite update_chart_chart, Hne.
  unfold selected_chart, payload_key in *. cbv zeta.
  repeat match type of Hk with
         | context [String.eqb ?n ?t] =>
             destruct (String.eqb n t);
             [ injection Hk as <-; rewrite Hg; reflexivity |]
         end.
  discriminate Hk.
Qed.

Lemma update_chart_missing_payload_witness :
  update_chart float_of_decimal bar_rejects (set_chart_type "Most Wins by Driver" after_failed_fetch)
  = (clear_axes (set_chart_type "Most Wins by Driver" after_failed_fetch),
     Some KeyError).
Proof.
  exact (update_chart_missing_payload float_of_decimal bar_rejects
           (set_chart_type "Most Wins by Driver" after_failed_fetch) "results"
           eq_refl eq_refl eq_refl).
Defined.

Lemma selected_chart_lookups (py_float : json -> result float) (d d' : pydict json)
      (name : string) :
  pd_get d (HStr "standings") = pd_get d' (HStr "standings") ->
  pd_get d (HStr "results") = pd_get d' (HStr "results") ->
  pd_get d (HStr "constructor_standings") = pd_get d' (HStr "constructor_standings") ->
  selected_chart py_float d name = selected_chart py_float d' name.
Proof.
  intros H1 H2 H3. unfold selected_chart. cbv zeta. rewrite H1, H2, H3. reflexivity.
Qed.

Lemma fetch_data_selection (net : string -> response) (app : App) :
  chart_type (fetch_data net app) = chart_type app.
Proof.
  destruct (fetch_data_cases net app) as [[_ Hf]|[_ [C|[C|[C|C]]]]].
  - rewrite Hf. reflexivity.
  - destruct C as [e [_ Hf]]. rewrite Hf. reflexivity.
  - destruct C as [c1 [e [_ [_ Hf]]]]. rewrite Hf. reflexivity.
  - destruct C as [c1 [c2 [e [_ [_ [_ Hf]]]]]]. rewrite Hf. reflexivity.
  - destruct C as [c1 [c2 [c3 [_ [_ [_ Hf]]]]]]. rewrite Hf. reflexivity.
Qed.

Lemma fetch_success_lookups (net : string -> response) (app : App) (b1 b2 b3 : json) :
  isdigit (season_entry app) = true ->
  outcome net (standings_url (season_entry app)) = inr b1 ->
  outcome net (results_url (season_entry app)) = inr b2 ->
  outcome net (constructor_standings_url (season_entry app)) = inr b3 ->
  pd_get (data (fetch_data net app)) (HStr "standings") = Some b1
  /\ pd_get (data (fetch_data net app)) (HStr "results") = Some b2
  /\ pd_get (data (fetch_data net app)) (HStr "constructor_standings") = Some b3
  /\ pd_is_empty (data (fetch_data net app)) = false.
Proof.
  intros Hd H1 H2 H3. unfold fetch_data, request. rewrite Hd, H1, H2, H3.
  cbn [negb data emit set_data].
  rewrite !pd_get_set_same.
  rewrite !(pd_get_set_other _ (HStr "constructor_standings"))
    by (apply hstr_neq; discriminate).
  rewrite pd_get_set_same.
  rewrite (pd_get_set_other _ (HStr "results")) by (apply hstr_neq; discriminate).
  rewrite pd_get_set_same.
  repeat split.
  destruct (data app) as [|e0 r]; cbn; [reflexivity|].
  repeat match goal with
         | |- context [if ?c then _ else _] => destruct c; cbn
         end; reflexivity.
Qed.

(** X9.  After a fetch whose three requests succeed, what "Update Chart"
    draws is decided by the three bodies of that fetch and the selection
    alone: two applications with whatever stores, axes and histories
    before the fetch end with the same exception or none and with the
    same bars, title and axis labels; when there is no exception and
    the selection is one of the five chart types they end with the same
    axes altogether and the same canvas.  (After an exception, and when
    no plot method runs, the tick labels keep the rotation they had.) *)
Theorem chart_after_fetch_is_fresh (py_float : json -> result float)
  (bar_error : series -> option exn)
        (net : string -> response) (app app' : App) (b1 b2 b3 : json) :
  isdigit (season_entry app) = true ->
  season_entry app' = season_entry app ->
  chart_type app' = chart_type app ->
  outcome net (standings_url (season_entry app)) = inr b1 ->
  outcome net (results_url (season_entry app)) = inr b2 ->
  outcome net (constructor_standings_url (season_entry app)) = inr b3 ->
  let after := update_chart py_float bar_error (fetch_data net app) in
  let after' := update_chart py_float bar_error (fetch_data net app') in
  snd after = snd after'
  /\ bars (ax (fst after)) = bars (ax (fst after'))
  /\ title (ax (fst after)) = title (ax (fst after'))
  /\ xlabel (ax (fst after)) = xlabel (ax (fst after'))
  /\ ylabel (ax (fst after)) = ylabel (ax (fst after'))
  /\ (snd after = None -> In (chart_type app) chart_types ->
      ax (fst after) = ax (fst after') /\ canvas (fst after) = canvas (fst after')).
Proof.
  intros Hd Hs Hc H1 H2 H3.
  assert (Hd' : isdigit (season_entry app') = true) by (rewrite Hs; assumption).
  rewrite <- Hs in H1, H2, H3.
  destruct (fetch_success_lookups net app' b1 b2 b3 Hd' H1 H2 H3)
    as [G1' [G2' [G3' Hn']]].
  rewrite Hs in H1, H2, H3.
  destruct (fetch_success_lookups net app b1 b2 b3 Hd H1 H2 H3)
    as [G1 [G2 [G3 Hn]]].
  cbv zeta.
  rewrite !update_chart_chart, Hn, Hn', !fetch_data_selection, Hc.
  rewrite (selected_chart_lookups py_float (data (fetch_data net app))
             (data (fetch_data net app')) (chart_type app))
    by congruence.
  destruct (selected_chart py_float (data (fetch_data net app')) (chart_type app))
    as [[c|]|e] eqn:E; [destruct (bar_error (c_series c))| |];
    cbn; repeat split; try congruence;
    exfalso; eapply selected_chart_none; eassumption.
Qed.

Lemma chart_after_fetch_is_fresh_witness :
  ax (fst (update_chart float_of_decimal bar_rejects
             (fetch_data net_2021 (set_season "2021" init))))
  = ax (fst (update_chart float_of_decimal bar_rejects
               (fetch_data net_2021 (set_season "2021" after_failed_fetch)))).
Proof.
  assert (E : snd (update_chart float_of_decimal bar_rejects
                     (fetch_data net_2021 (set_season "2021" init))) = None)
    by (vm_compute; reflexivity).
  destruct (chart_after_fetch_is_fresh float_of_decimal bar_rejects net_2021
              (set_season "2021" init) (set_season "2021" after_failed_fetch)
              standings_2021 season_2021 constructors_2021
              eq_refl eq_refl eq_refl eq_refl eq_refl eq_refl)
    as [_ [_ [_ [_ [_ H]]]]].
  exact (proj1 (H E (or_introl eq_refl))).
Defined.

(** ** The states the application can reach *)

Lemma pd_mem_slots {V : Type} (d : pydict V) (h : hkey) :
  pd_mem d h = existsb (fun s => hkey_eqb (fst s) h) (slots_of d).
Proof.
  unfold pd_mem. induction d as [|e r IH]; simpl; [reflexivity|].
  destruct (hkey_eqb (ekey e) h); simpl; [reflexivity | assumption].
Qed.

Lemma slots_set {V : Type} (d : pydict V) (h : hkey) (k : json) (v : V) :
  slots_of (pd_set d h k v)
  = if pd_mem d h then slots_of d else slots_of d ++ [(h, k)].
Proof.
  unfold pd_mem. induction d as [|e r IH]; simpl; [reflexivity|].
  destruct (hkey_eqb (ekey e) h) eqn:E; simpl; [reflexivity|].
  rewrite IH. destruct (pd_get r h); reflexivity.
Qed.

(** Assigning slot [i] to a store that holds the first [n >= i] slots
    gives a store that holds the first [max n (i + 1)] slots. *)
Lemma slots_put (d : pydict json) (n i : nat) (h : hkey) (k v : json) :
  slots_of d = firstn n store_slots ->
  nth_error store_slots i = Some (h, k) ->
  (i <= n)%nat ->
  slots_of (pd_set d h k v) = firstn (Nat.max n (S i)) store_slots.
Proof.
  intros Hd Hi Hle. rewrite slots_set, pd_mem_slots, Hd.
  unfold store_slots in *.
  destruct i as [|[|[|i]]]; cbn in Hi; try (destruct i; discriminate Hi);
    injection Hi as <- <-;
    destruct n as [|[|[|[|n]]]]; try lia; reflexivity.
Qed.

Lemma fetch_store_prefix (net : string -> response) (app : App) :
  (exists n, slots_of (data app) = firstn n store_slots) ->
  exists n, slots_of (data (fetch_data net app)) = firstn n store_slots.
Proof.
  intros [n Hn].
  pose proof (fun v => slots_put (data app) n 0 _ _ v Hn eq_refl (Nat.le_0_l n)) as P1.
  assert (P2 : forall v1 v2,
             slots_of (pd_set (pd_set (data app) (HStr "standings") (JStr "standings") v1)
                         (HStr "results") (JStr "results") v2)
             = firstn (Nat.max (Nat.max n 1) 2) store_slots).
  { intros v1 v2. apply (slots_put _ (Nat.max n 1) 1); [apply P1 | reflexivity | lia]. }
  assert (P3 : forall v1 v2 v3,
             slots_of (pd_set (pd_set (pd_set (data app) (HStr "standings")
                                         (JStr "standings") v1)
                                 (HStr "results") (JStr "results") v2)
                         (HStr "constructor_standings") (JStr "constructor_standings") v3)
             = firstn (Nat.max (Nat.max (Nat.max n 1) 2) 3) store_slots).
  { intros v1 v2 v3.
    apply (slots_put _ (Nat.max (Nat.max n 1) 2) 2); [apply P2 | reflexivity | lia]. }
  destruct (fetch_data_cases net app) as [[_ Hf]|[_ [C|[C|[C|C]]]]].
  - rewrite Hf. exists n. assumption.
  - destruct C as [e [_ Hf]]. rewrite Hf. exists n. assumption.
  - destruct C as [c1 [e [_ [_ Hf]]]]. rewrite Hf. eexists. apply P1.
  - destruct C as [c1 [c2 [e [_ [_ [_ Hf]]]]]]. rewrite Hf. eexists. apply P2.
  - destruct C as [c1 [c2 [c3 [_ [_ [_ Hf]]]]]]. rewrite Hf. eexists. apply P3.
Qed.

Lemma update_chart_data (py_float : json -> result float)
  (bar_error : series -> option exn) (app : App) :
  data (fst (update_chart py_float bar_error app)) = data app.
Proof.
  rewrite update_chart_chart. destruct (pd_is_empty (data app)); [reflexivity|].
  destruct (selected_chart py_float (data app) (chart_type app)) as [[c|]|e];
    [destruct (bar_error (c_series c))| |]; reflexivity.
Qed.

(** X10.  In every state the application can reach, the keys of the
    store are the first [n] of "standings", "results",
    "constructor_standings", in this order; so a store that is not empty
    holds a standings payload. *)
Theorem reachable_store (py_float : json -> result float)
  (bar_error : series -> option exn) (app : App) :
  reachable py_float bar_error app ->
  (exists n, pd_keys (data app)
             = firstn n [JStr "standings"; JStr "results"; JStr "constructor_standings"])
  /\ (pd_is_empty (data app) = false -> exists p, data_get app "standings" = Ok p).
Proof.
  intros Hr.
  assert (Inv : exists n, slots_of (data app) = firstn n store_slots).
  { induction Hr.
    - exists 0%nat. reflexivity.
    - assumption.
    - assumption.
    - apply fetch_store_prefix. assumption.
    - rewrite update_chart_data. assumption. }
  destruct Inv as [n Hn]. split.
  - exists n. unfold pd_keys.
    replace (map eobj (data app)) with (map snd (slots_of (data app)))
      by (unfold slots_of; rewrite map_map; reflexivity).
    rewrite Hn, <- firstn_map. reflexivity.
  - intros Hne. unfold data_get. destruct (data app) as [|e r]; [discriminate|].
    destruct n as [|n]; [discriminate|]. simpl in Hn. injection Hn as Hk _ _.
    simpl. rewrite Hk. simpl. eexists. reflexivity.
Qed.

Lemma reachable_store_witness :
  exists p, data_get after_failed_fetch "standings" = Ok p.
Proof.
  exact (proj2 (reachable_store float_of_decimal bar_rejects after_failed_fetch
                  (reach_fetch _ _ _ net_results_down
                     (reach_season _ _ _ "2021" (reach_init _ _))))
           eq_refl).
Defined.

(** X11.  In every state the application can reach, the selection is one
    of the five chart types, the axes and the canvas hold at most one
    bar container each, and a chart on the canvas carries the title of
    one of the five chart types. *)
Theorem reachable_chart (py_float : json -> result float)
  (bar_error : series -> option exn) (app : App) :
  reachable py_float bar_error app ->
  In (chart_type app) chart_types
  /\ (List.length (bars (ax app)) <= 1)%nat
  /\ (List.length (bars (canvas app)) <= 1)%nat
  /\ (bars (canvas app) <> [] -> In (title (canvas app)) chart_types).
Proof.
  intros Hr. induction Hr as [|app season Hr IH|app name Hr IH Hin|app net Hr IH|app Hr IH].
  - simpl. repeat split; auto. intros H. contradiction.
  - exact IH.
  - destruct IH as [_ IH]. split; [exact Hin | exact IH].
  - destruct (fetch_data_cases net app) as [[_ Hf]|[_ [C|[C|[C|C]]]]].
    + rewrite Hf. exact IH.
    + destruct C as [e [_ Hf]]. rewrite Hf. exact IH.
    + destruct C as [c1 [e [_ [_ Hf]]]]. rewrite Hf. exact IH.
    + destruct C as [c1 [c2 [e [_ [_ [_ Hf]]]]]]. rewrite Hf. exact IH.
    + destruct C as [c1 [c2 [c3 [_ [_ [_ Hf]]]]]]. rewrite Hf. exact IH.
  - destruct IH as [I1 [I2 [I3 I4]]]. rewrite update_chart_chart.
    destruct (pd_is_empty (data app)); [cbn; auto|].
    destruct (selected_chart py_float (data app) (chart_type app)) as [[c|]|e] eqn:E;
      [destruct (bar_error (c_series c))| |]; cbn.
    + repeat split; auto.
    + rewrite (selected_chart_title _ _ _ _ E). repeat split; auto.
    + repeat split; auto. intros H. contradiction.
    + repeat split; auto.
Qed.

Lemma reachable_chart_witness :
  (List.length
     (bars (canvas (fst (update_chart float_of_decimal bar_rejects
                           (fst (update_chart float_of_decimal bar_rejects
                                   (fetch_data net_2021 (set_season "2021" init))))))))
   <= 1)%nat.
Proof.
  exact (proj1 (proj2 (proj2
           (reachable_chart float_of_decimal bar_rejects _
              (reach_update _ _ _
                 (reach_update _ _ _
                    (reach_fetch _ _ _ net_2021
                       (reach_season _ _ _ "2021" (reach_init _ _))))))))).
Defined.

(** ** The standings charts *)

(** X12.  "Constructor Championship Standings": when the payload lists
    the entries [entries], each with a constructor name and with points
    that [float] reads, the series is the constructor names in payload
    order with the parsed points in payload order.  Conversely a series,
    when one is produced, has one label and one value per entry, taken
    from the entry at the same index. *)
Theorem constructor_series_spec (py_float : json -> result float) (payload : json) :
  (forall entries names pts,
      standing_entries "ConstructorStandings" payload = Ok entries ->
      Forall2 (fun e l => constructor_name e = Ok l) entries names ->
      Forall2 (fun e f => (p <- getitem e "points" ;; py_float p) = Ok f) entries pts ->
      constructor_series py_float payload = Ok (names, map NFloat pts))
  /\ (forall ls vs,
         constructor_series py_float payload = Ok (ls, vs) ->
         exists entries,
           standing_entries "ConstructorStandings" payload = Ok entries
           /\ List.length ls = List.length entries
           /\ List.length vs = List.length entries
           /\ forall i e, nth_error entries i = Some e ->
                exists l f, nth_error ls i = Some l
                            /\ nth_error vs i = Some (NFloat f)
                            /\ constructor_name e = Ok l
                            /\ (p <- getitem e "points" ;; py_float p) = Ok f).
Proof.
  split.
  - intros entries names pts He Hn Hp.
    unfold standing_entries in He. bind_inv He.
    unfold constructor_series. rewrite Ha. simpl. rewrite He. simpl.
    apply mapM_Forall2 in Hn. rewrite Hn. simpl.
    rewrite (points_of_float _ _ _ Hp). reflexivity.
  - intros ls vs H. apply standings_series_inv in H.
    destruct H as [entries [He [Hl Hv]]]. exists entries.
    split; [assumption|].
    split; [eapply mapM_length; eassumption|].
    split; [eapply mapM_length; eassumption|].
    intros i e Hi.
    destruct (mapM_nth _ _ _ Hl i e Hi) as [l [Hli Hle]].
    destruct (mapM_nth _ _ _ Hv i e Hi) as [v [Hvi Hve]].
    unfold points_of in Hve. do 2 bind_inv Hve. injection Hve as <-.
    exists l, a0. rewrite Ha. simpl. auto.
Qed.

Lemma constructor_series_spec_witness :
  constructor_series float_of_decimal constructors_2021
  = Ok ([JStr "Mercedes"; JStr "Red Bull"],
        map NFloat [S754_finite false 5396403069124608 (-43);
                    S754_finite false 5150112464502784 (-43)]).
Proof.
  assert (Hn : Forall2 (fun e l => constructor_name e = Ok l)
                 [constructor_standing "Mercedes" "613.5";
                  constructor_standing "Red Bull" "585.5"]
                 [JStr "Mercedes"; JStr "Red Bull"])
    by (repeat constructor).
  assert (Hp : Forall2 (fun e f => (p <- getitem e "points" ;; float_of_decimal p) = Ok f)
                 [constructor_standing "Mercedes" "613.5";
                  constructor_standing "Red Bull" "585.5"]
                 [S754_finite false 5396403069124608 (-43);
                  S754_finite false 5150112464502784 (-43)])
    by (repeat constructor; vm_compute; reflexivity).
  exact (proj1 (constructor_series_spec float_of_decimal constructors_2021)
           _ _ _ eq_refl Hn Hp).
Defined.

(** X13.  A season without standings: when [StandingsLists] is an empty
    list, both standings aggregations raise [IndexError], and
    [update_chart] with a standings chart selected clears the axes and
    lets it out. *)
Theorem standings_list_empty (py_float : json -> result float)
  (bar_error : series -> option exn) (payload m t : json) :
  getitem payload "MRData" = Ok m ->
  getitem m "StandingsTable" = Ok t ->
  getitem t "StandingsLists" = Ok (JArr []) ->
  total_points_series py_float payload = Err IndexError
  /\ constructor_series py_float payload = Err IndexError
  /\ (forall app,
         chart_type app = "Total Points Distribution" ->
         data_get app "standings" = Ok payload ->
         update_chart py_float bar_error app = (clear_axes app, Some IndexError))
  /\ (forall app,
         chart_type app = "Constructor Championship Standings" ->
         data_get app "constructor_standings" = Ok payload ->
         update_chart py_float bar_error app = (clear_axes app, Some IndexError)).
Proof.
  intros Hm Ht Hl.
  assert (H1 : total_points_series py_float payload = Err IndexError).
  { unfold total_points_series, standings_of. rewrite Hm. cbn [bind].
    rewrite Ht. cbn [bind]. rewrite Hl. reflexivity. }
  assert (H2 : constructor_series py_float payload = Err IndexError).
  { unfold constructor_series, standings_of. rewrite Hm. cbn [bind].
    rewrite Ht. cbn [bind]. rewrite Hl. reflexivity. }
  split; [assumption|]. split; [assumption|]. split.
  - intros app Hc Hd. rewrite update_chart_chart.
    unfold data_get in Hd.
    destruct (pd_get (data app) (HStr "standings")) as [p|] eqn:Hg; [|discriminate].
    injection Hd as ->.
    assert (Hne : pd_is_empty (data app) = false)
      by (destruct (data app); [discriminate | reflexivity]).
    rewrite Hne, Hc. unfold selected_chart. cbn. rewrite Hg. cbn [bind].
    rewrite H1. reflexivity.
  - intros app Hc Hd. rewrite update_chart_chart.
    unfold data_get in Hd.
    destruct (pd_get (data app) (HStr "constructor_standings")) as [p|] eqn:Hg;
      [|discriminate].
    injection Hd as ->.
    assert (Hne : pd_is_empty (data app) = false)
      by (destruct (data app); [discriminate | reflexivity]).
    rewrite Hne, Hc. unfold selected_chart. cbn. rewrite Hg. cbn [bind].
    rewrite H2. reflexivity.
Qed.

Lemma standings_list_empty_witness :
  total_points_series float_of_decimal no_standings = Err IndexError
  /\ constructor_series float_of_decimal no_standings = Err IndexError.
Proof.
  destruct (standings_list_empty float_of_decimal bar_rejects no_standings _ _
              eq_refl eq_refl eq_refl) as [H1 [H2 _]].
  split; [exact H1 | exact H2].
Defined.

(** ** The results charts *)

(** X14.  A race without results: the wins loop raises [IndexError] at
    the first race whose result list is empty, whatever follows. *)
Theorem most_wins_empty_race (payload : json) (before after : list json)
        (race : json) (d : pydict Z) :
  race_list payload = Ok (before ++ race :: after) ->
  foldM wins_race before [] = Ok d ->
  getitem race "Results" = Ok (JArr []) ->
  most_wins_series payload = Err IndexError.
Proof.
  intros Hr Hb He. unfold most_wins_series, win_counts_of.
  unfold race_list in Hr. bind_inv Hr. rewrite Ha. cbn [bind]. rewrite Hr. cbn [bind].
  rewrite foldM_app, Hb. cbn [bind foldM]. unfold wins_race at 1. rewrite He.
  reflexivity.
Qed.

Lemma most_wins_empty_race_witness :
  most_wins_series season_with_empty_race = Err IndexError.
Proof.
  exact (most_wins_empty_race season_with_empty_race
           [race_entry [result_entry "Hamilton" "1"; result_entry "Verstappen" "2"]]
           [race_entry [result_entry "Verstappen" "1"]]
           (race_entry [])
           [mk_entry (HStr "Hamilton") (JStr "Hamilton") 1]
           eq_refl eq_refl eq_refl).
Defined.

(** X15.  The average and the podium chart do not depend on how the
    results are divided into races: two payloads whose results, read race
    after race, are the same list give the same two series.  In
    particular a race without results changes nothing. *)
Theorem results_split_irrelevant (payload payload' : json)
        (pss pss' : list (list placing)) :
  placings payload = Ok pss ->
  placings payload' = Ok pss' ->
  List.concat pss = List.concat pss' ->
  average_finish_series payload = average_finish_series payload'
  /\ podium_series payload = podium_series payload'.
Proof.
  intros Hp Hp' Hc. split.
  - rewrite !average_finish_closed, Hp, Hp'. cbn [bind]. rewrite Hc. reflexivity.
  - rewrite !podium_closed.
    rewrite (podium_entries_placings _ _ Hp), (podium_entries_placings _ _ Hp').
    cbn [bind]. rewrite !somes_podium, Hc. reflexivity.
Qed.

Lemma results_split_irrelevant_witness :
  average_finish_series season_with_empty_race = average_finish_series season_in_one_race
  /\ podium_series season_with_empty_race = podium_series season_in_one_race.
Proof.
  assert (H1 : placings season_with_empty_race
               = Ok [[placed "Hamilton" 1; placed "Verstappen" 2]; [];
                     [placed "Verstappen" 1]])
    by (vm_compute; reflexivity).
  assert (H2 : placings season_in_one_race
               = Ok [[placed "Hamilton" 1; placed "Verstappen" 2; placed "Verstappen" 1]])
    by (vm_compute; reflexivity).
  exact (results_split_irrelevant _ _ _ _ H1 H2 eq_refl).
Defined.

(** X16.  A payload without races gives the empty series in all three
    results aggregations, and no error. *)
Theorem no_races_empty_series (payload : json) :
  race_list payload = Ok [] ->
  average_finish_series payload = Ok ([], [])
  /\ most_wins_series payload = Ok ([], [])
  /\ podium_series payload = Ok ([], []).
Proof.
  intros H. unfold race_list in H. bind_inv H.
  unfold average_finish_series, finish_positions_of, most_wins_series, win_counts_of,
    podium_series, podium_counts_of.
  rewrite Ha. cbn [bind]. rewrite H. repeat split.
Qed.

Lemma no_races_empty_series_witness :
  average_finish_series (results_payload []) = Ok ([], [])
  /\ most_wins_series (results_payload []) = Ok ([], [])
  /\ podium_series (results_payload []) = Ok ([], []).
Proof. exact (no_races_empty_series (results_payload []) eq_refl). Defined.

Lemma count_set_positive (d : pydict Z) (h : hkey) (k : json) :
  Forall (fun e => 1 <= evalue e) d ->
  Forall (fun e => 1 <= evalue e) (pd_set d h k (pd_get_default d h 0 + 1)).
Proof.
  unfold pd_get_default. induction d as [|e r IH]; intros H; simpl.
  - constructor; [simpl; lia | constructor].
  - inversion H as [|? ? He Hr]; subst.
    destruct (hkey_eqb (ekey e) h); constructor; simpl; auto; lia.
Qed.

Lemma wins_race_positive (d d' : pydict Z) (race : json) :
  Forall (fun e => 1 <= evalue e) d -> wins_race d race = Ok d' ->
  Forall (fun e => 1 <= evalue e) d'.
Proof.
  unfold wins_race. intros Hd H. do 4 bind_inv H. injection H as <-.
  apply count_set_positive. assumption.
Qed.

Lemma podium_result_positive (d d' : pydict Z) (res : json) :
  Forall (fun e => 1 <= evalue e) d -> podium_result d res = Ok d' ->
  Forall (fun e => 1 <= evalue e) d'.
Proof.
  unfold podium_result. intros Hd H. do 2 bind_inv H.
  destruct (a0 <=? 3).
  - do 2 bind_inv H. injection H as <-. apply count_set_positive. assumption.
  - injection H as <-. assumption.
Qed.

Lemma win_counts_positive (payload : json) (d : pydict Z) :
  win_counts_of payload = Ok d -> Forall (fun e => 1 <= evalue e) d.
Proof.
  unfold win_counts_of. intros H. do 2 bind_inv H.
  eapply (foldM_invariant (Forall (fun e => 1 <= evalue e)));
    [| constructor | eassumption].
  intros ? ? ? ?. apply wins_race_positive. assumption.
Qed.

Lemma podium_counts_positive (payload : json) (d : pydict Z) :
  podium_counts_of payload = Ok d -> Forall (fun e => 1 <= evalue e) d.
Proof.
  unfold podium_counts_of. intros H. do 2 bind_inv H.
  eapply (foldM_invariant (Forall (fun e => 1 <= evalue e)));
    [| constructor | eassumption].
  intros d0 race d1 Hd0 Hr. unfold podium_race in Hr. do 2 bind_inv Hr.
  eapply (foldM_invariant (Forall (fun e => 1 <= evalue e)));
    [| eassumption | eassumption].
  intros ? ? ? ?. apply podium_result_positive. assumption.
Qed.

Lemma values_positive (d : pydict Z) :
  Forall (fun e => 1 <= evalue e) d ->
  Forall (fun v => exists n, v = NInt n /\ 1 <= n) (map NInt (pd_values d)).
Proof.
  intros H. induction H; simpl; constructor; auto. eexists. split; [reflexivity | assumption].
Qed.

(** X17.  The wins chart and the podium chart have no empty bars: every
    value is an integer count of at least 1.  A driver without a win, or
    without a podium finish, is not listed at all. *)
Theorem counts_at_least_one (payload : json) (ls : list json) (vs : list num) :
  most_wins_series payload = Ok (ls, vs) \/ podium_series payload = Ok (ls, vs) ->
  Forall (fun v => exists n, v = NInt n /\ 1 <= n) vs.
Proof.
  intros [H|H].
  - unfold most_wins_series in H. bind_inv H. injection H as <- <-.
    apply values_positive. eapply win_counts_positive. eassumption.
  - unfold podium_series in H. bind_inv H. injection H as <- <-.
    apply values_positive. eapply podium_counts_positive. eassumption.
Qed.

Lemma counts_at_least_one_witness :
  Forall (fun v => exists n, v = NInt n /\ 1 <= n) [NInt 3; NInt 3; NInt 2; NInt 1].
Proof.
  assert (E : podium_series season_2021
              = Ok ([JStr "Hamilton"; JStr "Verstappen"; JStr "Bottas"; JStr "Norris"],
                    [NInt 3; NInt 3; NInt 2; NInt 1]))
    by (vm_compute; reflexivity).
  exact (counts_at_least_one season_2021 _ _ (or_intror E)).
Defined.

Lemma positive_length (d : pydict Z) :
  Forall (fun e => 1 <= evalue e) d -> zlen d <= zsum_values d.
Proof.
  unfold zlen. intros H. induction H as [|e r He Hr IH]; simpl List.length; simpl zsum_values.
  - simpl. lia.
  - lia.
Qed.

(** X18.  The wins chart never lists more drivers than there are races,
    and it is empty exactly when the payload has no race. *)
Theorem most_wins_labels_bound (payload : json) (ls : list json) (vs : list num) :
  most_wins_series payload = Ok (ls, vs) ->
  exists races,
    race_list payload = Ok races
    /\ (List.length ls <= List.length races)%nat
    /\ (ls = [] <-> races = []).
Proof.
  intros H. unfold most_wins_series in H. bind_inv H. injection H as <- <-.
  pose proof (win_counts_positive _ _ Ha) as Hpos.
  unfold win_counts_of in Ha. do 2 bind_inv Ha.
  exists a1. split; [unfold race_list; rewrite Ha0; assumption|].
  pose proof (wins_loop_sum _ _ _ Ha) as Hsum. simpl in Hsum.
  pose proof (positive_length _ Hpos) as Hlen. unfold zlen in *.
  unfold pd_keys. rewrite length_map. split; [lia|]. split.
  - intros E. apply map_eq_nil in E. subst a. simpl in Hsum.
    destruct a1; [reflexivity | simpl in Hsum; lia].
  - intros ->. simpl in Ha. injection Ha as <-. reflexivity.
Qed.

Lemma most_wins_labels_bound_witness :
  exists races,
    race_list season_2021 = Ok races
    /\ (List.length [JStr "Hamilton"; JStr "Verstappen"] <= List.length races)%nat.
Proof.
  assert (E : most_wins_series season_2021
              = Ok ([JStr "Hamilton"; JStr "Verstappen"], [NInt 1; NInt 2]))
    by (vm_compute; reflexivity).
  destruct (most_wins_labels_bound season_2021 _ _ E) as [races [H1 [H2 _]]].
  exists races. split; [exact H1 | exact H2].
Defined.

(** ** The exceptions of the results aggregations *)

Lemma bind_Err {A B : Type} (r : result A) (k : A -> result B) (e : exn) :
  bind r k = Err e -> r = Err e \/ exists a, r = Ok a /\ k a = Err e.
Proof.
  destruct r as [a|e0]; simpl; intros H.
  - right. exists a. auto.
  - left. injection H as ->. reflexivity.
Qed.

Lemma foldM_Err {A B : Type} (P : exn -> Prop) (step : A -> B -> result A) :
  (forall a x e, step a x = Err e -> P e) ->
  forall l a e, foldM step l a = Err e -> P e.
Proof.
  intros Hstep. induction l as [|x r IH]; intros a e H; simpl in H; [discriminate|].
  apply bind_Err in H. destruct H as [H|[a' [_ H]]]; eauto.
Qed.

Lemma getitem_Err (x : json) (k : string) (e : exn) :
  getitem x k = Err e -> lookup_error e.
Proof.
  unfold getitem, lookup_error. destruct x; try (intros H; injection H as <-; tauto).
  destruct (assoc k fields); [discriminate | intros H; injection H as <-; tauto].
Qed.

Lemma getitem0_Err (x : json) (e : exn) : getitem0 x = Err e -> wins_error e.
Proof.
  unfold getitem0, wins_error.
  destruct x as [| | | |s|l|f]; try (intros H; injection H as <-; tauto).
  - destruct s; [intros H; injection H as <-; tauto | discriminate].
  - destruct l; [intros H; injection H as <-; tauto | discriminate].
Qed.

Lemma py_iter_Err (x : json) (e : exn) : py_iter x = Err e -> e = TypeError.
Proof.
  destruct x; simpl; try discriminate; intros H; injection H as <-; reflexivity.
Qed.

Lemma py_hash_Err (x : json) (e : exn) : py_hash x = Err e -> e = TypeError.
Proof.
  destruct x; simpl; try discriminate; intros H; injection H as <-; reflexivity.
Qed.

Lemma py_int_Err (x : json) (e : exn) :
  py_int x = Err e -> e = TypeError \/ e = ValueError \/ e = OverflowError.
Proof.
  destruct x; simpl; try discriminate; try (intros H; injection H as <-; tauto).
  - destruct f; simpl; try discriminate; intros H; injection H as <-; tauto.
  - destruct (int_of_string s); [discriminate | intros H; injection H as <-; tauto].
Qed.

Lemma family_name_Err (x : json) (e : exn) : family_name x = Err e -> lookup_error e.
Proof.
  unfold family_name. intros H.
  apply bind_Err in H. destruct H as [H|[a [_ H]]]; eapply getitem_Err; eassumption.
Qed.

Lemma races_of_Err (payload : json) (e : exn) : races_of payload = Err e -> lookup_error e.
Proof.
  unfold races_of. intros H.
  apply bind_Err in H. destruct H as [H|[a [_ H]]]; [eapply getitem_Err; eassumption|].
  apply bind_Err in H. destruct H as [H|[b [_ H]]]; eapply getitem_Err; eassumption.
Qed.

Ltac raise_cases H :=
  repeat (apply bind_Err in H;
          let a := fresh "a" in
          let Ha := fresh "Ha" in
          destruct H as [H|[a [Ha H]]]).

Ltac raise_kind :=
  match goal with
  | H : getitem _ _ = Err _ |- _ => apply getitem_Err in H; unfold lookup_error in H
  | H : getitem0 _ = Err _ |- _ => apply getitem0_Err in H; unfold wins_error in H
  | H : family_name _ = Err _ |- _ => apply family_name_Err in H; unfold lookup_error in H
  | H : races_of _ = Err _ |- _ => apply races_of_Err in H; unfold lookup_error in H
  | H : py_iter _ = Err _ |- _ => apply py_iter_Err in H
  | H : py_hash _ = Err _ |- _ => apply py_hash_Err in H
  | H : py_int _ = Err _ |- _ => apply py_int_Err in H
  | H : Ok _ = Err _ |- _ => discriminate H
  end.

Lemma wins_race_Err (d : pydict Z) (race : json) (e : exn) :
  wins_race d race = Err e -> wins_error e.
Proof.
  unfold wins_race. intros H. raise_cases H; raise_kind; unfold wins_error; tauto.
Qed.

Lemma podium_result_Err (d : pydict Z) (res : json) (e : exn) :
  podium_result d res = Err e -> position_error e.
Proof.
  unfold podium_result. intros H.
  apply bind_Err in H. destruct H as [H|[p [_ H]]];
    [raise_kind; unfold position_error; tauto|].
  apply bind_Err in H. destruct H as [H|[z [_ H]]];
    [raise_kind; unfold position_error; tauto|].
  destruct (z <=? 3); [|discriminate].
  raise_cases H; raise_kind; unfold position_error; tauto.
Qed.

Lemma average_result_Err (d : pydict (list Z)) (res : json) (e : exn) :
  average_result d res = Err e -> position_error e.
Proof.
  rewrite average_result_decode. unfold placing_of. intros H.
  raise_cases H; raise_kind; unfold position_error; tauto.
Qed.

Lemma average_result_nonempty (d d' : pydict (list Z)) (res : json) :
  Forall (fun e => evalue e <> []) d -> average_result d res = Ok d' ->
  Forall (fun e => evalue e <> []) d'.
Proof.
  rewrite average_result_decode. intros Hd H. bind_inv H. injection H as <-.
  unfold group_step. generalize (d_key (p_driver a)) (d_name (p_driver a)).
  intros h k.
  assert (Hv : append_position (pd_get d h) a <> []).
  { unfold append_position. destruct (pd_get d h) as [l|]; [destruct l|]; discriminate. }
  revert Hv. generalize (append_position (pd_get d h) a). intros v Hv.
  induction Hd as [|e r He Hr IH]; simpl.
  - constructor; [assumption | constructor].
  - destruct (hkey_eqb (ekey e) h); constructor; auto.
Qed.

Lemma finish_positions_nonempty (payload : json) (d : pydict (list Z)) :
  finish_positions_of payload = Ok d -> Forall (fun e => evalue e <> []) d.
Proof.
  unfold finish_positions_of. intros H. do 2 bind_inv H.
  eapply (foldM_invariant (Forall (fun e => evalue e <> [])));
    [| constructor | eassumption].
  intros d0 race d1 Hd0 Hr. unfold average_race in Hr. do 2 bind_inv Hr.
  eapply (foldM_invariant (Forall (fun e => evalue e <> [])));
    [| eassumption | eassumption].
  intros ? ? ? ?. apply average_result_nonempty. assumption.
Qed.

Lemma mean_Err (ps : list Z) (e : exn) :
  ps <> [] -> mean ps = Err e -> e = OverflowError.
Proof.
  intros Hne H. destruct (mean_returns ps Hne) as [[v Hv]|Ho]; congruence.
Qed.

Lemma mapM_Err {A B : Type} (P : A -> Prop) (Q : exn -> Prop) (f : A -> result B) :
  (forall x e, P x -> f x = Err e -> Q e) ->
  forall l e, Forall P l -> mapM f l = Err e -> Q e.
Proof.
  intros Hf. induction l as [|x r IH]; intros e Hl H; simpl in H; [discriminate|].
  inversion Hl as [|? ? Hx Hr]; subst.
  apply bind_Err in H. destruct H as [H|[y [_ H]]]; [eauto|].
  apply bind_Err in H. destruct H as [H|[ys [_ H]]]; [eauto | discriminate].
Qed.

(** X19.  What the three results aggregations can raise.  The wins loop
    raises only [KeyError], [TypeError] or [IndexError]; the podium loop
    and the average only [KeyError], [TypeError], [ValueError] or
    [OverflowError] (a position that is an infinity, or a mean too large
    for a float).  None of them divides by zero. *)
Theorem results_aggregation_errors (payload : json) (e : exn) :
  (most_wins_series payload = Err e -> wins_error e)
  /\ (podium_series payload = Err e -> position_error e)
  /\ (average_finish_series payload = Err e -> position_error e).
Proof.
  split; [|split]; intros H.
  - unfold most_wins_series in H.
    apply bind_Err in H. destruct H as [H|[d [_ H]]]; [|discriminate].
    unfold win_counts_of in H.
    apply bind_Err in H. destruct H as [H|[rs [_ H]]];
      [raise_kind; unfold wins_error; tauto|].
    apply bind_Err in H. destruct H as [H|[races [_ H]]];
      [raise_kind; unfold wins_error; tauto|].
    eapply (foldM_Err wins_error); [|eassumption]. apply wins_race_Err.
  - unfold podium_series in H.
    apply bind_Err in H. destruct H as [H|[d [_ H]]]; [|discriminate].
    unfold podium_counts_of in H.
    apply bind_Err in H. destruct H as [H|[rs [_ H]]];
      [raise_kind; unfold position_error; tauto|].
    apply bind_Err in H. destruct H as [H|[races [_ H]]];
      [raise_kind; unfold position_error; tauto|].
    eapply (foldM_Err position_error); [|eassumption].
    intros d race e0 Hr. unfold podium_race in Hr.
    apply bind_Err in Hr. destruct Hr as [Hr|[x [_ Hr]]];
      [raise_kind; unfold position_error; tauto|].
    apply bind_Err in Hr. destruct Hr as [Hr|[items [_ Hr]]];
      [raise_kind; unfold position_error; tauto|].
    eapply (foldM_Err position_error); [|eassumption]. apply podium_result_Err.
  - unfold average_finish_series in H.
    apply bind_Err in H. destruct H as [H|[d [Hd H]]].
    + unfold finish_positions_of in H.
      apply bind_Err in H. destruct H as [H|[rs [_ H]]];
        [raise_kind; unfold position_error; tauto|].
      apply bind_Err in H. destruct H as [H|[races [_ H]]];
        [raise_kind; unfold position_error; tauto|].
      eapply (foldM_Err position_error); [|eassumption].
      intros d race e0 Hr. unfold average_race in Hr.
      apply bind_Err in Hr. destruct Hr as [Hr|[x [_ Hr]]];
        [raise_kind; unfold position_error; tauto|].
      apply bind_Err in Hr. destruct Hr as [Hr|[items [_ Hr]]];
        [raise_kind; unfold position_error; tauto|].
      eapply (foldM_Err position_error); [|eassumption]. apply average_result_Err.
    + apply bind_Err in H. destruct H as [H|[vs [_ H]]]; [|discriminate].
      apply finish_positions_nonempty in Hd.
      right. right. right.
      eapply (mapM_Err (fun ps => ps <> []) (fun e => e = OverflowError) mean);
        [| | eassumption].
      * intros ps e0. apply mean_Err.
      * unfold pd_values. clear -Hd. induction Hd; simpl; constructor; assumption.
Qed.

Lemma results_aggregation_errors_witness :
  position_error ValueError.
Proof.
  assert (E : average_finish_series bad_season = Err ValueError)
    by (vm_compute; reflexivity).
  exact (proj2 (proj2 (results_aggregation_errors bad_season ValueError)) E).
Defined.

(** ** The drivers of the three results charts *)

Lemma placing_driver (x : json) (p : placing) (w : driver) :
  placing_of x = Ok p -> driver_of x = Ok w -> p_driver p = w.
Proof.
  unfold placing_of, driver_of. intros Hp Hw.
  destruct (family_name x) as [name|]; simpl in *; [|discriminate].
  destruct (getitem x "position") as [q|]; simpl in *; [|discriminate].
  destruct (py_int q); simpl in *; [|discriminate].
  destruct (py_hash name); simpl in *; [|discriminate].
  injection Hp as <-. injection Hw as <-. reflexivity.
Qed.

Lemma getitem0_iter (rs x : json) (items : list json) :
  py_iter rs = Ok items -> getitem0 rs = Ok x -> exists rest, items = x :: rest.
Proof.
  destruct rs as [| | | |s|l|f]; simpl; try discriminate.
  - destruct s; [discriminate|]. intros H1 H2.
    injection H1 as <-. injection H2 as <-. eexists. reflexivity.
  - destruct l; [discriminate|]. intros H1 H2.
    injection H1 as <-. injection H2 as <-. eexists. reflexivity.
Qed.

Lemma winners_in_placings (payload : json) (pss : list (list placing))
      (ws : list driver) (w : driver) :
  placings payload = Ok pss -> winners payload = Ok ws -> In w ws ->
  exists p, In p (List.concat pss) /\ p_driver p = w.
Proof.
  unfold placings, winners. intros Hp Hw Hin.
  destruct (race_list payload) as [races|]; simpl in *; [|discriminate].
  apply mapM_Forall2 in Hp. apply mapM_Forall2 in Hw.
  revert ws Hw Hin. induction Hp as [|race ps races pss Hrace _ IH]; intros ws Hw Hin.
  - inversion Hw; subst. contradiction.
  - inversion Hw as [|? w0 ? ws0 Hw0 Hws]; subst.
    destruct Hin as [->|Hin].
    + clear IH Hws Hw. unfold race_results in Hrace. unfold first_listed in Hw0.
      destruct (getitem race "Results") as [rs|]; simpl in *; [|discriminate].
      destruct (py_iter rs) as [items|] eqn:Hi; simpl in *; [|discriminate].
      destruct (getitem0 rs) as [x|] eqn:H0; simpl in *; [|discriminate].
      destruct (getitem0_iter _ _ _ Hi H0) as [rest ->].
      simpl in Hrace. do 2 bind_inv Hrace. injection Hrace as <-.
      exists a. split; [simpl; left; reflexivity|].
      eapply placing_driver; eassumption.
    + destruct (IH _ Hws Hin) as [p [Hp' Hd]].
      exists p. split; [simpl; apply in_or_app; right; assumption | assumption].
Qed.

(** X20.  Whoever has a bar in the wins chart or in the podium chart has
    one in the average chart: when the average series is produced, every
    label of the wins series and of the podium series of the same
    payload is the key of a label of the average series. *)
Theorem average_lists_all_drivers (payload : json) (la : list json) (va : list num) :
  average_finish_series payload = Ok (la, va) ->
  (forall lw vw l, most_wins_series payload = Ok (lw, vw) -> In l lw ->
                   exists l', In l' la /\ same_key l l')
  /\ (forall lp vp l, podium_series payload = Ok (lp, vp) -> In l lp ->
                      exists l', In l' la /\ same_key l l').
Proof.
  intros Ha. rewrite average_finish_closed in Ha. bind_inv Ha. cbv zeta in Ha.
  bind_inv Ha. injection Ha as <- _. rename a into pss. rename Ha0 into Hp.
  assert (Hall : forall d, (exists p, In p (List.concat pss) /\ p_driver p = d) ->
                           exists l', In l' (map d_name (first_seen (map p_driver (List.concat pss))))
                                      /\ same_key (d_name d) l').
  { intros d [p [Hin <-]].
    destruct (listed_driver _ _ Hin) as [d' [Hd' Hs]].
    exists (d_name d'). split; [apply in_map; assumption|].
    exists (d_key (p_driver p)). split; [eapply placings_hash; eassumption|].
    apply first_seen_incl in Hd'. apply in_map_iff in Hd'.
    destruct Hd' as [p' [<- Hin']]. apply same_driver_key in Hs. rewrite <- Hs.
    eapply placings_hash; eassumption. }
  split.
  - intros lw vw l Hw Hl. rewrite most_wins_closed in Hw. bind_inv Hw.
    injection Hw as <- _. apply in_map_iff in Hl. destruct Hl as [d [<- Hd]].
    apply Hall. apply first_seen_incl in Hd.
    eapply winners_in_placings; eassumption.
  - intros lp vp l Hpod Hl. rewrite podium_closed in Hpod.
    rewrite (podium_entries_placings _ _ Hp) in Hpod. simpl in Hpod.
    rewrite somes_podium in Hpod. injection Hpod as <- _.
    apply in_map_iff in Hl. destruct Hl as [d [<- Hd]].
    apply Hall. apply first_seen_incl in Hd. apply in_map_iff in Hd.
    destruct Hd as [p [Hpd Hin]]. unfold podium_placings in Hin.
    apply filter_In in Hin. exists p. tauto.
Qed.

Lemma average_lists_all_drivers_witness :
  exists l', In l' [JStr "Hamilton"; JStr "Verstappen"; JStr "Bottas"; JStr "Norris"]
             /\ same_key (JStr "Verstappen") l'.
Proof.
  assert (E1 : average_finish_series season_2021
               = Ok ([JStr "Hamilton"; JStr "Verstappen"; JStr "Bottas"; JStr "Norris"],
                     averages_2021))
    by (vm_compute; reflexivity).
  assert (E2 : most_wins_series season_2021
               = Ok ([JStr "Hamilton"; JStr "Verstappen"], [NInt 1; NInt 2]))
    by (vm_compute; reflexivity).
  exact (proj1 (average_lists_all_drivers season_2021 _ _ E1) _ _ (JStr "Verstappen")
           E2 (or_intror (or_introl eq_refl))).
Defined.

(** ** The order of the results *)

Lemma zsum_fold_right (l : list Z) : zsum l = fold_right Z.add 0 l.
Proof.
  unfold zsum. rewrite <- fold_left_rev_right.
  assert (H : forall l a, fold_right (fun y x => x + y) a l = fold_right Z.add 0 l + a).
  { clear. induction l as [|x r IH]; intros a; simpl; [lia|]. rewrite IH. lia. }
  rewrite H. clear H. induction l as [|x r IH]; simpl; [reflexivity|].
  rewrite fold_right_app. simpl.
  assert (H : forall l a, fold_right Z.add a l = fold_right Z.add 0 l + a).
  { clear. induction l as [|y s IHs]; intros a; simpl; [lia|]. rewrite IHs. lia. }
  rewrite H. lia.
Qed.

Lemma zsum_permutation (l l' : list Z) : Permutation l l' -> zsum l = zsum l'.
Proof.
  intros H. rewrite !zsum_fold_right.
  induction H; simpl; lia.
Qed.

Lemma filter_permutation {A : Type} (f : A -> bool) (l l' : list A) :
  Permutation l l' -> Permutation (filter f l) (filter f l').
Proof.
  intros H. induction H as [|x l l' H IH|x y l|l l' l'' H1 IH1 H2 IH2]; simpl.
  - constructor.
  - destruct (f x); [constructor|]; assumption.
  - destruct (f x), (f y); try apply Permutation_refl. apply perm_swap.
  - eapply Permutation_trans; eassumption.
Qed.

Lemma mean_permutation (l l' : list Z) : Permutation l l' -> mean l = mean l'.
Proof.
  intros H. unfold mean, zlen.
  rewrite (zsum_permutation _ _ H), (Permutation_length H). reflexivity.
Qed.

Lemma positions_same (d d' : driver) (all : list placing) :
  same_driver d d' = true -> positions_of d all = positions_of d' all.
Proof.
  intros H. unfold positions_of. f_equal. apply filter_ext. intros p.
  apply same_driver_subst. assumption.
Qed.

Lemma Forall2_nth {A B : Type} (R : A -> B -> Prop) (l : list A) (l' : list B) :
  Forall2 R l l' ->
  (forall i a, nth_error l i = Some a -> exists b, nth_error l' i = Some b /\ R a b)
  /\ (forall i b, nth_error l' i = Some b -> exists a, nth_error l i = Some a /\ R a b).
Proof.
  intros H. induction H as [|x y l l' Hxy _ [IH1 IH2]]; split; intros i c Hi.
  - destruct i; discriminate Hi.
  - destruct i; discriminate Hi.
  - destruct i as [|i]; simpl in *; [injection Hi as <-; eauto | apply IH1; assumption].
  - destruct i as [|i]; simpl in *; [injection Hi as <-; eauto | apply IH2; assumption].
Qed.

(** X21.  The bars of the average chart do not depend on the order of
    the results: when two payloads hold the same results in another
    order, every bar of the first chart is a bar of the second, under the
    same key and with the same value.  Only the place of the bar may
    differ. *)
Theorem average_order_irrelevant (payload payload' : json)
        (pss pss' : list (list placing))
        (ls ls' : list json) (vs vs' : list num) :
  placings payload = Ok pss ->
  placings payload' = Ok pss' ->
  Permutation (List.concat pss) (List.concat pss') ->
  average_finish_series payload = Ok (ls, vs) ->
  average_finish_series payload' = Ok (ls', vs') ->
  forall i l v,
    nth_error ls i = Some l -> nth_error vs i = Some v ->
    exists j l', nth_error ls' j = Some l' /\ nth_error vs' j = Some v /\ same_key l l'.
Proof.
  intros Hp Hp' Hperm Hs Hs' i l v Hl Hv.
  rewrite average_finish_closed, Hp in Hs. cbn [bind] in Hs. cbv zeta in Hs.
  rewrite average_finish_closed, Hp' in Hs'. cbn [bind] in Hs'. cbv zeta in Hs'.
  bind_inv Hs. injection Hs as <- <-.
  bind_inv Hs'. injection Hs' as <- <-.
  apply mapM_Forall2 in Ha, Ha0.
  set (all := List.concat pss) in *. set (all' := List.concat pss') in *.
  rewrite nth_error_map in Hl.
  destruct (nth_error (first_seen (map p_driver all)) i) as [d|] eqn:Hd; [|discriminate].
  simpl in Hl. injection Hl as <-.
  destruct (proj1 (Forall2_nth _ _ _ Ha) i d Hd) as [v0 [Hv0 Hm]].
  rewrite Hv in Hv0. injection Hv0 as <-.
  pose proof (nth_error_In _ _ Hd) as Hin.
  apply first_seen_incl in Hin. apply in_map_iff in Hin. destruct Hin as [p [Hpd Hpin]].
  assert (Hpin' : In p all') by (eapply Permutation_in; eassumption).
  destruct (listed_driver _ _ Hpin') as [d' [Hd' Hsame]].
  destruct (In_nth_error _ _ Hd') as [j Hj].
  destruct (proj1 (Forall2_nth _ _ _ Ha0) j d' Hj) as [v' [Hv' Hm']].
  exists j, (d_name d'). split; [rewrite nth_error_map, Hj; reflexivity|]. split.
  - rewrite Hpd in Hsame.
    rewrite (positions_same d' d all' Hsame) in Hm'.
    rewrite (mean_permutation (positions_of d all) (positions_of d all')) in Hm.
    + rewrite Hm in Hm'. injection Hm' as <-. assumption.
    + unfold positions_of. apply Permutation_map. apply filter_permutation. assumption.
  - exists (d_key d). split.
    + rewrite <- Hpd. eapply placings_hash; eassumption.
    + rewrite Hpd in Hsame. apply same_driver_key in Hsame. rewrite <- Hsame.
      apply first_seen_incl in Hd'. apply in_map_iff in Hd'.
      destruct Hd' as [p' [<- Hin']]. eapply placings_hash; eassumption.
Qed.

Lemma average_order_irrelevant_witness :
  exists j l',
    nth_error [JStr "Verstappen"; JStr "Hamilton"] j = Some l'
    /\ nth_error [NFloat (S754_finite false 6755399441055744 (-52)); NFloat float_two] j
       = Some (NFloat float_two)
    /\ same_key (JStr "Hamilton") l'.
Proof.
  assert (P1 : placings two_races
               = Ok [[placed "Hamilton" 1; placed "Verstappen" 2];
                     [placed "Verstappen" 1; placed "Hamilton" 3]])
    by (vm_compute; reflexivity).
  assert (P2 : placings two_races_swapped
               = Ok [[placed "Verstappen" 1; placed "Hamilton" 3];
                     [placed "Hamilton" 1; placed "Verstappen" 2]])
    by (vm_compute; reflexivity).
  assert (E1 : average_finish_series two_races
               = Ok ([JStr "Hamilton"; JStr "Verstappen"],
                     [NFloat float_two; NFloat (S754_finite false 6755399441055744 (-52))]))
    by (vm_compute; reflexivity).
  assert (E2 : average_finish_series two_races_swapped
               = Ok ([JStr "Verstappen"; JStr "Hamilton"],
                     [NFloat (S754_finite false 6755399441055744 (-52)); NFloat float_two]))
    by (vm_compute; reflexivity).
  assert (Hperm : Permutation
                    (List.concat [[placed "Hamilton" 1; placed "Verstappen" 2];
                                  [placed "Verstappen" 1; placed "Hamilton" 3]])
                    (List.concat [[placed "Verstappen" 1; placed "Hamilton" 3];
                                  [placed "Hamilton" 1; placed "Verstappen" 2]])).
  { apply (Permutation_app_comm [placed "Hamilton" 1; placed "Verstappen" 2]
             [placed "Verstappen" 1; placed "Hamilton" 3]). }
  exact (average_order_irrelevant _ _ _ _ _ _ _ _ P1 P2 Hperm E1 E2 0%nat
           (JStr "Hamilton") (NFloat float_two) eq_refl eq_refl).
Defined.
